(** * Speak Up server: complaint lifecycle and category counters

    A shallow embedding of the Mongoose models [Complaint] and [Category]
    (src/models/Complaint.js, src/models/Category.js), of the complaint
    routes (src/routes/complaints.js) and of the category controller
    (exports.getCategories ... exports.toggleFrequentStatus), followed by the
    properties of the complaint lifecycle and of the denormalised counters.

    Conventions of the embedding
    - a MongoDB collection is a finite map from [_id] to document;
    - an ObjectId is a natural number, a Date a natural number (a clock
      reading), a JavaScript Number holding a count an integer of [Z];
    - a stored complaint holds what the schema's types let MongoDB hold, not
      only what its validators accept: [findOneAndUpdate] runs no validator,
      so [status] is any string and the required references [user] and
      [subCategory] may be null; [save()] validates and may throw;
    - the users collection is an argument of the two handlers that populate
      a reference to a user that may be gone (the principal of a request is
      a stored user, by the [auth] middleware);
    - a request handler is a function from the request, the clock reading,
      the outcome of each call to an outside service (mail transport, file
      upload) and the database, to the response and the database it leaves;
    - requests run one after the other (no interleaving of handlers). *)

From stdpp Require Import gmap strings list fin_maps sorting.

Local Open Scope Z_scope.

(** ** Scalars *)

Abbreviation ObjectId := nat.
Abbreviation Date := nat.

(** The four values of [enum: ['pending', 'in-progress', 'resolved',
    'rejected']], as a request body that passed [isIn] carries them. *)
Inductive Status := Pending | InProgress | Resolved | Rejected.

(** [enum: ['low', 'medium', 'high']] *)
Inductive Priority := Low | Medium | High.

(** [role] of a user document. *)
Inductive Role := RoleUser | RoleAdmin.

#[global] Instance Status_eq_dec : EqDecision Status.
Proof. solve_decision. Defined.
#[global] Instance Priority_eq_dec : EqDecision Priority.
Proof. solve_decision. Defined.
#[global] Instance Role_eq_dec : EqDecision Role.
Proof. solve_decision. Defined.

(** The string that stands for a status in a document. *)
Definition status_name (s : Status) : string :=
  match s with
  | Pending => "pending"
  | InProgress => "in-progress"
  | Resolved => "resolved"
  | Rejected => "rejected"
  end.

(** The principal that the [auth] middleware stores in [req.user]. *)
Record User := mkUser {
  u_id : ObjectId;
  u_name : string;
  u_email : string;
  u_role : Role;
  u_isVerified : bool
}.

(** ** The Complaint model (complaintSchema) *)

(** The nested path [aiResponse]; a leaf that the document does not carry
    is [None].  [confidence] is kept in hundredths (the handler stores
    0.9), [category] as the id whose string it is. *)
Record AiResponse := mkAiResponse {
  ai_category : option ObjectId;
  ai_suggestion : option string;
  ai_confidence_percent : option nat
}.

(** The nested path [resolution]. *)
Record ResolutionInfo := mkResolution {
  res_text : option string;
  res_date : option Date;
  res_by : option ObjectId
}.

Record Comment := mkComment {
  cm_text : string;
  cm_user : ObjectId;
  cm_createdAt : Date
}.

Record EmailShare := mkEmailShare { es_to : string; es_date : Date }.
Record SocialShare := mkSocialShare { ss_platform : string; ss_date : Date }.

(** The nested path [sharedOn], as an object. *)
Record SharedOn := mkSharedOn {
  so_email : list EmailShare;
  so_social : list SocialShare
}.

(** A stored complaint.  [user] and [subCategory] are [None] when the
    document holds null, [status] is the stored string. *)
Record Complaint := mkComplaint {
  c_id : ObjectId;
  c_user : option ObjectId;
  c_title : string;
  c_description : string;
  c_category : ObjectId;
  c_subCategory : option ObjectId;
  c_status : string;
  c_priority : Priority;
  c_priorityValue : Z;
  c_attachments : list string;
  c_aiResponse : AiResponse;
  c_assignedTo : option ObjectId;
  c_resolution : ResolutionInfo;
  c_comments : list Comment;
  c_sharedOn_email : list EmailShare;
  c_sharedOn_social : list SocialShare;
  c_createdAt : Date;
  c_updatedAt : Date
}.

(** ** The Category model (subCategorySchema, categorySchema) *)

Record SubCategory := mkSubCategory {
  sub_id : ObjectId;
  sub_name : string;
  sub_icon : string;
  sub_description : string;
  sub_totalComplaints : Z;
  sub_createdAt : Date;
  sub_updatedAt : Date
}.

(** An entry of [userCounts]; [user] is not required by the schema and is
    [None] when the entry holds null. *)
Record UserCount := mkUserCount { uc_user : option ObjectId; uc_count : Z }.

(** The paths of [categorySchema]; the schema declares no
    [isFrequentlyUsed] path. *)
Record Category := mkCategory {
  cat_id : ObjectId;
  cat_name : string;
  cat_icon : string;
  cat_description : string;
  cat_subCategories : list SubCategory;
  cat_totalComplaints : Z;
  cat_userCounts : list UserCount;
  cat_createdAt : Date;
  cat_updatedAt : Date
}.

(** ** The database: the two collections the handlers touch *)

Record DB := mkDB {
  complaints : gmap nat Complaint;
  categories : gmap nat Category
}.

Definition empty_db : DB := mkDB ∅ ∅.

Definition with_complaints (m : gmap nat Complaint) (db : DB) : DB :=
  mkDB m (categories db).

Definition with_categories (m : gmap nat Category) (db : DB) : DB :=
  mkDB (complaints db) m.

(** ** Field assignments on documents *)

Definition set_c_updatedAt (t : Date) (c : Complaint) : Complaint :=
  mkComplaint (c_id c) (c_user c) (c_title c) (c_description c) (c_category c)
    (c_subCategory c) (c_status c) (c_priority c) (c_priorityValue c)
    (c_attachments c) (c_aiResponse c) (c_assignedTo c) (c_resolution c)
    (c_comments c) (c_sharedOn_email c) (c_sharedOn_social c) (c_createdAt c) t.

Definition set_c_priorityValue (v : Z) (c : Complaint) : Complaint :=
  mkComplaint (c_id c) (c_user c) (c_title c) (c_description c) (c_category c)
    (c_subCategory c) (c_status c) (c_priority c) v
    (c_attachments c) (c_aiResponse c) (c_assignedTo c) (c_resolution c)
    (c_comments c) (c_sharedOn_email c) (c_sharedOn_social c) (c_createdAt c)
    (c_updatedAt c).

Definition set_c_status (s : string) (c : Complaint) : Complaint :=
  mkComplaint (c_id c) (c_user c) (c_title c) (c_description c) (c_category c)
    (c_subCategory c) s (c_priority c) (c_priorityValue c)
    (c_attachments c) (c_aiResponse c) (c_assignedTo c) (c_resolution c)
    (c_comments c) (c_sharedOn_email c) (c_sharedOn_social c) (c_createdAt c)
    (c_updatedAt c).

Definition set_c_resolution (r : ResolutionInfo) (c : Complaint) : Complaint :=
  mkComplaint (c_id c) (c_user c) (c_title c) (c_description c) (c_category c)
    (c_subCategory c) (c_status c) (c_priority c) (c_priorityValue c)
    (c_attachments c) (c_aiResponse c) (c_assignedTo c) r
    (c_comments c) (c_sharedOn_email c) (c_sharedOn_social c) (c_createdAt c)
    (c_updatedAt c).

Definition set_c_comments (l : list Comment) (c : Complaint) : Complaint :=
  mkComplaint (c_id c) (c_user c) (c_title c) (c_description c) (c_category c)
    (c_subCategory c) (c_status c) (c_priority c) (c_priorityValue c)
    (c_attachments c) (c_aiResponse c) (c_assignedTo c) (c_resolution c)
    l (c_sharedOn_email c) (c_sharedOn_social c) (c_createdAt c)
    (c_updatedAt c).

Definition set_c_sharedOn_email (l : list EmailShare) (c : Complaint) : Complaint :=
  mkComplaint (c_id c) (c_user c) (c_title c) (c_description c) (c_category c)
    (c_subCategory c) (c_status c) (c_priority c) (c_priorityValue c)
    (c_attachments c) (c_aiResponse c) (c_assignedTo c) (c_resolution c)
    (c_comments c) l (c_sharedOn_social c) (c_createdAt c)
    (c_updatedAt c).

Definition set_c_sharedOn_social (l : list SocialShare) (c : Complaint) : Complaint :=
  mkComplaint (c_id c) (c_user c) (c_title c) (c_description c) (c_category c)
    (c_subCategory c) (c_status c) (c_priority c) (c_priorityValue c)
    (c_attachments c) (c_aiResponse c) (c_assignedTo c) (c_resolution c)
    (c_comments c) (c_sharedOn_email c) l (c_createdAt c)
    (c_updatedAt c).

Definition set_sub_totalComplaints (n : Z) (s : SubCategory) : SubCategory :=
  mkSubCategory (sub_id s) (sub_name s) (sub_icon s) (sub_description s) n
    (sub_createdAt s) (sub_updatedAt s).

Definition set_sub_updatedAt (t : Date) (s : SubCategory) : SubCategory :=
  mkSubCategory (sub_id s) (sub_name s) (sub_icon s) (sub_description s)
    (sub_totalComplaints s) (sub_createdAt s) t.

Definition set_cat_subCategories (l : list SubCategory) (k : Category) : Category :=
  mkCategory (cat_id k) (cat_name k) (cat_icon k) (cat_description k) l
    (cat_totalComplaints k) (cat_userCounts k) (cat_createdAt k) (cat_updatedAt k).

Definition set_cat_totalComplaints (n : Z) (k : Category) : Category :=
  mkCategory (cat_id k) (cat_name k) (cat_icon k) (cat_description k)
    (cat_subCategories k) n (cat_userCounts k) (cat_createdAt k) (cat_updatedAt k).

Definition set_cat_userCounts (l : list UserCount) (k : Category) : Category :=
  mkCategory (cat_id k) (cat_name k) (cat_icon k) (cat_description k)
    (cat_subCategories k) (cat_totalComplaints k) l (cat_createdAt k)
    (cat_updatedAt k).

Definition set_cat_updatedAt (t : Date) (k : Category) : Category :=
  mkCategory (cat_id k) (cat_name k) (cat_icon k) (cat_description k)
    (cat_subCategories k) (cat_totalComplaints k) (cat_userCounts k)
    (cat_createdAt k) t.

(** ** Category.js: hooks and methods *)

(** [categorySchema.pre('save')]: stamps the category and each of its
    subcategories. *)
Definition categorySchema_pre_save (now : Date) (k : Category) : Category :=
  set_cat_subCategories (map (set_sub_updatedAt now) (cat_subCategories k))
    (set_cat_updatedAt now k).

(** [subCategories.reduce((sum, sub) => sum + sub.totalComplaints, 0)] *)
Definition sum_totalComplaints (l : list SubCategory) : Z :=
  foldl (fun sum sub => sum + sub_totalComplaints sub) 0 l.

(** [categorySchema.methods.calculateTotalComplaints]: the total is
    reassigned only when the category has at least one subcategory. *)
Definition calculateTotalComplaints (k : Category) : Category :=
  match cat_subCategories k with
  | [] => k
  | _ :: _ => set_cat_totalComplaints (sum_totalComplaints (cat_subCategories k)) k
  end.

(** [category.save()] of the category stored under [id]. *)
Definition category_save (now : Date) (id : ObjectId) (k : Category) (db : DB) : DB :=
  with_categories (<[id := categorySchema_pre_save now k]> (categories db)) db.

(** ** Complaint.js: validation, queries and hooks *)

(** A String that is not empty: the [notEmpty()] validator of
    express-validator, and what [required] asks of a String path. *)
Definition notEmpty (s : string) : bool :=
  negb (bool_decide (s = EmptyString)).

(** The validation that [save()] runs before the hooks: the paths of the
    document that fail a validator of [complaintSchema] ([required] on
    [user], [title], [description] and [subCategory], [enum] on [status];
    [category] and [priority] hold a value of their type).  The
    ValidationError that [save()] throws names these paths; a document with
    none is saved. *)
Definition complaintSchema_validate (c : Complaint) : list string :=
  (if c_user c is None then ["user"] else [])
  ++ (if notEmpty (c_title c) then [] else ["title"])
  ++ (if notEmpty (c_description c) then [] else ["description"])
  ++ (if c_subCategory c is None then ["subCategory"] else [])
  ++ (if bool_decide (c_status c ∈ ["pending"; "in-progress"; "resolved"; "rejected"])
      then [] else ["status"]).

(** The filters of the two [countDocuments] calls. *)
Record Query := mkQuery {
  q_category : option ObjectId;
  q_subCategory : option ObjectId;
  q_user : option ObjectId
}.

(** One condition of a filter on a reference of a document. *)
Definition field_matches (f : option ObjectId) (v : option ObjectId) : bool :=
  match f with
  | None => true
  | Some x => bool_decide (v = Some x)
  end.

Definition matches (q : Query) (c : Complaint) : bool :=
  field_matches (q_category q) (Some (c_category c))
  && field_matches (q_subCategory q) (c_subCategory c)
  && field_matches (q_user q) (c_user c).

(** [Complaint.countDocuments(q)] *)
Definition countDocuments (q : Query) (db : DB) : Z :=
  Z.of_nat (size (filter (fun kv : nat * Complaint => matches q kv.2 = true)
                         (complaints db))).

(** [complaintSchema.pre('save')] *)
Definition priority_value (p : Priority) : Z :=
  match p with
  | Low => 0
  | High => 2
  | Medium => 1
  end.

Definition complaintSchema_pre_save (now : Date) (c : Complaint) : Complaint :=
  set_c_priorityValue (priority_value (c_priority c)) (set_c_updatedAt now c).

(** [category.subCategories.id(x)]: the first subdocument whose [_id] is [x]. *)
Definition subCategories_id (x : ObjectId) (l : list SubCategory) : option SubCategory :=
  find (fun s => bool_decide (sub_id s = x)) l.

(** Assignment through the reference returned by [subCategories.id(x)]. *)
Fixpoint assign_sub_totalComplaints (x : ObjectId) (n : Z) (l : list SubCategory)
  : list SubCategory :=
  match l with
  | [] => []
  | s :: r =>
      if bool_decide (sub_id s = x) then set_sub_totalComplaints n s :: r
      else s :: assign_sub_totalComplaints x n r
  end.

(** What [this.user] is in the hooks of a complaint document: the stored
    ObjectId, the user document that [populate('user', ...)] put in its
    place, or null (a complaint populated after its owner was deleted). *)
Inductive UserRef :=
| RefId (u : ObjectId)
| RefDocument (u : ObjectId)
| RefNull.

(** The ObjectId that a reference is cast to when it is stored or used in
    a filter. *)
Definition ref_id (r : UserRef) : option ObjectId :=
  match r with
  | RefId u | RefDocument u => Some u
  | RefNull => None
  end.

(** [x.equals(r)] for an ObjectId [x]: true of the same ObjectId, false of
    a document and of null. *)
Definition ObjectId_equals (x : ObjectId) (r : UserRef) : bool :=
  match r with
  | RefId u => bool_decide (x = u)
  | RefDocument _ | RefNull => false
  end.

(** [category.userCounts.find(uc => uc.user.equals(this.user))]: the
    entries are visited in order up to the first one that matches; the
    call of [equals] on an entry whose [user] is null throws a TypeError. *)
Fixpoint userCounts_find (this_user : UserRef) (l : list UserCount)
  : string + option UserCount :=
  match l with
  | [] => inr None
  | uc :: r =>
      match uc_user uc with
      | None => inl "Cannot read properties of null (reading 'equals')"
      | Some x =>
          if ObjectId_equals x this_user then inr (Some uc)
          else userCounts_find this_user r
      end
  end.

(** Assignment [userCount.count = n] through the reference returned by
    [find] for the ObjectId [u]. *)
Fixpoint assign_userCount (u : ObjectId) (n : Z) (l : list UserCount) : list UserCount :=
  match l with
  | [] => []
  | uc :: r =>
      if bool_decide (uc_user uc = Some u) then mkUserCount (uc_user uc) n :: r
      else uc :: assign_userCount u n r
  end.

(** The first step of [complaintSchema.post('save')] once the category is
    found: the counter of the complaint's subcategory is assigned on the
    category document in memory. *)
Definition recount_subCategory (c : Complaint) (k : Category) (db : DB) : Category :=
  match c_subCategory c with
  | Some subCategory =>
      match subCategories_id subCategory (cat_subCategories k) with
      | Some _ =>
          set_cat_subCategories
            (assign_sub_totalComplaints subCategory
               (countDocuments
                  (mkQuery (Some (c_category c)) (Some subCategory) None) db)
               (cat_subCategories k)) k
      | None => k
      end
  | None => k
  end.

(** The body of [complaintSchema.post('save')] once the category is found:
    the category document as it is handed to [category.save()], or the
    message of the TypeError thrown on the way. *)
Definition reconcile (this_user : UserRef) (c : Complaint) (k : Category) (db : DB)
  : string + Category :=
  let k1 := recount_subCategory c k db in
  match userCounts_find this_user (cat_userCounts k1) with
  | inl e => inl e
  | inr None =>
      inr (calculateTotalComplaints
             (set_cat_userCounts
                (cat_userCounts k1 ++ [mkUserCount (ref_id this_user) 1]) k1))
  | inr (Some _) =>
      match this_user with
      | RefId u =>
          inr (calculateTotalComplaints
                 (set_cat_userCounts
                    (assign_userCount u
                       (countDocuments (mkQuery (Some (c_category c)) None (Some u)) db)
                       (cat_userCounts k1)) k1))
      | RefDocument _ | RefNull =>
          (* [find] returns an entry for an ObjectId only *)
          inr (calculateTotalComplaints k1)
      end
  end.

(** [complaintSchema.post('save')] *)
Definition complaintSchema_post_save (now : Date) (this_user : UserRef) (c : Complaint)
    (db : DB) : string + DB :=
  match categories db !! c_category c with
  | Some k =>
      match reconcile this_user c k db with
      | inl e => inl e
      | inr k' => inr (category_save now (c_category c) k' db)
      end
  | None => inr db
  end.

(** How a call of [complaint.save()] ends. *)
Inductive SaveOutcome :=
| Invalid (paths : list string)
| PostHookThrew (saved : Complaint) (message : string)
| Saved (saved : Complaint).

(** [complaint.save()] of the document stored (or to be stored) under [id]:
    validation, pre-save hook, write, post-save hook.  A document that fails
    validation is not written.  An error thrown by the post-save hook
    rejects the call after the document is written.  The complaint of an
    outcome is the in-memory document after the pre-save hook; the second
    component is the database that the call leaves. *)
Definition complaint_save (now : Date) (id : ObjectId) (this_user : UserRef)
    (c : Complaint) (db : DB) : SaveOutcome * DB :=
  match complaintSchema_validate c with
  | [] =>
      let c' := complaintSchema_pre_save now c in
      let written := with_complaints (<[id := c']> (complaints db)) db in
      match complaintSchema_post_save now this_user c' written with
      | inl e => (PostHookThrew c' e, written)
      | inr db' => (Saved c', db')
      end
  | paths => (Invalid paths, db)
  end.

(** ** Requests, responses and outside services *)

(** What a call to an outside service (mail transport, file store) does. *)
Inductive Outcome (A : Type) :=
| Resolves (a : A)
| Throws (message : string).
Arguments Resolves {A} a.
Arguments Throws {A} message.

(** [JServerError e] is [{ message: 'Server error', error: e }];
    [JServerValidationError paths] is that object when the error is the
    ValidationError of a [save()], whose message names the paths. *)
Inductive Payload :=
| JComplaint (c : Complaint)
| JCategory (k : Category)
| JComment (cm : Comment)
| JMessage (m : string)
| JValidationErrors
| JServerError (error : string)
| JServerValidationError (paths : list string)
| JEmpty.

Record Response := mkResponse { status_code : nat; payload : Payload }.

(** [res.status(500).json({ message: 'Server error', error: error.message })] *)
Definition server_error (e : string) : Response := mkResponse 500 (JServerError e).

Definition validation_failed (paths : list string) : Response :=
  mkResponse 500 (JServerValidationError paths).

Definition not_found : Response := mkResponse 404 (JMessage "Complaint not found").

(** The [trim()] sanitizer of express-validator. *)
Fixpoint ltrim (s : string) : string :=
  match s with
  | EmptyString => EmptyString
  | String a r => if Ascii.is_space a then ltrim r else s
  end.

Definition trim (s : string) : string :=
  String.rev (ltrim (String.rev (ltrim s))).

Definition isLength_min (n : nat) (s : string) : bool :=
  (n <=? String.length s)%nat.

(** ** routes/complaints.js *)

(** The fields that [router.post('/')] reads from [req.body]. *)
Record CreateBody := mkCreateBody {
  b_title : string;
  b_description : string;
  b_category : option ObjectId;
  b_subCategory : option ObjectId;
  b_priority : option Priority
}.

(** [complaintValidation] *)
Definition complaintValidation (b : CreateBody) : bool :=
  isLength_min 5 (trim (b_title b))
  && isLength_min 10 (trim (b_description b))
  && bool_decide (is_Some (b_category b)).

(** The loop over [req.files]: uploads run in order and the first one that
    throws ends the handler. *)
Fixpoint upload_files (files : list (Outcome string)) (attachments : list string)
  : Outcome (list string) :=
  match files with
  | [] => Resolves attachments
  | Resolves secure_url :: rest => upload_files rest (attachments ++ [secure_url])
  | Throws e :: _ => Throws e
  end.

Definition aiSuggestion : string :=
  "Can't provide suggestion as the developer was broke and not able to afford the key as he already have utilized the free credits on his other personal projects".

(** [new Complaint({...})] with the schema defaults; [subCategory] is what
    the body carries. *)
Definition new_Complaint (now : Date) (oid : ObjectId) (user : ObjectId)
    (title description : string) (category : ObjectId) (subCategory : option ObjectId)
    (priority : Priority) (attachments : list string) : Complaint :=
  mkComplaint oid (Some user) title description category subCategory "pending" priority 1
    attachments (mkAiResponse (Some category) (Some aiSuggestion) (Some 90%nat)) None
    (mkResolution None None None) [] [] [] now now.

(** [router.post('/', verifiedAuth, upload.array(...), complaintValidation, ...)].
    [oid] is the ObjectId generated for the new document, [files] the
    outcome of each upload, [mail] the outcome of the notification. *)
Definition post_complaint (now : Date) (oid : ObjectId) (user : User)
    (b : CreateBody) (files : list (Outcome string)) (mail : Outcome unit)
    (db : DB) : Response * DB :=
  if negb (u_isVerified user) then
    (mkResponse 403 (JMessage "Email verification required"), db)
  else if negb (complaintValidation b) then (mkResponse 400 JValidationErrors, db)
  else
    match upload_files files [] with
    | Throws e => (server_error e, db)
    | Resolves attachments =>
        match b_category b with
        | None =>
            (* ruled out by [complaintValidation] *)
            (mkResponse 400 JValidationErrors, db)
        | Some category =>
            let complaint :=
              new_Complaint now oid (u_id user) (trim (b_title b))
                (trim (b_description b)) category (b_subCategory b)
                (default Medium (b_priority b)) attachments in
            match complaint_save now oid (RefId (u_id user)) complaint db with
            | (Invalid paths, _) => (validation_failed paths, db)
            | (PostHookThrew _ e, db') => (server_error e, db')
            | (Saved saved, db') =>
                match mail with
                | Throws e => (server_error e, db')
                | Resolves _ => (mkResponse 201 (JComplaint saved), db')
                end
            end
        end
    end.

(** The body of [router.put('/:id')], handed whole to [$set]: one optional
    value for each top-level path of the schema (a key with a dot, which
    addresses a sub-path, is outside this record).  [user], [subCategory]
    and [assignedTo] may be given as null, [status] is any string; a nested
    object is given as a whole, and a leaf or array that it leaves out is
    [None] or empty. *)
Record UpdateBody := mkUpdateBody {
  ub_user : option (option ObjectId);
  ub_title : option string;
  ub_description : option string;
  ub_category : option ObjectId;
  ub_subCategory : option (option ObjectId);
  ub_status : option string;
  ub_priority : option Priority;
  ub_priorityValue : option Z;
  ub_attachments : option (list string);
  ub_aiResponse : option AiResponse;
  ub_assignedTo : option (option ObjectId);
  ub_resolution : option ResolutionInfo;
  ub_comments : option (list Comment);
  ub_sharedOn : option SharedOn;
  ub_createdAt : option Date;
  ub_updatedAt : option Date
}.

(** [body(f).optional().trim().notEmpty()] *)
Definition optional_notEmpty (f : option string) : bool :=
  match f with
  | None => true
  | Some s => notEmpty (trim s)
  end.

(** The validation chain of [router.put('/:id')]; the checks of [category]
    and [priority] hold of every value of their types. *)
Definition updateValidation (b : UpdateBody) : bool :=
  optional_notEmpty (ub_title b) && optional_notEmpty (ub_description b).

Definition set_or_keep {A} (old : A) (new : option A) : A := default old new.

(** [{ $set: req.body }] applied to a stored complaint ([title] and
    [description] arrive trimmed by the sanitizers).  No validator of the
    schema runs.  Each key replaces the value of its path as a whole: the
    object given for [sharedOn], [resolution] or [aiResponse] takes the
    place of the stored one, sub-paths it leaves out included. *)
Definition apply_set (b : UpdateBody) (c : Complaint) : Complaint :=
  mkComplaint (c_id c)
    (set_or_keep (c_user c) (ub_user b))
    (set_or_keep (c_title c) (trim <$> ub_title b))
    (set_or_keep (c_description c) (trim <$> ub_description b))
    (set_or_keep (c_category c) (ub_category b))
    (set_or_keep (c_subCategory c) (ub_subCategory b))
    (set_or_keep (c_status c) (ub_status b))
    (set_or_keep (c_priority c) (ub_priority b))
    (set_or_keep (c_priorityValue c) (ub_priorityValue b))
    (set_or_keep (c_attachments c) (ub_attachments b))
    (set_or_keep (c_aiResponse c) (ub_aiResponse b))
    (set_or_keep (c_assignedTo c) (ub_assignedTo b))
    (set_or_keep (c_resolution c) (ub_resolution b))
    (set_or_keep (c_comments c) (ub_comments b))
    (set_or_keep (c_sharedOn_email c) (so_email <$> ub_sharedOn b))
    (set_or_keep (c_sharedOn_social c) (so_social <$> ub_sharedOn b))
    (set_or_keep (c_createdAt c) (ub_createdAt b))
    (set_or_keep (c_updatedAt c) (ub_updatedAt b)).

(** [Complaint.findOne({ _id: id, user: user })] *)
Definition findOne_owned (id user : ObjectId) (db : DB) : option Complaint :=
  match complaints db !! id with
  | Some c => if bool_decide (c_user c = Some user) then Some c else None
  | None => None
  end.

(** [Complaint.findById(id)] *)
Definition findById (id : ObjectId) (db : DB) : option Complaint :=
  complaints db !! id.

(** [router.put('/:id', auth, [...], ...)]: [findOneAndUpdate] writes the
    document without running the validators or the save hooks. *)
Definition put_complaint (id : ObjectId) (user : User) (b : UpdateBody)
    (mail : Outcome unit) (db : DB) : Response * DB :=
  if negb (updateValidation b) then (mkResponse 400 JValidationErrors, db)
  else
    match findOne_owned id (u_id user) db with
    | None => (not_found, db)
    | Some c =>
        let complaint := apply_set b c in
        let db' := with_complaints (<[id := complaint]> (complaints db)) db in
        match mail with
        | Throws e => (server_error e, db')
        | Resolves _ => (mkResponse 200 (JComplaint complaint), db')
        end
    end.

(** [router.delete('/:id', auth, ...)]: [findOneAndDelete] and nothing else. *)
Definition delete_complaint (id : ObjectId) (user : User) (db : DB) : Response * DB :=
  match findOne_owned id (u_id user) db with
  | None => (not_found, db)
  | Some _ =>
      (mkResponse 200 (JMessage "Complaint deleted successfully"),
       with_complaints (delete id (complaints db)) db)
  end.

(** [router.post('/:id/comments', auth, body('text').trim().notEmpty(), ...)].
    The complaint is loaded with [populate('user', 'name email')]: its owner
    is the principal, a stored user, so [this.user] is a user document when
    the hooks run.  The notification is sent only when the author is not
    the owner, which the owner filter of [findOne] rules out; its failure is
    caught and logged either way, so it has no part in the result. *)
Definition post_comment (now : Date) (id : ObjectId) (user : User) (text : string)
    (db : DB) : Response * DB :=
  if negb (notEmpty (trim text)) then (mkResponse 400 JValidationErrors, db)
  else
    match findOne_owned id (u_id user) db with
    | None => (not_found, db)
    | Some c =>
        let comment := mkComment (trim text) (u_id user) now in
        match complaint_save now id (RefDocument (u_id user))
                (set_c_comments (c_comments c ++ [comment]) c) db with
        | (Invalid paths, _) => (validation_failed paths, db)
        | (PostHookThrew _ e, db') => (server_error e, db')
        | (Saved _, db') =>
            match findById id db' with
            | None => (server_error "Cannot read properties of null", db')
            | Some populated =>
                match last (c_comments populated) with
                | None => (mkResponse 200 JEmpty, db')
                | Some newComment => (mkResponse 200 (JComment newComment), db')
                end
            end
        end
    end.

(** [body('platform').isIn(['twitter', 'facebook', 'linkedin'])] *)
Definition platform_isIn (platform : string) : bool :=
  bool_decide (platform ∈ ["twitter"; "facebook"; "linkedin"]).

(** [router.post('/:id/share/social', auth, ...)]; the complaint is not
    populated. *)
Definition share_social (now : Date) (id : ObjectId) (user : User)
    (platform : string) (db : DB) : Response * DB :=
  if negb (platform_isIn platform) then (mkResponse 400 JValidationErrors, db)
  else
    match findOne_owned id (u_id user) db with
    | None => (not_found, db)
    | Some c =>
        match complaint_save now id (RefId (u_id user))
                (set_c_sharedOn_social
                   (c_sharedOn_social c ++ [mkSocialShare platform now]) c) db with
        | (Invalid paths, _) => (validation_failed paths, db)
        | (PostHookThrew _ e, db') => (server_error e, db')
        | (Saved _, db') =>
            (mkResponse 200 (JMessage "Complaint shared on social media successfully"),
             db')
        end
    end.

(** The body of [router.patch('/:id/status')]. *)
Record StatusBody := mkStatusBody {
  sb_status : Status;
  sb_resolution : option string
}.

(** [this.user] of a complaint that was loaded without [populate]. *)
Definition stored_ref (user : option ObjectId) : UserRef :=
  match user with
  | Some u => RefId u
  | None => RefNull
  end.

(** [router.patch('/:id/status', auth, [...], ...)].  The check of
    [status] holds of every value of its type. *)
Definition patch_status (now : Date) (id : ObjectId) (user : User) (b : StatusBody)
    (mail : Outcome unit) (db : DB) : Response * DB :=
  if negb (optional_notEmpty (sb_resolution b)) then
    (mkResponse 400 JValidationErrors, db)
  else
    match findById id db with
    | None => (not_found, db)
    | Some c =>
        if negb (bool_decide (u_role user = RoleAdmin)) then
          (mkResponse 403 (JMessage "Not authorized to update complaint status"), db)
        else
          let c1 := set_c_status (status_name (sb_status b)) c in
          let c2 :=
            match sb_resolution b with
            | Some resolution =>
                set_c_resolution
                  (mkResolution (Some (trim resolution)) (Some now) (Some (u_id user)))
                  c1
            | None => c1
            end in
          match complaint_save now id (stored_ref (c_user c)) c2 db with
          | (Invalid paths, _) => (validation_failed paths, db)
          | (PostHookThrew _ e, db') => (server_error e, db')
          | (Saved saved, db') =>
              match mail with
              | Throws e => (server_error e, db')
              | Resolves _ => (mkResponse 200 (JComplaint saved), db')
              end
          end
    end.

(** [this.user] of a complaint that was loaded with
    [populate('user', 'name email')], [users] being the ids of the stored
    users: the document of the owner, or null when the owner is gone (or
    when the stored reference is null). *)
Definition populated_ref (users : gset nat) (user : option ObjectId) : UserRef :=
  match user with
  | Some u => if bool_decide (u ∈ users) then RefDocument u else RefNull
  | None => RefNull
  end.

Section EmailValidator.

(** The [isEmail] validator and the [normalizeEmail] sanitizer of
    express-validator, whose code lies outside the repository. *)
Variable isEmail : string -> bool.
Variable normalizeEmail : string -> string.

(** [router.post('/:id/share/email', auth, [body('email').isEmail().normalizeEmail()], ...)]:
    the complaint is looked up by [_id] alone and populated with its
    owner; [users] holds the ids of the stored users.  Validation reads
    the stored reference behind a populated path, so a complaint whose
    owner is gone is saved all the same. *)
Definition share_email (now : Date) (id : ObjectId) (user : User) (email : string)
    (mail : Outcome unit) (users : gset nat) (db : DB) : Response * DB :=
  if negb (isEmail email) then (mkResponse 400 JValidationErrors, db)
  else
    match findById id db with
    | None => (not_found, db)
    | Some c =>
        match mail with
        | Throws e => (server_error e, db)
        | Resolves _ =>
            match complaint_save now id (populated_ref users (c_user c))
                    (set_c_sharedOn_email
                       (c_sharedOn_email c ++ [mkEmailShare (normalizeEmail email) now]) c)
                    db with
            | (Invalid paths, _) => (validation_failed paths, db)
            | (PostHookThrew _ e, db') => (server_error e, db')
            | (Saved _, db') =>
                (mkResponse 200 (JMessage "Complaint shared successfully"), db')
            end
        end
    end.

End EmailValidator.
(** ** validators/categoryValidator.js *)

(** The double quote that Joi puts around a label in its own messages. *)
Definition dquote : string :=
  String (Ascii.Ascii false true false false false true false false) EmptyString.

(** The message of [any.required], which the schemas do not override. *)
Definition any_required (label : string) : string :=
  dquote ++ label ++ dquote ++ " is required".

(** [Joi.string().required().min(lo).max(hi).trim().messages({...})] on a
    value that is present: the message of the first rule that fails. *)
Definition joi_text (lo hi : nat) (string_empty string_min string_max : string)
    (v : string) : option string :=
  let t := trim v in
  if bool_decide (t = EmptyString) then Some string_empty
  else if (String.length t <? lo)%nat then Some string_min
  else if (hi <? String.length t)%nat then Some string_max
  else None.

Definition is_subtype_char (a : Ascii.ascii) : bool :=
  let n := Ascii.nat_of_ascii a in
  ((65 <=? n) && (n <=? 90) || (97 <=? n) && (n <=? 122) || (n =? 43))%nat.

Fixpoint drop_subtype (s : string) : string :=
  match s with
  | EmptyString => EmptyString
  | String a r => if is_subtype_char a then drop_subtype r else s
  end.

Definition strip_prefix (p s : string) : option string :=
  if String.prefix p s
  then Some (String.substring (String.length p) (String.length s - String.length p) s)
  else None.

(** The pattern [/^data:image\/[a-zA-Z+]+;base64,/]. *)
Definition icon_pattern (s : string) : bool :=
  match strip_prefix "data:image/" s with
  | None => false
  | Some r =>
      let r' := drop_subtype r in
      (String.length r' <? String.length r)%nat && String.prefix ";base64," r'
  end.

(** [Joi.string().required().pattern(...).messages({...})] of the [icon]
    key of [categorySchema]. *)
Definition joi_icon (v : option string) : option string :=
  match v with
  | None => Some (any_required "icon")
  | Some s =>
      if bool_decide (s = EmptyString) then Some "Category icon is required"
      else if icon_pattern s then None
      else Some "Invalid image format. Must be a base64 encoded image"
  end.

Definition first_error (a b : option string) : option string :=
  match a with
  | Some e => Some e
  | None => b
  end.

(** [exports.validateCategory]: [error.details[0].message], if there is an
    error (the keys are checked in the order of the schema). *)
Definition validateCategory (name : string) (icon : option string)
    (description : string) : option string :=
  first_error
    (joi_text 2 50 "Category name is required"
       "Category name must be at least 2 characters long"
       "Category name cannot exceed 50 characters" name)
    (first_error (joi_icon icon)
       (joi_text 10 500 "Category description is required"
          "Category description must be at least 10 characters long"
          "Category description cannot exceed 500 characters" description)).

(** [exports.validateSubCategory] *)
Definition validateSubCategory (name description : string) : option string :=
  first_error
    (joi_text 2 50 "Subcategory name is required"
       "Subcategory name must be at least 2 characters long"
       "Subcategory name cannot exceed 50 characters" name)
    (joi_text 10 500 "Subcategory description is required"
       "Subcategory description must be at least 10 characters long"
       "Subcategory description cannot exceed 500 characters" description).

(** ** The category controller *)

(** What a controller hands to [next]. *)
Inductive Thrown :=
| ApiError (status : nat) (message : string)
| MongooseValidationError
| DuplicateKeyError.

Inductive Reply :=
| Send (r : Response)
| Next (e : Thrown).

(** The fields the controllers read from [req.body] ([name] and
    [description] present, [icon] possibly absent). *)
Record CategoryBody := mkCategoryBody {
  cb_name : string;
  cb_description : string;
  cb_icon : option string
}.

(** [icon.startsWith('data:image/')] *)
Definition startsWith_data_image (icon : string) : bool :=
  String.prefix "data:image/" icon.

(** [maxLength: 5242880] of the [icon] paths. *)
Definition icon_maxLength (icon : string) : bool :=
  Z.of_nat (String.length icon) <=? 5242880.

(** [Category.findOne({ name })] finds a document. *)
Definition name_exists (name : string) (db : DB) : bool :=
  bool_decide (Exists (fun kv : nat * Category => cat_name kv.2 = name)
                 (map_to_list (categories db))).

(** The [unique: true] index on [name]: another stored category carries the
    name. *)
Definition name_clash (id : ObjectId) (name : string) (db : DB) : bool :=
  bool_decide (Exists (fun kv : nat * Category => kv.1 <> id /\ cat_name kv.2 = name)
                 (map_to_list (categories db))).

(** [category.save()] in a controller, for a document whose assigned paths
    are [icon] (when [icon] is given) and [name]: the schema validators and
    the index that these values can fail, then hook and write. *)
Definition validated_save (now : Date) (id : ObjectId) (icon : option string)
    (k : Category) (db : DB) : Thrown + Category * DB :=
  if negb (from_option icon_maxLength true icon) then inl MongooseValidationError
  else if name_clash id (cat_name k) db then inl DuplicateKeyError
  else inr (categorySchema_pre_save now k, category_save now id k db).

(** [exports.createCategory]; [cid] is the ObjectId of the new document. *)
Definition createCategory (now : Date) (cid : ObjectId) (b : CategoryBody) (db : DB)
  : Reply * DB :=
  match validateCategory (cb_name b) (cb_icon b) (cb_description b) with
  | Some message => (Next (ApiError 400 message), db)
  | None =>
      match cb_icon b with
      | None =>
          (Next (ApiError 400 "Invalid image format. Must be a base64 encoded image"), db)
      | Some icon =>
          if negb (startsWith_data_image icon) then
            (Next (ApiError 400 "Invalid image format. Must be a base64 encoded image"), db)
          else if name_exists (cb_name b) db then
            (Next (ApiError 400 "Category already exists"), db)
          else
            let category :=
              mkCategory cid (trim (cb_name b)) icon (trim (cb_description b)) [] 0 []
                now now in
            match validated_save now cid (Some icon) category db with
            | inl e => (Next e, db)
            | inr (saved, db') => (Send (mkResponse 201 (JCategory saved)), db')
            end
      end
  end.

(** [exports.addSubCategory]; [sid] is the ObjectId of the new subdocument. *)
Definition addSubCategory (now : Date) (id sid : ObjectId) (b : CategoryBody) (db : DB)
  : Reply * DB :=
  match cb_icon b with
  | None => (Next (ApiError 400 "Subcategory icon is required"), db)
  | Some icon =>
      if bool_decide (icon = EmptyString) then
        (Next (ApiError 400 "Subcategory icon is required"), db)
      else if negb (startsWith_data_image icon) then
        (Next (ApiError 400 "Invalid image format"), db)
      else
        match validateSubCategory (cb_name b) (cb_description b) with
        | Some message => (Next (ApiError 400 message), db)
        | None =>
            match categories db !! id with
            | None => (Next (ApiError 404 "Category not found"), db)
            | Some category =>
                if bool_decide (Exists (fun sub => sub_name sub = cb_name b)
                                  (cat_subCategories category)) then
                  (Next (ApiError 400 "Subcategory already exists in this category"), db)
                else
                  let sub :=
                    mkSubCategory sid (trim (cb_name b)) icon (trim (cb_description b))
                      0 now now in
                  match validated_save now id (Some icon)
                          (set_cat_subCategories (cat_subCategories category ++ [sub])
                             category) db with
                  | inl e => (Next e, db)
                  | inr (saved, db') => (Send (mkResponse 201 (JCategory saved)), db')
                  end
            end
        end
  end.

(** [Object.assign(category, updateData)] *)
Definition assign_category (name description : string) (icon : option string)
    (k : Category) : Category :=
  mkCategory (cat_id k) (trim name) (default (cat_icon k) icon) (trim description)
    (cat_subCategories k) (cat_totalComplaints k) (cat_userCounts k)
    (cat_createdAt k) (cat_updatedAt k).

(** [if (icon)]: an absent or empty icon is left as it is. *)
Definition given_icon (icon : option string) : option string :=
  match icon with
  | Some i => if bool_decide (i = EmptyString) then None else Some i
  | None => None
  end.

(** [exports.updateCategory] *)
Definition updateCategory (now : Date) (id : ObjectId) (b : CategoryBody) (db : DB)
  : Reply * DB :=
  match categories db !! id with
  | None => (Next (ApiError 404 "Category not found"), db)
  | Some category =>
      if negb (bool_decide (cb_name b = cat_name category)) && name_exists (cb_name b) db
      then (Next (ApiError 400 "Category name already exists"), db)
      else if negb (from_option startsWith_data_image true (given_icon (cb_icon b))) then
        (Next (ApiError 400 "Invalid image format"), db)
      else
        match validateCategory (cb_name b)
                (Some (default (cat_icon category) (given_icon (cb_icon b))))
                (cb_description b) with
        | Some message => (Next (ApiError 400 message), db)
        | None =>
            match validated_save now id (given_icon (cb_icon b))
                    (assign_category (cb_name b) (cb_description b)
                       (given_icon (cb_icon b)) category) db with
            | inl e => (Next e, db)
            | inr (saved, db') => (Send (mkResponse 200 (JCategory saved)), db')
            end
        end
  end.

(** [Object.assign(subCategory, updateData)] through the reference returned
    by [subCategories.id(sid)]. *)
Fixpoint assign_subCategory (sid : ObjectId) (name description : string)
    (icon : option string) (l : list SubCategory) : list SubCategory :=
  match l with
  | [] => []
  | s :: r =>
      if bool_decide (sub_id s = sid) then
        mkSubCategory (sub_id s) (trim name) (default (sub_icon s) icon)
          (trim description) (sub_totalComplaints s) (sub_createdAt s)
          (sub_updatedAt s) :: r
      else s :: assign_subCategory sid name description icon r
  end.

(** [exports.updateSubCategory] *)
Definition updateSubCategory (now : Date) (id sid : ObjectId) (b : CategoryBody)
    (db : DB) : Reply * DB :=
  match categories db !! id with
  | None => (Next (ApiError 404 "Category not found"), db)
  | Some category =>
      match subCategories_id sid (cat_subCategories category) with
      | None => (Next (ApiError 404 "Subcategory not found"), db)
      | Some _ =>
          if negb (from_option startsWith_data_image true (given_icon (cb_icon b))) then
            (Next (ApiError 400 "Invalid image format"), db)
          else
            match validateSubCategory (cb_name b) (cb_description b) with
            | Some message => (Next (ApiError 400 message), db)
            | None =>
                match validated_save now id (given_icon (cb_icon b))
                        (set_cat_subCategories
                           (assign_subCategory sid (cb_name b) (cb_description b)
                              (given_icon (cb_icon b)) (cat_subCategories category))
                           category) db with
                | inl e => (Next e, db)
                | inr (saved, db') => (Send (mkResponse 200 (JCategory saved)), db')
                end
            end
      end
  end.

(** [exports.deleteCategory] *)
Definition deleteCategory (id : ObjectId) (db : DB) : Reply * DB :=
  match categories db !! id with
  | None => (Next (ApiError 404 "Category not found"), db)
  | Some category =>
      if 0 <? cat_totalComplaints category then
        (Next (ApiError 400 "Cannot delete category with existing complaints"), db)
      else
        (Send (mkResponse 204 JEmpty), with_categories (delete id (categories db)) db)
  end.

(** [category.subCategories.pull(sid)] *)
Definition subCategories_pull (sid : ObjectId) (l : list SubCategory) : list SubCategory :=
  filter (fun s => sub_id s <> sid) l.

(** [exports.deleteSubCategory] *)
Definition deleteSubCategory (now : Date) (id sid : ObjectId) (db : DB) : Reply * DB :=
  match categories db !! id with
  | None => (Next (ApiError 404 "Category not found"), db)
  | Some category =>
      match subCategories_id sid (cat_subCategories category) with
      | None => (Next (ApiError 404 "Subcategory not found"), db)
      | Some subCategory =>
          if 0 <? sub_totalComplaints subCategory then
            (Next (ApiError 400 "Cannot delete subcategory with existing complaints"), db)
          else
            (Send (mkResponse 204 JEmpty),
             category_save now id
               (set_cat_subCategories
                  (subCategories_pull sid (cat_subCategories category)) category) db)
      end
  end.

(** A category document in memory: the paths of the schema, and the
    property [isFrequentlyUsed] that [toggleFrequentStatus] assigns on the
    object.  [categorySchema] declares no such path, so a document loaded
    from the collection has the property undefined ([None]), and [save()]
    and [res.json] see the schema paths only. *)
Record CategoryDocument := mkCategoryDocument {
  doc_paths : Category;
  doc_isFrequentlyUsed : option bool
}.

(** [Category.findById(id)] *)
Definition Category_findById (id : ObjectId) (db : DB) : option CategoryDocument :=
  (fun k => mkCategoryDocument k None) <$> categories db !! id.

(** JavaScript [!x] for [x] undefined or a boolean. *)
Definition js_not (x : option bool) : bool :=
  match x with
  | None => true
  | Some b => negb b
  end.

(** [exports.toggleFrequentStatus]; the second component is the document
    in memory when the handler replies. *)
Definition toggleFrequentStatus (now : Date) (id : ObjectId) (db : DB)
  : Reply * option CategoryDocument * DB :=
  match Category_findById id db with
  | None => (Next (ApiError 404 "Category not found"), None, db)
  | Some category =>
      let category' :=
        mkCategoryDocument (categorySchema_pre_save now (doc_paths category))
          (Some (js_not (doc_isFrequentlyUsed category))) in
      (Send (mkResponse 200 (JCategory (doc_paths category'))), Some category',
       category_save now id (doc_paths category) db)
  end.

(** ** The mounted routes, as one transition function on the database *)

Inductive Request :=
| POST_complaint (now : Date) (oid : ObjectId) (user : User) (b : CreateBody)
    (files : list (Outcome string)) (mail : Outcome unit)
| PUT_complaint (id : ObjectId) (user : User) (b : UpdateBody) (mail : Outcome unit)
| DELETE_complaint (id : ObjectId) (user : User)
| POST_comment (now : Date) (id : ObjectId) (user : User) (text : string)
| POST_share_email (now : Date) (id : ObjectId) (user : User) (email : string)
    (mail : Outcome unit) (users : gset nat)
| POST_share_social (now : Date) (id : ObjectId) (user : User) (platform : string)
| PATCH_status (now : Date) (id : ObjectId) (user : User) (b : StatusBody)
    (mail : Outcome unit)
| POST_category (now : Date) (cid : ObjectId) (user : User) (b : CategoryBody)
| PUT_category (now : Date) (id : ObjectId) (user : User) (b : CategoryBody)
| DELETE_category (id : ObjectId) (user : User)
| POST_subcategory (now : Date) (id sid : ObjectId) (user : User) (b : CategoryBody)
| PUT_subcategory (now : Date) (id sid : ObjectId) (user : User) (b : CategoryBody)
| DELETE_subcategory (now : Date) (id sid : ObjectId) (user : User)
| TOGGLE_frequent (now : Date) (id : ObjectId) (user : User).

(** The [adminAuth] middleware in front of a controller. *)
Definition adminAuth (user : User) (k : DB -> Reply * DB) (db : DB) : Reply * DB :=
  if bool_decide (u_role user = RoleAdmin) then k db
  else (Send (mkResponse 403 (JMessage "Admin access required")), db).

Section Server.

Variable isEmail : string -> bool.
Variable normalizeEmail : string -> string.

(** The database a request leaves behind.  [toggleFrequentStatus] is
    exported by the controller and mounted by no route of
    routes/categories.js; it is kept as one more admin operation. *)
Definition handle (r : Request) (db : DB) : DB :=
  match r with
  | POST_complaint now oid user b files mail =>
      (post_complaint now oid user b files mail db).2
  | PUT_complaint id user b mail => (put_complaint id user b mail db).2
  | DELETE_complaint id user => (delete_complaint id user db).2
  | POST_comment now id user text => (post_comment now id user text db).2
  | POST_share_email now id user email mail users =>
      (share_email isEmail normalizeEmail now id user email mail users db).2
  | POST_share_social now id user platform => (share_social now id user platform db).2
  | PATCH_status now id user b mail => (patch_status now id user b mail db).2
  | POST_category now cid user b => (adminAuth user (createCategory now cid b) db).2
  | PUT_category now id user b => (adminAuth user (updateCategory now id b) db).2
  | DELETE_category id user => (adminAuth user (deleteCategory id) db).2
  | POST_subcategory now id sid user b =>
      (adminAuth user (addSubCategory now id sid b) db).2
  | PUT_subcategory now id sid user b =>
      (adminAuth user (updateSubCategory now id sid b) db).2
  | DELETE_subcategory now id sid user =>
      (adminAuth user (deleteSubCategory now id sid) db).2
  | TOGGLE_frequent now id user =>
      (adminAuth user (fun d => let '(r, _, d') := toggleFrequentStatus now id d in (r, d'))
         db).2
  end.

(** ObjectIds generated for new documents are not in use. *)
Definition fresh_ids (r : Request) (db : DB) : bool :=
  match r with
  | POST_complaint _ oid _ _ _ _ =>
      match complaints db !! oid with None => true | Some _ => false end
  | POST_category _ cid _ _ =>
      match categories db !! cid with None => true | Some _ => false end
  | POST_subcategory _ id sid _ _ =>
      match categories db !! id with
      | Some k => bool_decide (sid ∉ sub_id <$> cat_subCategories k)
      | None => true
      end
  | _ => true
  end.

(** The databases that requests build from the empty one. *)
Inductive reachable : DB -> Prop :=
| reachable_empty : reachable empty_db
| reachable_handle db r :
    reachable db -> fresh_ids r db = true -> reachable (handle r db).

(** The database after a list of requests, first request first. *)
Definition run (rs : list Request) (db : DB) : DB :=
  foldl (fun d r => handle r d) db rs.

(** [fresh_ids] at each request of a list. *)
Fixpoint fresh_along (rs : list Request) (db : DB) : bool :=
  match rs with
  | [] => true
  | r :: rest => fresh_ids r db && fresh_along rest (handle r db)
  end.

End Server.

(** ** Properties stated on documents and databases *)

(** Ground truth for a subcategory: the stored complaints that reference
    the pair. *)
Definition complaints_of_pair (category subCategory : ObjectId) (db : DB) : Z :=
  countDocuments (mkQuery (Some category) (Some subCategory) None) db.

(** Ground truth for a user count: the stored complaints of the user in the
    category. *)
Definition complaints_of_user (category user : ObjectId) (db : DB) : Z :=
  countDocuments (mkQuery (Some category) None (Some user)) db.

(** The counter stored for a (category, subCategory) pair. *)
Definition stored_sub_count (category subCategory : ObjectId) (db : DB) : option Z :=
  k ← categories db !! category;
  sub_totalComplaints <$> subCategories_id subCategory (cat_subCategories k).

(** The first entry that a list of user counts holds for a user. *)
Definition first_count (user : ObjectId) (l : list UserCount) : option UserCount :=
  find (fun uc => bool_decide (uc_user uc = Some user)) l.

(** The count stored for a (category, user) pair. *)
Definition stored_user_count (category user : ObjectId) (db : DB) : option Z :=
  k ← categories db !! category;
  uc_count <$> first_count user (cat_userCounts k).

(** A category whose total is the sum of its subcategory counters. *)
Definition total_is_sum (k : Category) : Prop :=
  cat_totalComplaints k = sum_totalComplaints (cat_subCategories k).

Definition totals_consistent (db : DB) : Prop :=
  forall id k, categories db !! id = Some k -> total_is_sum k.

(** What holds of every category that the requests build: distinct
    subdocument ids, counters that are not negative, and the total. *)
Record cat_ok (k : Category) : Prop := mk_cat_ok {
  ok_ids : NoDup (sub_id <$> cat_subCategories k);
  ok_counts : Forall (fun s => 0 <= sub_totalComplaints s) (cat_subCategories k);
  ok_total : total_is_sum k
}.

Definition db_ok (db : DB) : Prop :=
  map_Forall (fun _ k => cat_ok k) (categories db).


(** The documents that the saving routes hand to [save()]: the stored
    complaint with the status (and resolution) of the body, with one more
    comment, with one more share. *)
Definition with_status (now : Date) (user : User) (b : StatusBody) (c : Complaint)
  : Complaint :=
  match sb_resolution b with
  | Some resolution =>
      set_c_resolution
        (mkResolution (Some (trim resolution)) (Some now) (Some (u_id user)))
        (set_c_status (status_name (sb_status b)) c)
  | None => set_c_status (status_name (sb_status b)) c
  end.

Definition with_comment (now : Date) (user : User) (text : string) (c : Complaint)
  : Complaint :=
  set_c_comments (c_comments c ++ [mkComment (trim text) (u_id user) now]) c.



(** Every top-level path that the body of an update does not name keeps
    its value. *)
Definition unchanged_where_absent (b : UpdateBody) (c c' : Complaint) : Prop :=
  c_id c' = c_id c
  /\ (ub_user b = None -> c_user c' = c_user c)
  /\ (ub_title b = None -> c_title c' = c_title c)
  /\ (ub_description b = None -> c_description c' = c_description c)
  /\ (ub_category b = None -> c_category c' = c_category c)
  /\ (ub_subCategory b = None -> c_subCategory c' = c_subCategory c)
  /\ (ub_status b = None -> c_status c' = c_status c)
  /\ (ub_priority b = None -> c_priority c' = c_priority c)
  /\ (ub_priorityValue b = None -> c_priorityValue c' = c_priorityValue c)
  /\ (ub_attachments b = None -> c_attachments c' = c_attachments c)
  /\ (ub_aiResponse b = None -> c_aiResponse c' = c_aiResponse c)
  /\ (ub_assignedTo b = None -> c_assignedTo c' = c_assignedTo c)
  /\ (ub_resolution b = None -> c_resolution c' = c_resolution c)
  /\ (ub_comments b = None -> c_comments c' = c_comments c)
  /\ (ub_sharedOn b = None ->
      c_sharedOn_email c' = c_sharedOn_email c
      /\ c_sharedOn_social c' = c_sharedOn_social c)
  /\ (ub_createdAt b = None -> c_createdAt c' = c_createdAt c)
  /\ (ub_updatedAt b = None -> c_updatedAt c' = c_updatedAt c).

(** Every top-level path that the body of an update names takes the
    body's value as a whole: null where the body gives null, the object of
    the body where it gives an object, with nothing kept of the stored
    one. *)
Definition takes_body_values (b : UpdateBody) (c' : Complaint) : Prop :=
  (forall v, ub_user b = Some v -> c_user c' = v)
  /\ (forall v, ub_title b = Some v -> c_title c' = trim v)
  /\ (forall v, ub_description b = Some v -> c_description c' = trim v)
  /\ (forall v, ub_category b = Some v -> c_category c' = v)
  /\ (forall v, ub_subCategory b = Some v -> c_subCategory c' = v)
  /\ (forall v, ub_status b = Some v -> c_status c' = v)
  /\ (forall v, ub_priority b = Some v -> c_priority c' = v)
  /\ (forall v, ub_priorityValue b = Some v -> c_priorityValue c' = v)
  /\ (forall v, ub_attachments b = Some v -> c_attachments c' = v)
  /\ (forall v, ub_aiResponse b = Some v -> c_aiResponse c' = v)
  /\ (forall v, ub_assignedTo b = Some v -> c_assignedTo c' = v)
  /\ (forall v, ub_resolution b = Some v -> c_resolution c' = v)
  /\ (forall v, ub_comments b = Some v -> c_comments c' = v)
  /\ (forall v, ub_sharedOn b = Some v ->
        c_sharedOn_email c' = so_email v /\ c_sharedOn_social c' = so_social v)
  /\ (forall v, ub_createdAt b = Some v -> c_createdAt c' = v)
  /\ (forall v, ub_updatedAt b = Some v -> c_updatedAt c' = v).

(** Ground truth for a category: the stored complaints that reference it. *)
Definition complaints_of_category (category : ObjectId) (db : DB) : Z :=
  countDocuments (mkQuery (Some category) None None) db.

(** ** The read routes and the migration script *)

(** [router.get('/:id', auth, ...)]: an admin reads any complaint, any
    other principal their own.  The populated paths are left as ids. *)
Definition get_complaint (id : ObjectId) (user : User) (db : DB) : Response :=
  match (if bool_decide (u_role user = RoleAdmin) then findById id db
         else findOne_owned id (u_id user) db) with
  | Some complaint => mkResponse 200 (JComplaint complaint)
  | None => not_found
  end.

(** [exports.getCategoryById] *)
Definition getCategoryById (id : ObjectId) (db : DB) : Reply :=
  match categories db !! id with
  | None => Next (ApiError 404 "Category not found")
  | Some category => Send (mkResponse 200 (JCategory category))
  end.







(** [collection('complaints').updateMany({ priority: p }, { $set: { priorityValue: v } })] *)
Definition updateMany_priorityValue (p : Priority) (v : Z) (db : DB) : DB :=
  with_complaints
    ((fun c => if bool_decide (c_priority c = p) then set_c_priorityValue v c else c)
       <$> complaints db) db.

(** [migratePriorityValues] (scripts/migratePriorityValues.js): the three
    updates in the order of the script. *)
Definition migratePriorityValues (db : DB) : DB :=
  updateMany_priorityValue High 2
    (updateMany_priorityValue Medium 1 (updateMany_priorityValue Low 0 db)).

(** What [exports.getCategories] replies or hands to [next]. *)
Inductive CategoriesResult :=
| CategoriesJson (categories frequentCategories : list Category) (totalComplaints : Z)
| CategoriesNext (error : string).

(** [cat.userCounts.find(uc => uc.user.equals(uid))] after
    [populate('userCounts.user', 'name')]: [users] holds the ids of the
    stored users; an entry whose user is gone (or null in the stored
    entry) is populated with null, and calling [equals] on it throws. *)
Fixpoint populated_find (users : gset nat) (uid : ObjectId) (l : list UserCount)
  : string + option UserCount :=
  match l with
  | [] => inr None
  | uc :: r =>
      match uc_user uc with
      | Some x =>
          if bool_decide (x ∈ users) then
            if bool_decide (x = uid) then inr (Some uc)
            else populated_find users uid r
          else inl "Cannot read properties of null (reading 'equals')"
      | None => inl "Cannot read properties of null (reading 'equals')"
      end
  end.

(** The filter of [frequentCategories]: the categories in which the user has
    an entry with a positive count, each with that count. *)
Fixpoint filter_frequent (users : gset nat) (uid : ObjectId) (l : list Category)
  : string + list (Z * Category) :=
  match l with
  | [] => inr []
  | cat :: r =>
      match populated_find users uid (cat_userCounts cat) with
      | inl e => inl e
      | inr found =>
          match filter_frequent users uid r with
          | inl e => inl e
          | inr rest =>
              match found with
              | Some userCount =>
                  if 0 <? uc_count userCount then inr ((uc_count userCount, cat) :: rest)
                  else inr rest
              | None => inr rest
              end
          end
      end
  end.

(** [sort((a, b) => countB - countA)]: the sort of an array is stable, so
    the result is the one of any stable sort by decreasing count. *)
Fixpoint insert_by_count (x : Z * Category) (l : list (Z * Category))
  : list (Z * Category) :=
  match l with
  | [] => [x]
  | y :: r => if x.1 <? y.1 then y :: insert_by_count x r else x :: l
  end.

Definition sort_by_count (l : list (Z * Category)) : list (Z * Category) :=
  foldr insert_by_count [] l.

(** [exports.getCategories]; [Category.find()] yields the stored categories
    in the order of the collection. *)
Definition getCategories (users : gset nat) (user : option User) (db : DB)
  : CategoriesResult :=
  let categories := (map_to_list (categories db)).*2 in
  let totalComplaints := foldl (fun sum cat => sum + cat_totalComplaints cat) 0 categories in
  match user with
  | None => CategoriesJson categories [] totalComplaints
  | Some u =>
      match filter_frequent users (u_id u) categories with
      | inl e => CategoriesNext e
      | inr frequent =>
          CategoriesJson categories (take 3 (sort_by_count frequent).*2) totalComplaints
      end
  end.

(** ** Which documents a request addresses *)

(** The complaint that a request names, if it names one. *)
Definition addressed_complaint (r : Request) : option ObjectId :=
  match r with
  | POST_complaint _ oid _ _ _ _ => Some oid
  | PUT_complaint id _ _ _ | DELETE_complaint id _ | POST_comment _ id _ _
  | POST_share_email _ id _ _ _ _ | POST_share_social _ id _ _
  | PATCH_status _ id _ _ _ => Some id
  | _ => None
  end.

(** The category that a request can write: the one it names, or the one
    of the complaint it saves.  An update and a deletion of a complaint
    save nothing. *)
Definition addressed_category (r : Request) (db : DB) : option ObjectId :=
  match r with
  | POST_complaint _ _ _ b _ _ => b_category b
  | PUT_complaint _ _ _ _ | DELETE_complaint _ _ => None
  | POST_comment _ id _ _ | POST_share_email _ id _ _ _ _
  | POST_share_social _ id _ _ | PATCH_status _ id _ _ _ =>
      c_category <$> findById id db
  | POST_category _ id _ _ | PUT_category _ id _ _ | DELETE_category id _
  | POST_subcategory _ id _ _ _ | PUT_subcategory _ id _ _ _
  | DELETE_subcategory _ id _ _ | TOGGLE_frequent _ id _ => Some id
  end.

(** The requests that routes/categories.js puts behind [adminAuth], with
    their principal. *)
Definition category_request (r : Request) : option User :=
  match r with
  | POST_category _ _ user _ | PUT_category _ _ user _ | DELETE_category _ user
  | POST_subcategory _ _ _ user _ | PUT_subcategory _ _ _ user _
  | DELETE_subcategory _ _ _ user => Some user
  | _ => None
  end.

(** The counters of a category document: its total, the counter of each
    subcategory with the id of the subcategory, and the user counts. *)
Definition counters (k : Category) : Z * list (ObjectId * Z) * list UserCount :=
  (cat_totalComplaints k,
   (fun s => (sub_id s, sub_totalComplaints s)) <$> cat_subCategories k,
   cat_userCounts k).

(** The count that a category holds for a user, 0 without an entry. *)
Definition user_count (uid : ObjectId) (cat : Category) : Z :=
  from_option uc_count 0 (first_count uid (cat_userCounts cat)).

(** The stored categories, as [Category.find()] lists them. *)
Definition stored_categories (db : DB) : list Category :=
  (map_to_list (categories db)).*2.

(** Every user count of a stored category refers to a stored user. *)
Definition users_present (users : gset nat) (db : DB) : Prop :=
  forall cat uc, cat ∈ stored_categories db -> uc ∈ cat_userCounts cat ->
                 exists u, uc_user uc = Some u /\ u ∈ users.

(** Decreasing count from left to right. *)
Definition by_decreasing_count (x y : Z * Category) : Prop := y.1 <= x.1.

(** A category whose user counts are all at least 1. *)
Definition uc_ok (k : Category) : Prop :=
  Forall (fun uc => 1 <= uc_count uc) (cat_userCounts k).

Definition db_uc_ok (db : DB) : Prop :=
  map_Forall (fun _ k => uc_ok k) (categories db).

(** Every user count of the category carries a user, so that the [find]
    of the post-save hook calls [equals] on no null. *)
Definition counts_have_users (k : Category) : bool :=
  forallb (fun uc => bool_decide (is_Some (uc_user uc))) (cat_userCounts k).

(** The post-save hook of a complaint of category [cid] runs to its end:
    the category, when it is stored, has no user count without a user. *)
Definition hook_runs (cid : ObjectId) (db : DB) : bool :=
  from_option counts_have_users true (categories db !! cid).

(** The reference that a route hands to the hooks is the reference of the
    document it saves. *)
Definition ref_agrees (this_user : UserRef) (c : Complaint) : Prop :=
  forall u, this_user = RefId u -> c_user c = Some u.

(** No two stored categories carry the same name. *)
Definition names_distinct (db : DB) : Prop :=
  forall i j ki kj,
    categories db !! i = Some ki -> categories db !! j = Some kj ->
    cat_name ki = cat_name kj -> i = j.

(** A list of subcategories in which [subCategories.id(sid)] finds a
    subcategory with a positive counter. *)
Definition counted (sid : ObjectId) (l : list SubCategory) : Prop :=
  exists s, subCategories_id sid l = Some s /\ 0 < sub_totalComplaints s.

(** The pair (category, subCategory) is stored with a positive counter. *)
Definition sub_counted (cid sid : ObjectId) (db : DB) : Prop :=
  exists n, stored_sub_count cid sid db = Some n /\ 0 < n.

(** ** Sample principals, requests and databases *)

Definition admin : User := mkUser 1 "Root" "root@example.org" RoleAdmin true.
Definition alice : User := mkUser 7 "Alice" "alice@example.org" RoleUser true.
Definition bob : User := mkUser 8 "Bob" "bob@example.org" RoleUser true.

Definition png_icon : string := "data:image/png;base64,AAAA".

(** The ids of the stored users: the three sample principals. *)
Definition stored_users : gset nat := {[1%nat; 7%nat; 8%nat]}.

(** Stand-ins for the two functions of express-validator. *)
Fixpoint contains_at (s : string) : bool :=
  match s with
  | EmptyString => false
  | String a r => (Ascii.nat_of_ascii a =? 64)%nat || contains_at r
  end.
Definition keep_address (s : string) : string := s.

(** Category "Billing" (100) with subcategory "Refund" (200), and category
    "Delivery" (101) with subcategory "Late parcel" (201). *)
Definition taxonomy_requests : list Request :=
  [ POST_category 10 100 admin
      (mkCategoryBody "Billing" "Billing and refunds" (Some png_icon));
    POST_subcategory 11 100 200 admin
      (mkCategoryBody "Refund" "Refund requests" (Some png_icon));
    POST_category 12 101 admin
      (mkCategoryBody "Delivery" "Parcels and couriers" (Some png_icon));
    POST_subcategory 13 101 201 admin
      (mkCategoryBody "Late parcel" "Parcel arrived late" (Some png_icon)) ].

Definition db_taxonomy : DB := run contains_at keep_address taxonomy_requests empty_db.

Definition refund_body : CreateBody :=
  mkCreateBody "Charged twice" "I was charged twice in May" (Some 100%nat)
    (Some 200%nat) None.

(** Alice files complaint 300 under (Billing, Refund). *)
Definition db_one_complaint : DB :=
  (post_complaint 20 300 alice refund_body [] (Resolves ()) db_taxonomy).2.

(** Alice files 300, then deletes it. *)
Definition db_after_delete : DB := (delete_complaint 300 alice db_one_complaint).2.

(** An admin resolves complaint 300. *)
Definition db_resolved : DB :=
  (patch_status 30 300 admin (mkStatusBody Resolved (Some "Refunded"))
     (Resolves ()) db_one_complaint).2.

(** The body of an update that names no path, and bodies that name one. *)
Definition empty_body : UpdateBody :=
  mkUpdateBody None None None None None None None None None None None None None
    None None None.

Definition body_category (k : ObjectId) : UpdateBody :=
  mkUpdateBody None None None (Some k) None None None None None None None None None
    None None None.

Definition body_priority (p : Priority) : UpdateBody :=
  mkUpdateBody None None None None None None (Some p) None None None None None None
    None None None.

Definition body_status (s : string) : UpdateBody :=
  mkUpdateBody None None None None None (Some s) None None None None None None None
    None None None.

Definition body_sharedOn (so : SharedOn) : UpdateBody :=
  mkUpdateBody None None None None None None None None None None None None None
    (Some so) None None.

Definition body_subCategory (s : option ObjectId) : UpdateBody :=
  mkUpdateBody None None None None (Some s) None None None None None None None None
    None None None.

(** Alice sets the subcategory of her resolved complaint 300 to null. *)
Definition db_resolved_no_subCategory : DB :=
  (put_complaint 300 alice (body_subCategory None) (Resolves ()) db_resolved).2.

(** Alice shares her complaint 300 on a social platform. *)
Definition db_shared : DB := (share_social 35 300 alice "twitter" db_one_complaint).2.


(** Alice's user document is deleted; Bob then shares her complaint 300 by
    e-mail. *)
Definition db_owner_gone : DB :=
  (share_email contains_at keep_address 45 300 bob "carol@example.org" (Resolves ())
     {[1%nat; 8%nat]} db_one_complaint).2.

Definition late_parcel_body : CreateBody :=
  mkCreateBody "Parcel is late" "The parcel came two weeks late" (Some 101%nat)
    (Some 201%nat) None.

(** Alice files 300 under (Billing, Refund), moves it to category Delivery
    with an update, then files 301 under (Delivery, Late parcel). *)
Definition recategorize_requests : list Request :=
  [ POST_complaint 20 300 alice refund_body [] (Resolves ());
    PUT_complaint 300 alice (body_category 101) (Resolves ());
    POST_complaint 22 301 alice late_parcel_body [] (Resolves ()) ].

Definition db_recategorized : DB :=
  run contains_at keep_address recategorize_requests db_taxonomy.
(** ** Sums of subcategory counters *)

Lemma foldl_sum_shift (l : list SubCategory) (a : Z) :
  foldl (fun sum sub => sum + sub_totalComplaints sub) a l
  = a + sum_totalComplaints l.
Proof.
  unfold sum_totalComplaints. revert a.
  induction l as [|s l IH]; intros a; simpl; [lia|].
  rewrite (IH (a + _)), (IH (0 + _)). lia.
Qed.

Lemma sum_totalComplaints_cons (s : SubCategory) (l : list SubCategory) :
  sum_totalComplaints (s :: l) = sub_totalComplaints s + sum_totalComplaints l.
Proof. unfold sum_totalComplaints at 1. simpl. rewrite foldl_sum_shift. lia. Qed.

Lemma sum_totalComplaints_app (l1 l2 : list SubCategory) :
  sum_totalComplaints (l1 ++ l2) = sum_totalComplaints l1 + sum_totalComplaints l2.
Proof.
  induction l1 as [|s l1 IH]; simpl.
  - unfold sum_totalComplaints at 2. simpl. lia.
  - rewrite !sum_totalComplaints_cons, IH. lia.
Qed.

Lemma sum_totalComplaints_stamp (now : Date) (l : list SubCategory) :
  sum_totalComplaints (map (set_sub_updatedAt now) l) = sum_totalComplaints l.
Proof.
  induction l as [|s l IH]; simpl; [done|].
  rewrite !sum_totalComplaints_cons, IH. done.
Qed.

Lemma sub_ids_stamp (now : Date) (l : list SubCategory) :
  sub_id <$> map (set_sub_updatedAt now) l = sub_id <$> l.
Proof. induction l as [|s l IH]; csimpl; [done|]. by f_equal. Qed.

Lemma sub_ids_assign_total (x : ObjectId) (n : Z) (l : list SubCategory) :
  sub_id <$> assign_sub_totalComplaints x n l = sub_id <$> l.
Proof.
  induction l as [|s l IH]; csimpl; [done|].
  case_bool_decide; csimpl; [done|]. by f_equal.
Qed.

Lemma counts_assign_total (x : ObjectId) (n : Z) (l : list SubCategory) :
  0 <= n ->
  Forall (fun s => 0 <= sub_totalComplaints s) l ->
  Forall (fun s => 0 <= sub_totalComplaints s) (assign_sub_totalComplaints x n l).
Proof.
  intros Hn. induction 1 as [|s l Hs Hl IH]; simpl; [constructor|].
  case_bool_decide; constructor; simpl; auto.
Qed.

Lemma sub_ids_assign_subCategory sid name description icon (l : list SubCategory) :
  sub_id <$> assign_subCategory sid name description icon l = sub_id <$> l.
Proof.
  induction l as [|s l IH]; csimpl; [done|].
  case_bool_decide; csimpl; [done|]. by f_equal.
Qed.

Lemma counts_assign_subCategory sid name description icon (l : list SubCategory) :
  sub_totalComplaints <$> assign_subCategory sid name description icon l
  = sub_totalComplaints <$> l.
Proof.
  induction l as [|s l IH]; csimpl; [done|].
  case_bool_decide; csimpl; [done|]. by f_equal.
Qed.

Lemma nonneg_assign_subCategory sid name description icon (l : list SubCategory) :
  Forall (fun s => 0 <= sub_totalComplaints s) l ->
  Forall (fun s => 0 <= sub_totalComplaints s)
    (assign_subCategory sid name description icon l).
Proof.
  induction 1 as [|s l Hs Hl IH]; simpl; [constructor|].
  case_bool_decide; constructor; simpl; auto.
Qed.

Lemma sum_totalComplaints_counts (l1 l2 : list SubCategory) :
  sub_totalComplaints <$> l1 = sub_totalComplaints <$> l2 ->
  sum_totalComplaints l1 = sum_totalComplaints l2.
Proof.
  revert l2. induction l1 as [|s l1 IH]; intros [|s2 l2] H; simplify_eq/=; [done|].
  rewrite !sum_totalComplaints_cons. erewrite IH; [|done]. congruence.
Qed.

Lemma countDocuments_nonneg (q : Query) (db : DB) : 0 <= countDocuments q db.
Proof. unfold countDocuments. lia. Qed.

(** Pulling the subdocument found by [subCategories.id], when ids are
    distinct, removes exactly its counter from the sum. *)
Lemma sum_totalComplaints_pull (sid : ObjectId) (l : list SubCategory) (s : SubCategory) :
  NoDup (sub_id <$> l) ->
  subCategories_id sid l = Some s ->
  sum_totalComplaints (subCategories_pull sid l)
  = sum_totalComplaints l - sub_totalComplaints s.
Proof.
  unfold subCategories_id, subCategories_pull.
  induction l as [|a l IH]; intros Hnd Hfind; simpl in *; [done|].
  apply NoDup_cons in Hnd as [Ha Hnd].
  rewrite filter_cons. case_bool_decide as Hid.
  - simplify_eq. rewrite decide_False by naive_solver.
    rewrite sum_totalComplaints_cons.
    assert (filter (fun s0 => sub_id s0 <> sub_id s) l = l) as ->; [|lia].
    clear IH Hnd. induction l as [|b l IH]; [done|].
    rewrite filter_cons. rewrite decide_True.
    + f_equal. apply IH. intros Hin. apply Ha. csimpl. by apply list_elem_of_further.
    + intros Hb. apply Ha. rewrite <- Hb. csimpl. apply list_elem_of_here.
  - rewrite decide_True by done.
    rewrite !sum_totalComplaints_cons, IH by done. lia.
Qed.

Lemma subCategories_id_elem (sid : ObjectId) (l : list SubCategory) (s : SubCategory) :
  subCategories_id sid l = Some s -> s ∈ l /\ sub_id s = sid.
Proof.
  unfold subCategories_id. induction l as [|a l IH]; simpl; [done|].
  case_bool_decide; intros ?; simplify_eq; [split; [apply list_elem_of_here|done]|].
  destruct IH as [? ?]; [done|]. split; [by apply list_elem_of_further|done].
Qed.

(** ** The category invariant is kept by every write *)

Lemma cat_ok_pre_save (now : Date) (k : Category) :
  cat_ok k -> cat_ok (categorySchema_pre_save now k).
Proof.
  intros [Hids Hcounts Htotal]. split; unfold total_is_sum in *; simpl.
  - by rewrite sub_ids_stamp.
  - unfold set_sub_updatedAt. apply Forall_fmap.
    eapply Forall_impl; [exact Hcounts|]. done.
  - by rewrite sum_totalComplaints_stamp.
Qed.

Lemma cat_ok_calculate (k : Category) :
  NoDup (sub_id <$> cat_subCategories k) ->
  Forall (fun s => 0 <= sub_totalComplaints s) (cat_subCategories k) ->
  (cat_subCategories k = [] -> cat_totalComplaints k = 0) ->
  cat_ok (calculateTotalComplaints k).
Proof.
  intros Hids Hcounts Hempty. unfold calculateTotalComplaints.
  destruct (cat_subCategories k) as [|s l] eqn:Hsubs.
  - split; unfold total_is_sum; rewrite ?Hsubs; [constructor..|].
    by rewrite Hempty.
  - split; unfold total_is_sum; simpl; rewrite ?Hsubs; done.
Qed.

Lemma assign_sub_totalComplaints_nil (x : ObjectId) (n : Z) (l : list SubCategory) :
  assign_sub_totalComplaints x n l = [] -> l = [].
Proof. destruct l; simpl; [done|]. by case_bool_decide. Qed.

(** The category that the hook works on once the subcategory counter is
    assigned keeps the ids, has counters that are not negative, and has no
    subcategory only if the stored category has none. *)
Lemma cat_ok_reconcile (this_user : UserRef) (c : Complaint) (k k' : Category) (db : DB) :
  cat_ok k -> reconcile this_user c k db = inr k' -> cat_ok k'.
Proof.
  intros [Hids Hcounts Htotal]. unfold reconcile, recount_subCategory, total_is_sum in *.
  intros H. repeat case_match; simplify_eq; apply cat_ok_calculate; simpl;
    rewrite ?sub_ids_assign_total; try done;
    try (apply counts_assign_total; auto using countDocuments_nonneg);
    try (intros Hnil; try apply assign_sub_totalComplaints_nil in Hnil;
         rewrite Htotal, Hnil; done).
Qed.

Lemma db_ok_empty : db_ok empty_db.
Proof. apply map_Forall_empty. Qed.

Lemma db_ok_with_complaints (m : gmap nat Complaint) (db : DB) :
  db_ok db -> db_ok (with_complaints m db).
Proof. done. Qed.

Lemma db_ok_insert (id : ObjectId) (k : Category) (db : DB) :
  db_ok db -> cat_ok k -> db_ok (with_categories (<[id := k]> (categories db)) db).
Proof. intros Hdb Hk. unfold db_ok. simpl. by apply map_Forall_insert_2. Qed.

Lemma db_ok_delete (id : ObjectId) (db : DB) :
  db_ok db -> db_ok (with_categories (delete id (categories db)) db).
Proof. intros Hdb. unfold db_ok. simpl. by apply map_Forall_delete. Qed.

Lemma db_ok_category_save (now : Date) (id : ObjectId) (k : Category) (db : DB) :
  db_ok db -> cat_ok k -> db_ok (category_save now id k db).
Proof. intros. apply db_ok_insert; auto using cat_ok_pre_save. Qed.

Lemma db_ok_lookup (db : DB) (id : ObjectId) (k : Category) :
  db_ok db -> categories db !! id = Some k -> cat_ok k.
Proof. intros Hdb Hk. exact (Hdb id k Hk). Qed.

Lemma db_ok_post_save (now : Date) (this_user : UserRef) (c : Complaint) (db db' : DB) :
  db_ok db -> complaintSchema_post_save now this_user c db = inr db' -> db_ok db'.
Proof.
  intros Hdb. unfold complaintSchema_post_save.
  destruct (categories db !! c_category c) as [k|] eqn:Hk; [|by intros [= <-]].
  destruct (reconcile this_user c k db) as [e|k1] eqn:Hrec; [done|].
  intros [= <-]. apply db_ok_category_save; [done|].
  eapply cat_ok_reconcile; [|exact Hrec]. eauto using db_ok_lookup.
Qed.

Lemma db_ok_complaint_save (now : Date) (id : ObjectId) (this_user : UserRef)
    (c : Complaint) (db : DB) :
  db_ok db -> db_ok (complaint_save now id this_user c db).2.
Proof.
  intros Hdb. unfold complaint_save.
  destruct (complaintSchema_validate c); [|done].
  destruct (complaintSchema_post_save _ _ _ _) as [e|db'] eqn:Hpost; simpl; [done|].
  eapply db_ok_post_save; [|exact Hpost]. done.
Qed.

Create HintDb dbok.

#[local] Hint Resolve db_ok_complaint_save db_ok_with_complaints db_ok_category_save
  db_ok_delete db_ok_insert cat_ok_pre_save : dbok.

(** The database that a save leaves, named after the call. *)
Ltac saved_db :=
  repeat match goal with
  | H : complaint_save ?n ?i ?r ?c ?d = (_, ?d') |- _ =>
      replace d' with (complaint_save n i r c d).2 in * by (by rewrite H);
      clear H
  end.

(** Case analysis along the branches of a handler. *)
Ltac handler_cases :=
  repeat (first [progress simpl | case_match]); simplify_eq/=; saved_db;
  auto with dbok.

Lemma db_ok_post_complaint now oid user b files mail db :
  db_ok db -> db_ok (post_complaint now oid user b files mail db).2.
Proof. intros Hdb. unfold post_complaint. handler_cases. Qed.

Lemma db_ok_put_complaint id user b mail db :
  db_ok db -> db_ok (put_complaint id user b mail db).2.
Proof. intros Hdb. unfold put_complaint. handler_cases. Qed.

Lemma db_ok_delete_complaint id user db :
  db_ok db -> db_ok (delete_complaint id user db).2.
Proof. intros Hdb. unfold delete_complaint. handler_cases. Qed.

Lemma db_ok_post_comment now id user text db :
  db_ok db -> db_ok (post_comment now id user text db).2.
Proof. intros Hdb. unfold post_comment. handler_cases. Qed.

Lemma db_ok_share_social now id user platform db :
  db_ok db -> db_ok (share_social now id user platform db).2.
Proof. intros Hdb. unfold share_social. handler_cases. Qed.

Lemma db_ok_patch_status now id user b mail db :
  db_ok db -> db_ok (patch_status now id user b mail db).2.
Proof. intros Hdb. unfold patch_status. handler_cases. Qed.

Lemma db_ok_share_email isEmail normalizeEmail now id user email mail users db :
  db_ok db ->
  db_ok (share_email isEmail normalizeEmail now id user email mail users db).2.
Proof. intros Hdb. unfold share_email. handler_cases. Qed.

Lemma db_ok_validated_save now id icon k db e :
  db_ok db -> cat_ok k -> validated_save now id icon k db = inr e -> db_ok e.2.
Proof.
  intros Hdb Hk. unfold validated_save.
  repeat case_match; intros; simplify_eq/=; auto with dbok.
Qed.

Lemma cat_ok_new now cid name icon description :
  cat_ok (mkCategory cid name icon description [] 0 [] now now).
Proof. split; unfold total_is_sum; simpl; [constructor..|done]. Qed.

Lemma cat_ok_push (k : Category) (sub : SubCategory) :
  cat_ok k ->
  sub_id sub ∉ sub_id <$> cat_subCategories k ->
  sub_totalComplaints sub = 0 ->
  cat_ok (set_cat_subCategories (cat_subCategories k ++ [sub]) k).
Proof.
  intros [Hids Hcounts Htotal] Hfresh Hzero.
  split; unfold total_is_sum in *; simpl.
  - rewrite fmap_app. apply NoDup_app. split_and!; [done| |by apply NoDup_singleton].
    intros x Hx Hx'. apply list_elem_of_singleton in Hx'. by subst.
  - apply Forall_app. split; [done|]. apply Forall_singleton. lia.
  - rewrite sum_totalComplaints_app, Htotal.
    unfold sum_totalComplaints at 3. simpl. lia.
Qed.

Lemma cat_ok_assign_category name description icon k :
  cat_ok k -> cat_ok (assign_category name description icon k).
Proof. intros [Hids Hcounts Htotal]. by split. Qed.

Lemma cat_ok_assign_subCategory sid name description icon k :
  cat_ok k ->
  cat_ok (set_cat_subCategories
            (assign_subCategory sid name description icon (cat_subCategories k)) k).
Proof.
  intros [Hids Hcounts Htotal]. split; unfold total_is_sum in *; simpl.
  - by rewrite sub_ids_assign_subCategory.
  - by apply nonneg_assign_subCategory.
  - rewrite Htotal. apply sum_totalComplaints_counts.
    by rewrite counts_assign_subCategory.
Qed.

Lemma cat_ok_pull sid k s :
  cat_ok k ->
  subCategories_id sid (cat_subCategories k) = Some s ->
  (0 <? sub_totalComplaints s) = false ->
  cat_ok (set_cat_subCategories (subCategories_pull sid (cat_subCategories k)) k).
Proof.
  intros [Hids Hcounts Htotal] Hfind Hguard.
  split; unfold total_is_sum in *; simpl.
  - unfold subCategories_pull. clear -Hids.
    induction (cat_subCategories k) as [|a l IH]; [constructor|].
    apply NoDup_cons in Hids as [Ha Hl]. rewrite filter_cons.
    case_decide; csimpl; auto. apply NoDup_cons. split; auto.
    intros Hin. apply Ha. apply list_elem_of_fmap in Hin as (b & -> & Hb).
    apply list_elem_of_fmap. exists b. split; [done|].
    by apply list_elem_of_filter in Hb as [_ ?].
  - unfold subCategories_pull. rewrite Forall_forall in Hcounts |- *.
    intros x Hx. apply list_elem_of_filter in Hx as [_ Hx]. auto.
  - rewrite (sum_totalComplaints_pull sid _ s) by done.
    apply subCategories_id_elem in Hfind as [Hin _].
    rewrite Forall_forall in Hcounts. specialize (Hcounts s Hin). simpl in Hcounts.
    lia.
Qed.

#[local] Hint Resolve cat_ok_new cat_ok_assign_category cat_ok_assign_subCategory
  db_ok_lookup : dbok.

Ltac by_validated_save :=
  match goal with
  | H : validated_save ?n ?i ?ic ?k ?db = inr (?c, ?d) |- db_ok ?d =>
      apply (db_ok_validated_save n i ic k db (c, d)); [done | | exact H]
  end.

Lemma db_ok_createCategory now cid b db :
  db_ok db -> db_ok (createCategory now cid b db).2.
Proof.
  intros Hdb. unfold createCategory.
  repeat case_match; simplify_eq/=; auto.
  by_validated_save. eauto with dbok.
Qed.

Lemma db_ok_addSubCategory now id sid b db :
  db_ok db ->
  (forall k, categories db !! id = Some k -> sid ∉ sub_id <$> cat_subCategories k) ->
  db_ok (addSubCategory now id sid b db).2.
Proof.
  intros Hdb Hfresh. unfold addSubCategory.
  repeat case_match; simplify_eq/=; auto.
  by_validated_save. apply cat_ok_push; simpl; eauto with dbok.
Qed.

Lemma db_ok_updateCategory now id b db :
  db_ok db -> db_ok (updateCategory now id b db).2.
Proof.
  intros Hdb. unfold updateCategory.
  repeat case_match; simplify_eq/=; auto.
  by_validated_save. eauto with dbok.
Qed.

Lemma db_ok_updateSubCategory now id sid b db :
  db_ok db -> db_ok (updateSubCategory now id sid b db).2.
Proof.
  intros Hdb. unfold updateSubCategory.
  repeat case_match; simplify_eq/=; auto.
  by_validated_save. eauto with dbok.
Qed.

Lemma db_ok_deleteCategory id db :
  db_ok db -> db_ok (deleteCategory id db).2.
Proof. intros Hdb. unfold deleteCategory. repeat case_match; simpl; auto with dbok. Qed.

Lemma db_ok_deleteSubCategory now id sid db :
  db_ok db -> db_ok (deleteSubCategory now id sid db).2.
Proof.
  intros Hdb. unfold deleteSubCategory.
  repeat case_match; simplify_eq/=; auto.
  apply db_ok_category_save; [done|]. eapply cat_ok_pull; eauto with dbok.
Qed.

Lemma db_ok_toggleFrequentStatus now id db :
  db_ok db -> db_ok (toggleFrequentStatus now id db).2.
Proof.
  intros Hdb. unfold toggleFrequentStatus, Category_findById.
  destruct (categories db !! id) as [k|] eqn:Hk; simpl; eauto with dbok.
Qed.

Lemma db_ok_adminAuth user (h : DB -> Reply * DB) db :
  db_ok db -> db_ok (h db).2 -> db_ok (adminAuth user h db).2.
Proof. intros. unfold adminAuth. by case_bool_decide. Qed.

Lemma db_ok_handle isEmail normalizeEmail r db :
  db_ok db -> fresh_ids r db = true -> db_ok (handle isEmail normalizeEmail r db).
Proof.
  intros Hdb Hfresh.
  assert (forall now id sid user b,
            r = POST_subcategory now id sid user b ->
            forall k, categories db !! id = Some k ->
                      sid ∉ sub_id <$> cat_subCategories k) as Hsub.
  { intros now id sid user b -> k Hk. simpl in Hfresh. rewrite Hk in Hfresh.
    by apply bool_decide_eq_true_1 in Hfresh. }
  destruct r; simpl in *;
    try (apply db_ok_adminAuth; [done|]);
    auto using db_ok_post_complaint, db_ok_put_complaint, db_ok_delete_complaint,
      db_ok_post_comment, db_ok_share_email, db_ok_share_social, db_ok_patch_status,
      db_ok_createCategory, db_ok_updateCategory, db_ok_deleteCategory,
      db_ok_addSubCategory, db_ok_updateSubCategory, db_ok_deleteSubCategory.
  - apply db_ok_addSubCategory; [done|]. exact (Hsub _ _ _ _ _ eq_refl).
  - pose proof (db_ok_toggleFrequentStatus now id db Hdb) as H.
    by destruct (toggleFrequentStatus now id db) as [[? ?] ?].
Qed.

Lemma reachable_db_ok isEmail normalizeEmail db :
  reachable isEmail normalizeEmail db -> db_ok db.
Proof.
  induction 1; [apply db_ok_empty|]. by apply db_ok_handle.
Qed.

Lemma reachable_run isEmail normalizeEmail (rs : list Request) (db : DB) :
  reachable isEmail normalizeEmail db ->
  fresh_along isEmail normalizeEmail rs db = true ->
  reachable isEmail normalizeEmail (run isEmail normalizeEmail rs db).
Proof.
  revert db. induction rs as [|r rs IH]; intros db Hdb Hfresh; simpl in *; [done|].
  apply andb_true_iff in Hfresh as [Hr Hrs].
  apply IH; [|done]. by constructor.
Qed.

Lemma db_ok_totals_consistent (db : DB) : db_ok db -> totals_consistent db.
Proof. intros Hdb id k Hk. exact (ok_total k (Hdb id k Hk)). Qed.

(** Outside the reachable databases too: the total that a reconciliation
    leaves in a category with at least one subcategory is the sum. *)
Lemma reconcile_total_is_sum (this_user : UserRef) (c : Complaint) (k k' : Category)
    (db : DB) :
  cat_subCategories k <> [] -> reconcile this_user c k db = inr k' -> total_is_sum k'.
Proof.
  intros Hne. unfold reconcile, recount_subCategory, calculateTotalComplaints, total_is_sum.
  intros H.
  assert (forall x n, assign_sub_totalComplaints x n (cat_subCategories k) <> []) as Hne2.
  { intros x n Hnil%assign_sub_totalComplaints_nil. done. }
  repeat case_match; simplify_eq/=; try done;
    try (exfalso; eapply Hne2; eassumption); congruence.
Qed.

(** C2: in every database that the requests build from the empty one,
    each category's [totalComplaints] is the sum of the [totalComplaints]
    of its embedded subcategories, and it is so again for every category
    once the save of any complaint document, with the reconciliation of its
    post-save hook, has ended (whether it completed, was refused by the
    validation or was cut short by its hook). *)
Theorem category_total_is_sum_of_subcategories
    (isEmail : string -> bool) (normalizeEmail : string -> string) (db : DB) :
  reachable isEmail normalizeEmail db ->
  totals_consistent db
  /\ (forall now id this_user c,
        totals_consistent (complaint_save now id this_user c db).2).
Proof.
  intros Hdb%reachable_db_ok. split.
  - by apply db_ok_totals_consistent.
  - intros now id this_user c. apply db_ok_totals_consistent. auto with dbok.
Qed.

(** ** What a save leaves in the complaint collection *)

Lemma complaints_post_save (now : Date) (this_user : UserRef) (c : Complaint)
    (db db' : DB) :
  complaintSchema_post_save now this_user c db = inr db' ->
  complaints db' = complaints db.
Proof.
  unfold complaintSchema_post_save. intros H. by repeat case_match; simplify_eq.
Qed.

(** A save of a document that passes validation writes the document as the
    pre-save hook leaves it, whatever the post-save hook does. *)
Lemma complaints_complaint_save (now : Date) (id : ObjectId) (this_user : UserRef)
    (c : Complaint) (db : DB) :
  complaintSchema_validate c = [] ->
  complaints (complaint_save now id this_user c db).2
  = <[id := complaintSchema_pre_save now c]> (complaints db).
Proof.
  intros Hvalid. unfold complaint_save. rewrite Hvalid.
  destruct (complaintSchema_post_save _ _ _ _) as [e|db'] eqn:Hpost; simpl; [done|].
  by rewrite (complaints_post_save _ _ _ _ _ Hpost).
Qed.

(** A save of a document that fails validation writes nothing. *)
Lemma complaint_save_invalid (now : Date) (id : ObjectId) (this_user : UserRef)
    (c : Complaint) (db : DB) :
  complaintSchema_validate c <> [] ->
  complaint_save now id this_user c db = (Invalid (complaintSchema_validate c), db).
Proof.
  intros Hinvalid. unfold complaint_save.
  destruct (complaintSchema_validate c) eqn:E; [congruence|done].
Qed.

(** A save touches no complaint other than the saved one. *)
Lemma complaints_complaint_save_ne (now : Date) (id j : ObjectId) (this_user : UserRef)
    (c : Complaint) (db : DB) :
  id <> j ->
  complaints (complaint_save now id this_user c db).2 !! j = complaints db !! j.
Proof.
  intros Hne. destruct (complaintSchema_validate c) as [|p l] eqn:Hvalid.
  - rewrite complaints_complaint_save by done. by rewrite lookup_insert_ne.
  - by rewrite complaint_save_invalid by (by rewrite Hvalid).
Qed.

Lemma findById_complaint_save (now : Date) (id : ObjectId) (this_user : UserRef)
    (c : Complaint) (db : DB) :
  complaintSchema_validate c = [] ->
  findById id (complaint_save now id this_user c db).2
  = Some (complaintSchema_pre_save now c).
Proof.
  intros Hvalid. unfold findById. rewrite complaints_complaint_save by done.
  apply lookup_insert_eq.
Qed.


(** The post-save hook throws only on a user count without a user. *)
Lemma userCounts_find_runs (this_user : UserRef) (l : list UserCount) :
  forallb (fun uc => bool_decide (is_Some (uc_user uc))) l = true ->
  exists found, userCounts_find this_user l = inr found.
Proof.
  induction l as [|uc l IH]; simpl; [by eexists|].
  intros [Huc Hl]%andb_true_iff. apply bool_decide_eq_true_1 in Huc as [x Hx].
  rewrite Hx. destruct (ObjectId_equals x this_user); [by eexists|auto].
Qed.

Lemma reconcile_runs (this_user : UserRef) (c : Complaint) (k : Category) (db : DB) :
  counts_have_users k = true -> exists k', reconcile this_user c k db = inr k'.
Proof.
  intros Hk. unfold reconcile. cbv zeta.
  assert (cat_userCounts (recount_subCategory c k db) = cat_userCounts k) as ->
    by (unfold recount_subCategory; by repeat case_match).
  destruct (userCounts_find_runs this_user _ Hk) as [found ->].
  destruct found, this_user; by eexists.
Qed.

Lemma post_save_runs (now : Date) (this_user : UserRef) (c : Complaint) (db : DB) :
  hook_runs (c_category c) db = true ->
  exists db', complaintSchema_post_save now this_user c db = inr db'.
Proof.
  unfold hook_runs, complaintSchema_post_save.
  destruct (categories db !! c_category c) as [k|] eqn:Hk; simpl; [|by eexists].
  intros Hrun. destruct (reconcile_runs this_user c k db Hrun) as [k' ->]. by eexists.
Qed.

(** A save of a valid document completes when the hook runs to its end. *)
Lemma complaint_save_completes (now : Date) (id : ObjectId) (this_user : UserRef)
    (c : Complaint) (db : DB) :
  complaintSchema_validate c = [] ->
  hook_runs (c_category c) db = true ->
  (complaint_save now id this_user c db).1 = Saved (complaintSchema_pre_save now c).
Proof.
  intros Hvalid Hrun. unfold complaint_save. rewrite Hvalid.
  destruct (post_save_runs now this_user (complaintSchema_pre_save now c)
              (with_complaints
                 (<[id := complaintSchema_pre_save now c]> (complaints db)) db))
    as [db' ->]; done.
Qed.

Lemma findOne_owned_Some (id user : ObjectId) (db : DB) (c : Complaint) :
  findOne_owned id user db = Some c <-> findById id db = Some c /\ c_user c = Some user.
Proof.
  unfold findOne_owned, findById. destruct (complaints db !! id) as [c'|].
  - case_bool_decide; split; intros; simplify_eq; try done.
    + by destruct_and!; simplify_eq.
    + by destruct_and!; simplify_eq.
  - split; [done|]. by intros [? _].
Qed.

Lemma findOne_owned_None (id user : ObjectId) (db : DB) (c : Complaint) :
  findById id db = Some c -> c_user c <> Some user -> findOne_owned id user db = None.
Proof.
  unfold findOne_owned, findById. intros -> Hne. by rewrite bool_decide_eq_false_2.
Qed.

(** ** The database and the reply of the routes that save *)

(** The three ways in which a save ends. *)
Lemma complaint_save_cases (now : Date) (id : ObjectId) (this_user : UserRef)
    (c : Complaint) (db : DB) :
  let c' := complaintSchema_pre_save now c in
  let written := with_complaints (<[id := c']> (complaints db)) db in
  (complaintSchema_validate c <> []
   /\ complaint_save now id this_user c db = (Invalid (complaintSchema_validate c), db))
  \/ (complaintSchema_validate c = []
      /\ exists e, complaintSchema_post_save now this_user c' written = inl e
                   /\ complaint_save now id this_user c db = (PostHookThrew c' e, written))
  \/ (complaintSchema_validate c = []
      /\ exists db', complaintSchema_post_save now this_user c' written = inr db'
                     /\ complaint_save now id this_user c db = (Saved c', db')).
Proof.
  intros c' written. unfold complaint_save. fold c'. fold written.
  destruct (complaintSchema_validate c) as [|p l] eqn:Hvalid; [|by left].
  right. destruct (complaintSchema_post_save now this_user c' written) as [e|db'];
    [left|right]; eauto.
Qed.




(** Case analysis on the save of a route. *)
Ltac save_cases now id this_user c db :=
  destruct (complaint_save_cases now id this_user c db)
    as [[? ->]|[[? (? & ? & ->)]|[? (? & ? & ->)]]].

Lemma patch_status_db now id user b mail db c :
  findById id db = Some c ->
  u_role user = RoleAdmin ->
  optional_notEmpty (sb_resolution b) = true ->
  (patch_status now id user b mail db).2
  = (complaint_save now id (stored_ref (c_user c)) (with_status now user b c) db).2.
Proof.
  intros Hc Hadmin Hbody. unfold patch_status.
  rewrite Hbody, Hc, Hadmin. simpl.
  change (match sb_resolution b with
          | Some resolution =>
              set_c_resolution
                (mkResolution (Some (trim resolution)) (Some now) (Some (u_id user)))
                (set_c_status (status_name (sb_status b)) c)
          | None => set_c_status (status_name (sb_status b)) c
          end) with (with_status now user b c).
  save_cases now id (stored_ref (c_user c)) (with_status now user b c) db;
    by destruct mail.
Qed.


(** ** Status transitions (router.patch('/:id/status')) *)


(** ** The filer's update (router.put('/:id')) *)

Lemma apply_set_unchanged (b : UpdateBody) (c : Complaint) :
  unchanged_where_absent b c (apply_set b c).
Proof.
  unfold unchanged_where_absent, apply_set. simpl.
  split_and!; try done; by intros ->.
Qed.

Lemma apply_set_takes (b : UpdateBody) (c : Complaint) :
  takes_body_values b (apply_set b c).
Proof.
  unfold takes_body_values, apply_set. simpl.
  split_and!; by intros v ->.
Qed.

(** C6, as the code has it: the filer's update hands the whole request
    body to [$set] on the complaint the filer owns, in every status
    (resolved and rejected included) and with no validator of the schema.
    Each top-level path that the body names, of any schema path and not
    only title, description, category and priority, takes the body's value
    as a whole (title and description trimmed; a status of any string; null
    for [user] or [subCategory] if the body says so; for [sharedOn],
    [resolution] and [aiResponse] the object of the body, so that what the
    stored object held under a sub-path the body leaves out is lost); every
    top-level path that the body does not name is unchanged; the reply is
    200 with the updated complaint when the notification is delivered. *)
Theorem update_sets_the_body_and_nothing_else
    (id : ObjectId) (user : User) (b : UpdateBody) (mail : Outcome unit)
    (db : DB) (c : Complaint) :
  findOne_owned id (u_id user) db = Some c ->
  updateValidation b = true ->
  exists c',
    findById id (put_complaint id user b mail db).2 = Some c'
    /\ takes_body_values b c'
    /\ unchanged_where_absent b c c'
    /\ (forall u, mail = Resolves u ->
          (put_complaint id user b mail db).1 = mkResponse 200 (JComplaint c')).
Proof.
  intros Hc Hvalid. exists (apply_set b c). unfold put_complaint.
  rewrite Hvalid, Hc. simpl. split_and!.
  - destruct mail; simpl; unfold findById; simpl; apply lookup_insert_eq.
  - apply apply_set_takes.
  - apply apply_set_unchanged.
  - by intros u ->.
Qed.
(** ** Sharing (router.post('/:id/share/email'), router.post('/:id/share/social')) *)






(** ** Reconciliation after a save (complaintSchema.post('save')) *)

Lemma subCategories_calculate (k : Category) :
  cat_subCategories (calculateTotalComplaints k) = cat_subCategories k.
Proof. unfold calculateTotalComplaints. by destruct (cat_subCategories k) eqn:E. Qed.

Lemma userCounts_calculate (k : Category) :
  cat_userCounts (calculateTotalComplaints k) = cat_userCounts k.
Proof. unfold calculateTotalComplaints. by destruct (cat_subCategories k) eqn:E. Qed.

Lemma subCategories_id_stamp (now : Date) (x : ObjectId) (l : list SubCategory) :
  subCategories_id x (map (set_sub_updatedAt now) l)
  = set_sub_updatedAt now <$> subCategories_id x l.
Proof.
  unfold subCategories_id. induction l as [|s l IH]; simpl; [done|].
  by case_bool_decide.
Qed.

Lemma subCategories_id_assign (x : ObjectId) (n : Z) (l : list SubCategory) :
  subCategories_id x (assign_sub_totalComplaints x n l)
  = set_sub_totalComplaints n <$> subCategories_id x l.
Proof.
  unfold subCategories_id. induction l as [|s l IH]; simpl; [done|].
  case_bool_decide as Hs; simpl.
  - by rewrite bool_decide_eq_true_2.
  - by rewrite bool_decide_eq_false_2.
Qed.

Lemma subCategories_reconcile (this_user : UserRef) (c : Complaint) (k k' : Category)
    (db : DB) (sc : ObjectId) (s : SubCategory) :
  c_subCategory c = Some sc ->
  subCategories_id sc (cat_subCategories k) = Some s ->
  reconcile this_user c k db = inr k' ->
  cat_subCategories k'
  = assign_sub_totalComplaints sc (complaints_of_pair (c_category c) sc db)
      (cat_subCategories k).
Proof.
  intros Hsc Hs. unfold reconcile, recount_subCategory. rewrite Hsc, Hs. intros H.
  repeat case_match; simplify_eq; by rewrite subCategories_calculate.
Qed.

(** What a completed save leaves in the category of the complaint. *)
Lemma complaint_save_category (now : Date) (id : ObjectId) (this_user : UserRef)
    (c : Complaint) (db : DB) (k : Category) (saved : Complaint) :
  categories db !! c_category c = Some k ->
  (complaint_save now id this_user c db).1 = Saved saved ->
  exists k',
    reconcile this_user (complaintSchema_pre_save now c) k
      (with_complaints (<[id := complaintSchema_pre_save now c]> (complaints db)) db)
    = inr k'
    /\ categories (complaint_save now id this_user c db).2
       = <[c_category c := categorySchema_pre_save now k']> (categories db).
Proof.
  intros Hk. save_cases now id this_user c db; simpl; try done. intros _.
  match goal with H : complaintSchema_post_save _ _ _ _ = inr _ |- _ =>
    unfold complaintSchema_post_save in H; simpl in H; rewrite Hk in H;
    destruct (reconcile _ _ _ _) as [e|k'] eqn:Hrec; simplify_eq end.
  by exists k'.
Qed.

(** The creation side of the counter protocol: a completed save of a
    complaint whose category and subcategory exist leaves the subcategory
    counter at the number of stored complaints of the pair. *)
Lemma save_recounts_subcategory
    (now : Date) (id : ObjectId) (this_user : UserRef) (c : Complaint) (db : DB)
    (k : Category) (sc : ObjectId) (s : SubCategory) (saved : Complaint) :
  categories db !! c_category c = Some k ->
  c_subCategory c = Some sc ->
  subCategories_id sc (cat_subCategories k) = Some s ->
  (complaint_save now id this_user c db).1 = Saved saved ->
  stored_sub_count (c_category c) sc (complaint_save now id this_user c db).2
  = Some (complaints_of_pair (c_category c) sc (complaint_save now id this_user c db).2).
Proof.
  intros Hk Hsc Hs Hsaved.
  destruct (complaint_save_category now id this_user c db k saved Hk Hsaved)
    as (k' & Hrec & Hcats).
  assert (complaintSchema_validate c = []) as Hvalid.
  { revert Hsaved. by save_cases now id this_user c db. }
  unfold stored_sub_count, complaints_of_pair, countDocuments.
  rewrite Hcats, complaints_complaint_save by done.
  rewrite lookup_insert_eq. simpl.
  rewrite (subCategories_reconcile _ _ k _ _ sc s Hsc Hs Hrec).
  rewrite subCategories_id_stamp, subCategories_id_assign, Hs. done.
Qed.

(** A deletion writes no category document. *)
Lemma delete_complaint_categories (id : ObjectId) (user : User) (db : DB) :
  categories (delete_complaint id user db).2 = categories db.
Proof. unfold delete_complaint. by case_match. Qed.

(** What a deletion does to the counter protocol, at every input: the
    ground truth of the complaint's pair drops by one and the stored counter
    of the pair stays as it was. *)
Lemma delete_complaint_miscounts (id : ObjectId) (user : User) (db : DB) (c : Complaint)
    (sc : ObjectId) :
  findOne_owned id (u_id user) db = Some c ->
  c_subCategory c = Some sc ->
  complaints_of_pair (c_category c) sc (delete_complaint id user db).2
  = complaints_of_pair (c_category c) sc db - 1
  /\ stored_sub_count (c_category c) sc (delete_complaint id user db).2
     = stored_sub_count (c_category c) sc db.
Proof.
  intros Hc Hsc. unfold delete_complaint. rewrite Hc. simpl. split; [|done].
  apply findOne_owned_Some in Hc as [Hc _]. unfold findById in Hc.
  unfold complaints_of_pair, countDocuments. simpl.
  rewrite map_filter_delete.
  assert (filter (fun kv : nat * Complaint =>
                    matches (mkQuery (Some (c_category c)) (Some sc) None)
                      kv.2 = true) (complaints db) !! id = Some c) as Hin.
  { apply map_lookup_filter_Some. split; [done|]. unfold matches. simpl.
    by rewrite Hsc, !bool_decide_eq_true_2. }
  rewrite map_size_delete_Some by eauto.
  assert (size (filter (fun kv : nat * Complaint =>
                    matches (mkQuery (Some (c_category c)) (Some sc) None)
                      kv.2 = true) (complaints db)) <> 0%nat) as Hpos; [|lia].
  intros Hzero. apply map_size_empty_inv in Hzero. by rewrite Hzero in Hin.
Qed.

(** An update writes no category document. *)
Lemma put_complaint_categories id user b mail db :
  categories (put_complaint id user b mail db).2 = categories db.
Proof. unfold put_complaint. repeat case_match; done. Qed.

Lemma userCounts_recount (c : Complaint) (k : Category) (db : DB) :
  cat_userCounts (recount_subCategory c k db) = cat_userCounts k.
Proof. unfold recount_subCategory. by repeat case_match. Qed.

(** When [find] returns no entry, the entry that a save creates holds the
    constant 1. *)
Lemma reconcile_first_user_count (this_user : UserRef) (c : Complaint) (k k' : Category)
    (db : DB) :
  userCounts_find this_user (cat_userCounts k) = inr None ->
  reconcile this_user c k db = inr k' ->
  cat_userCounts k' = cat_userCounts k ++ [mkUserCount (ref_id this_user) 1].
Proof.
  intros Hnone. unfold reconcile. cbv zeta. rewrite userCounts_recount, Hnone.
  intros [= <-]. by rewrite userCounts_calculate.
Qed.

(** [find] returns an entry for an ObjectId only: the entry is never found
    for a complaint that was loaded with its owner populated. *)
Lemma userCounts_find_populated (this_user : UserRef) (l : list UserCount)
    (found : option UserCount) :
  (forall u, this_user <> RefId u) ->
  userCounts_find this_user l = inr found -> found = None.
Proof.
  intros Hpop. induction l as [|uc l IH]; simpl; [by intros [= <-]|].
  destruct (uc_user uc) as [x|]; [|done].
  destruct this_user as [u| |]; simpl; [by destruct (Hpop u)|exact IH..].
Qed.

Lemma first_count_find (u : ObjectId) (l : list UserCount) (found : option UserCount) :
  userCounts_find (RefId u) l = inr found -> first_count u l = found.
Proof.
  unfold first_count. revert found. induction l as [|uc l IH]; intros found; simpl.
  - by intros [= <-].
  - destruct (uc_user uc) as [x|] eqn:Hx; [|done]. simpl.
    case_bool_decide as Hxu.
    + intros [= <-]. by rewrite bool_decide_eq_true_2 by congruence.
    + rewrite bool_decide_eq_false_2 by congruence. apply IH.
Qed.

Lemma first_count_assign (u : ObjectId) (n : Z) (l : list UserCount) (uc : UserCount) :
  first_count u l = Some uc ->
  uc_count <$> first_count u (assign_userCount u n l) = Some n.
Proof.
  unfold first_count. induction l as [|a l IH]; simpl; [done|].
  case_bool_decide as Ha; simpl.
  - by rewrite bool_decide_eq_true_2.
  - by rewrite bool_decide_eq_false_2.
Qed.

(** When [find] returns an entry, a save leaves in it the number of stored
    complaints of the user in the category. *)
Lemma reconcile_existing_user_count (u : ObjectId) (c : Complaint) (k k' : Category)
    (db : DB) (uc : UserCount) :
  userCounts_find (RefId u) (cat_userCounts k) = inr (Some uc) ->
  reconcile (RefId u) c k db = inr k' ->
  uc_count <$> first_count u (cat_userCounts k')
  = Some (complaints_of_user (c_category c) u db).
Proof.
  intros Hsome. unfold reconcile. cbv zeta. rewrite userCounts_recount, Hsome.
  intros [= <-]. rewrite userCounts_calculate. simpl.
  apply (first_count_assign _ _ _ uc), first_count_find, Hsome.
Qed.

(** ** Deleting categories and subcategories *)

Lemma subCategories_id_pull (now : Date) (sid : ObjectId) (l : list SubCategory) :
  subCategories_id sid (map (set_sub_updatedAt now) (subCategories_pull sid l)) = None.
Proof.
  unfold subCategories_id, subCategories_pull.
  induction l as [|s l IH]; [done|].
  rewrite filter_cons. case_decide; [|done]. simpl.
  by rewrite bool_decide_eq_false_2.
Qed.

(** Both delete controllers decide on the stored counter alone: a positive
    counter is an [ApiError] of status 400 handed to [next] with nothing
    written; any other counter is a 204 with the target removed. *)
Lemma delete_decided_by_the_stored_counter
    (now : Date) (id : ObjectId) (db : DB) (k : Category) :
  categories db !! id = Some k ->
  (0 < cat_totalComplaints k ->
     deleteCategory id db
     = (Next (ApiError 400 "Cannot delete category with existing complaints"), db))
  /\ (cat_totalComplaints k <= 0 ->
      (deleteCategory id db).1 = Send (mkResponse 204 JEmpty)
      /\ categories (deleteCategory id db).2 !! id = None)
  /\ (forall sid s,
        subCategories_id sid (cat_subCategories k) = Some s ->
        (0 < sub_totalComplaints s ->
           deleteSubCategory now id sid db
           = (Next (ApiError 400 "Cannot delete subcategory with existing complaints"), db))
        /\ (sub_totalComplaints s <= 0 ->
            (deleteSubCategory now id sid db).1 = Send (mkResponse 204 JEmpty)
            /\ stored_sub_count id sid (deleteSubCategory now id sid db).2 = None)).
Proof.
  intros Hk. unfold deleteCategory, deleteSubCategory. rewrite Hk. split_and!.
  - intros Hpos. by rewrite (proj2 (Z.ltb_lt _ _) Hpos).
  - intros Hle. rewrite (proj2 (Z.ltb_ge _ _) Hle). simpl.
    split; [done|]. apply lookup_delete_eq.
  - intros sid s Hs. rewrite Hs. split.
    + intros Hpos. by rewrite (proj2 (Z.ltb_lt _ _) Hpos).
    + intros Hle. rewrite (proj2 (Z.ltb_ge _ _) Hle). simpl. split; [done|].
      unfold stored_sub_count. simpl. rewrite lookup_insert_eq. simpl.
      by rewrite subCategories_id_pull.
Qed.

(** C8 at a failing input: Alice files complaint 300 under
    (Billing, Refund) and deletes it.  No complaint is left under Refund
    nor under Billing; the deletion ran no reconciliation, the counters
    still read 1, and both [deleteSubCategory] and [deleteCategory] are
    refused with "Cannot delete ... with existing complaints", writing
    nothing. *)
Theorem delete_refused_after_every_complaint_is_deleted :
  complaints_of_pair 100 200 db_after_delete = 0
  /\ complaints_of_category 100 db_after_delete = 0
  /\ stored_sub_count 100 200 db_after_delete = Some 1
  /\ deleteSubCategory 40 100 200 db_after_delete
     = (Next (ApiError 400 "Cannot delete subcategory with existing complaints"),
        db_after_delete)
  /\ deleteCategory 100 db_after_delete
     = (Next (ApiError 400 "Cannot delete category with existing complaints"),
        db_after_delete).
Proof. vm_compute. done. Qed.

(** ** toggleFrequentStatus *)

(** The stored document after a toggle is the stored document before it,
    stamped by the pre-save hook. *)
Lemma toggleFrequentStatus_stored (now : Date) (id : ObjectId) (db : DB) (k : Category) :
  categories db !! id = Some k ->
  categories (toggleFrequentStatus now id db).2 !! id
  = Some (categorySchema_pre_save now k).
Proof.
  intros Hk. unfold toggleFrequentStatus, Category_findById. rewrite Hk. simpl.
  apply lookup_insert_eq.
Qed.

(** A toggle changes no counter. *)
Lemma toggleFrequentStatus_counters (now : Date) (id : ObjectId) (db : DB) (k : Category) :
  categories db !! id = Some k ->
  exists k',
    categories (toggleFrequentStatus now id db).2 !! id = Some k'
    /\ cat_totalComplaints k' = cat_totalComplaints k
    /\ sub_totalComplaints <$> cat_subCategories k'
       = sub_totalComplaints <$> cat_subCategories k
    /\ cat_userCounts k' = cat_userCounts k.
Proof.
  intros Hk. eexists. split; [by apply toggleFrequentStatus_stored|].
  simpl. split_and!; try done.
  induction (cat_subCategories k) as [|s l IH]; csimpl; [done|]. by f_equal.
Qed.

(** C9 at a failing input: on the category Billing, whose document carries
    no [isFrequentlyUsed], a toggle sets the property to [true] on the
    object in memory only; the document read back from the collection has
    the property undefined as before, and a second toggle yields [true]
    again instead of flipping back. *)
Theorem toggle_flag_is_not_persisted :
  doc_isFrequentlyUsed <$> Category_findById 100 db_taxonomy = Some None
  /\ doc_isFrequentlyUsed <$> (toggleFrequentStatus 40 100 db_taxonomy).1.2
     = Some (Some true)
  /\ doc_isFrequentlyUsed <$>
       Category_findById 100 (toggleFrequentStatus 40 100 db_taxonomy).2
     = Some None
  /\ doc_isFrequentlyUsed <$>
       (toggleFrequentStatus 41 100 (toggleFrequentStatus 40 100 db_taxonomy).2).1.2
     = Some (Some true).
Proof. vm_compute. done. Qed.

(** ** The counters at concrete requests *)

(** C1 at a failing input: Alice files complaint 300 under
    (Billing, Refund) and deletes it.  No complaint of the pair is left,
    and the counter of Refund still reads 1. *)
Theorem delete_leaves_subcategory_counter_stale :
  findById 300 db_after_delete = None
  /\ complaints_of_pair 100 200 db_after_delete = 0
  /\ stored_sub_count 100 200 db_after_delete = Some 1.
Proof. vm_compute. done. Qed.

(** C3 at a failing input: Alice already has a complaint in category
    Delivery (moved there by an update) when she files her first complaint
    under that category; the reconciliation after this creation finds no
    entry for her and creates one that holds 1, and the ground-truth count
    is 2. *)
Theorem first_user_count_is_one_whatever_the_ground_truth :
  stored_user_count 101 7 db_recategorized = Some 1
  /\ complaints_of_user 101 7 db_recategorized = 2.
Proof. vm_compute. done. Qed.

(** C5 at a failing input: complaint 300 has priority medium and
    [priorityValue] 1; after Alice's update with [priority = "high"] the
    stored priority is high and [priorityValue] is still 1. *)
Theorem update_leaves_priorityValue_behind :
  let r := put_complaint 300 alice (body_priority High) (Resolves ()) db_one_complaint in
  status_code r.1 = 200%nat
  /\ c_priority <$> findById 300 r.2 = Some High
  /\ c_priorityValue <$> findById 300 r.2 = Some 1
  /\ priority_value High = 2.
Proof. vm_compute. done. Qed.

(** C7 at a failing input: the complaint is saved (and counted), the
    notification throws, and the reply is 500 "Server error". *)
Theorem create_fails_when_notification_throws :
  let r := post_complaint 20 300 alice refund_body [] (Throws "Connection timeout")
             db_taxonomy in
  r.1 = server_error "Connection timeout"
  /\ c_title <$> findById 300 r.2 = Some "Charged twice"%string
  /\ stored_sub_count 100 200 r.2 = Some 1.
Proof. vm_compute. done. Qed.


(** C6 fails at a concrete input: on the resolved complaint 300, Alice's
    update with [status = "pending"] is accepted; the reply is 200 and the
    stored status, a field outside title, description, category and
    priority, is pending. *)
Lemma update_of_resolved_complaint_sets_status :
  let r := put_complaint 300 alice (body_status "pending") (Resolves ()) db_resolved in
  c_user <$> findById 300 db_resolved = Some (Some (u_id alice))
  /\ c_status <$> findById 300 db_resolved = Some "resolved"%string
  /\ status_code r.1 = 200%nat
  /\ c_status <$> findById 300 r.2 = Some "pending"%string
  /\ c_status <$> findById 300 r.2 <> c_status <$> findById 300 db_resolved.
Proof. vm_compute. split_and!; done. Qed.

(** The terminal complaint that a status update cannot move: Alice's
    update stored null for the subcategory of the resolved complaint 300;
    the admin's status update fails in [save()] with the ValidationError of
    [subCategory], the reply is 500 and the stored status stays resolved. *)
Lemma status_update_fails_on_a_complaint_left_without_subCategory :
  let r := patch_status 31 300 admin (mkStatusBody InProgress None) (Resolves ())
             db_resolved_no_subCategory in
  c_subCategory <$> findById 300 db_resolved_no_subCategory = Some None
  /\ c_status <$> findById 300 db_resolved_no_subCategory = Some "resolved"%string
  /\ r.1 = validation_failed ["subCategory"%string]
  /\ status_code r.1 = 500%nat
  /\ r.2 = db_resolved_no_subCategory.
Proof. vm_compute. split_and!; done. Qed.

(** An update that names [sharedOn] replaces the object as a whole: the
    body carries the e-mail shares only, and the social share that
    complaint 300 held is gone from the stored document. *)
Lemma update_of_sharedOn_erases_the_social_shares :
  let b := body_sharedOn (mkSharedOn [mkEmailShare "carol@example.org" 55] []) in
  let r := put_complaint 300 alice b (Resolves ()) db_shared in
  c_sharedOn_social <$> findById 300 db_shared = Some [mkSocialShare "twitter" 35]
  /\ status_code r.1 = 200%nat
  /\ c_sharedOn_email <$> findById 300 r.2 = Some [mkEmailShare "carol@example.org" 55]
  /\ c_sharedOn_social <$> findById 300 r.2 = Some [].
Proof. vm_compute. split_and!; done. Qed.


(** What the condition on the post-save hook rules out.  Bob's share of
    complaint 300 after the deletion of its owner left a user count without
    a user in the category Billing; at his next share the complaint is
    written with the new entry, the find of the hook throws on that count,
    and the reply is 500. *)
Lemma share_replies_500_after_the_owner_is_gone :
  let r := share_email contains_at keep_address 50 300 bob "dave@example.org"
             (Resolves ()) {[1%nat; 8%nat]} db_owner_gone in
  cat_userCounts <$> categories db_owner_gone !! 100%nat
    = Some [mkUserCount (Some 7%nat) 1; mkUserCount None 1]
  /\ (complaintSchema_validate <$> findById 300 db_owner_gone) = Some []
  /\ hook_runs 100 db_owner_gone = false
  /\ r.1 = server_error "Cannot read properties of null (reading 'equals')"
  /\ c_sharedOn_email <$> findById 300 r.2
     = Some [mkEmailShare "carol@example.org" 45; mkEmailShare "dave@example.org" 50].
Proof. vm_compute. split_and!; done. Qed.

(** ** The theorems at concrete inputs *)

(** The database after the taxonomy requests and Alice's first complaint
    is reachable, and its totals are the sums. *)
Lemma category_total_is_sum_of_subcategories_witness :
  reachable contains_at keep_address db_one_complaint
  /\ totals_consistent db_one_complaint
  /\ (forall now id this_user c,
        totals_consistent (complaint_save now id this_user c db_one_complaint).2).
Proof.
  assert (reachable contains_at keep_address db_one_complaint) as Hreach.
  { change db_one_complaint with
      (run contains_at keep_address
         (taxonomy_requests ++ [POST_complaint 20 300 alice refund_body [] (Resolves ())])
         empty_db).
    apply reachable_run; [apply reachable_empty|]. vm_compute. reflexivity. }
  split; [exact Hreach|].
  exact (category_total_is_sum_of_subcategories contains_at keep_address
           db_one_complaint Hreach).
Defined.


(** Alice's update of the resolved complaint 300 with a body that carries
    [status] alone. *)
Lemma update_sets_the_body_and_nothing_else_witness :
  exists c c',
    findOne_owned 300 (u_id alice) db_resolved = Some c
    /\ updateValidation (body_status "pending") = true
    /\ findById 300
         (put_complaint 300 alice (body_status "pending") (Resolves ()) db_resolved).2
       = Some c'
    /\ takes_body_values (body_status "pending") c'
    /\ unchanged_where_absent (body_status "pending") c c'.
Proof.
  eexists.
  destruct (update_sets_the_body_and_nothing_else 300 alice (body_status "pending")
              (Resolves ()) db_resolved _ ltac:(vm_compute; reflexivity)
              ltac:(reflexivity))
    as (c' & Hfind & Htakes & Hkeep & _).
  exists c'. split; [vm_compute; reflexivity|]. split; [reflexivity|].
  split; [exact Hfind|]. split; [exact Htakes|exact Hkeep].
Defined.


(** * Further properties of the routes, hooks and controllers *)

(** ** Who may write a complaint *)

(** A principal who does not own a stored complaint, an admin included,
    cannot update it, delete it, comment on it or share it on social media:
    each of the four routes writes nothing and replies 404, or 400 when the
    body fails validation first. *)
Theorem not_owner_writes_nothing
    (now : Date) (id : ObjectId) (user : User) (b : UpdateBody) (mail : Outcome unit)
    (text platform : string) (db : DB) (c : Complaint) :
  findById id db = Some c ->
  c_user c <> Some (u_id user) ->
  (put_complaint id user b mail db
     = (if updateValidation b then not_found else mkResponse 400 JValidationErrors, db))
  /\ delete_complaint id user db = (not_found, db)
  /\ (post_comment now id user text db
        = (if notEmpty (trim text) then not_found else mkResponse 400 JValidationErrors,
           db))
  /\ (share_social now id user platform db
        = (if platform_isIn platform then not_found
           else mkResponse 400 JValidationErrors, db)).
Proof.
  intros Hc Hne.
  pose proof (findOne_owned_None id (u_id user) db c Hc Hne) as Hnone.
  unfold put_complaint, delete_complaint, post_comment, share_social.
  rewrite Hnone. split_and!.
  - by destruct (updateValidation b).
  - done.
  - by destruct (notEmpty (trim text)).
  - by destruct (platform_isIn platform).
Qed.

(** [GET /:id]: a stored complaint is returned to its owner and to every
    admin, and is "not found" for every other principal. *)
Theorem get_complaint_visibility (id : ObjectId) (user : User) (db : DB) (c : Complaint) :
  findById id db = Some c ->
  (u_role user = RoleAdmin \/ c_user c = Some (u_id user) ->
     get_complaint id user db = mkResponse 200 (JComplaint c))
  /\ (u_role user <> RoleAdmin -> c_user c <> Some (u_id user) ->
      get_complaint id user db = not_found).
Proof.
  intros Hc. unfold get_complaint. split.
  - intros [Hadmin|Hown].
    + by rewrite bool_decide_eq_true_2, Hc.
    + case_bool_decide; [by rewrite Hc|].
      by rewrite (proj2 (findOne_owned_Some id (u_id user) db c)).
  - intros Hrole Hne. rewrite bool_decide_eq_false_2 by done.
    by rewrite (findOne_owned_None id (u_id user) db c).
Qed.

(** [PATCH /:id/status] checks in this order: the body (a blank resolution
    is a 400), the existence of the complaint (404, also for a principal
    who is not an admin), the role (403).  None of the three refusals
    writes anything. *)
Theorem patch_status_refusals
    (now : Date) (id : ObjectId) (user : User) (b : StatusBody) (mail : Outcome unit)
    (db : DB) :
  (optional_notEmpty (sb_resolution b) = false ->
     patch_status now id user b mail db = (mkResponse 400 JValidationErrors, db))
  /\ (optional_notEmpty (sb_resolution b) = true -> findById id db = None ->
      patch_status now id user b mail db = (not_found, db))
  /\ (optional_notEmpty (sb_resolution b) = true -> is_Some (findById id db) ->
      u_role user <> RoleAdmin ->
      patch_status now id user b mail db
      = (mkResponse 403 (JMessage "Not authorized to update complaint status"), db)).
Proof.
  unfold patch_status. split_and!.
  - by intros ->.
  - by intros -> ->.
  - intros -> [c ->] Hrole. simpl. by rewrite bool_decide_eq_false_2.
Qed.

(** ** What a request leaves alone *)

(** A request of a principal who is not an admin to one of the six
    writing routes of routes/categories.js leaves the whole database as it
    was. *)
Theorem category_routes_need_admin
    (isEmail : string -> bool) (normalizeEmail : string -> string)
    (r : Request) (user : User) (db : DB) :
  category_request r = Some user ->
  u_role user <> RoleAdmin ->
  handle isEmail normalizeEmail r db = db.
Proof.
  intros Hr Hrole.
  destruct r; simplify_eq/=; unfold adminAuth; by rewrite bool_decide_eq_false_2.
Qed.

(** No request writes a complaint other than the one it names; a request
    to a category route writes no complaint at all. *)
Theorem other_complaints_untouched
    (isEmail : string -> bool) (normalizeEmail : string -> string)
    (r : Request) (db : DB) (j : ObjectId) :
  addressed_complaint r <> Some j ->
  complaints (handle isEmail normalizeEmail r db) !! j = complaints db !! j.
Proof.
  intros Hj.
  assert (forall now id this_user c d, id <> j ->
            complaints (complaint_save now id this_user c d).2 !! j = complaints d !! j)
    as Hsave by (intros; by apply complaints_complaint_save_ne).
  assert (forall user (h : DB -> Reply * DB),
            (forall d, complaints (h d).2 = complaints d) ->
            complaints (adminAuth user h db).2 !! j = complaints db !! j) as Hadmin.
  { intros user h Hh. unfold adminAuth. case_bool_decide; [by rewrite Hh|done]. }
  destruct r; simpl in *;
    try (apply Hadmin; intros d).
  - unfold post_complaint. repeat case_match; simplify_eq/=; try done; saved_db;
      apply Hsave; congruence.
  - unfold put_complaint. repeat case_match; simplify_eq/=; try done;
      rewrite lookup_insert_ne; congruence.
  - unfold delete_complaint. repeat case_match; simplify_eq/=; try done.
    rewrite lookup_delete_ne; congruence.
  - unfold post_comment. repeat case_match; simplify_eq/=; try done; saved_db;
      apply Hsave; congruence.
  - unfold share_email. repeat case_match; simplify_eq/=; try done; saved_db;
      apply Hsave; congruence.
  - unfold share_social. repeat case_match; simplify_eq/=; try done; saved_db;
      apply Hsave; congruence.
  - unfold patch_status. repeat case_match; simplify_eq/=; try done; saved_db;
      apply Hsave; congruence.
  - unfold createCategory, validated_save. repeat case_match; simplify_eq/=; done.
  - unfold updateCategory, validated_save. repeat case_match; simplify_eq/=; done.
  - unfold deleteCategory. repeat case_match; simplify_eq/=; done.
  - unfold addSubCategory, validated_save. repeat case_match; simplify_eq/=; done.
  - unfold updateSubCategory, validated_save. repeat case_match; simplify_eq/=; done.
  - unfold deleteSubCategory. repeat case_match; simplify_eq/=; done.
  - unfold toggleFrequentStatus, Category_findById.
    by destruct (categories d !! id).
Qed.

Lemma categories_post_save (now : Date) (this_user : UserRef) (c : Complaint)
    (db db' : DB) (j : ObjectId) :
  c_category c <> j ->
  complaintSchema_post_save now this_user c db = inr db' ->
  categories db' !! j = categories db !! j.
Proof.
  intros Hj. unfold complaintSchema_post_save. intros H.
  repeat case_match; simplify_eq/=; try done. by rewrite lookup_insert_ne.
Qed.

Lemma categories_complaint_save
    (now : Date) (id : ObjectId) (this_user : UserRef) (c : Complaint) (db : DB)
    (j : ObjectId) :
  c_category c <> j ->
  categories (complaint_save now id this_user c db).2 !! j = categories db !! j.
Proof.
  intros Hj. save_cases now id this_user c db; simpl; try done.
  match goal with H : complaintSchema_post_save _ _ _ _ = inr _ |- _ =>
    by rewrite (categories_post_save _ _ _ _ _ j Hj H) end.
Qed.

Lemma put_complaint_categories_lookup id user b mail db (j : ObjectId) :
  categories (put_complaint id user b mail db).2 !! j = categories db !! j.
Proof. by rewrite put_complaint_categories. Qed.

Lemma categories_validated_save now id icon k db e (j : ObjectId) :
  id <> j -> validated_save now id icon k db = inr e ->
  categories e.2 !! j = categories db !! j.
Proof.
  intros Hj. unfold validated_save. repeat case_match; intros; simplify_eq/=.
  by rewrite lookup_insert_ne.
Qed.

(** No request writes a category other than the one it names or, for a
    request that saves a complaint, the category of that complaint; an
    update and a deletion of a complaint write no category at all. *)
Theorem other_categories_untouched
    (isEmail : string -> bool) (normalizeEmail : string -> string)
    (r : Request) (db : DB) (j : ObjectId) :
  addressed_category r db <> Some j ->
  categories (handle isEmail normalizeEmail r db) !! j = categories db !! j.
Proof.
  intros Hj.
  assert (forall now id this_user c d, c_category c <> j ->
            categories (complaint_save now id this_user c d).2 !! j
            = categories d !! j) as Hsave
    by (intros; by apply categories_complaint_save).
  assert (forall now id icon k d c0 d', id <> j ->
            validated_save now id icon k d = inr (c0, d') ->
            categories d' !! j = categories d !! j) as Hval.
  { intros now id icon k d c0 d' Hid Heq.
    exact (categories_validated_save now id icon k d (c0, d') j Hid Heq). }
  destruct r; simpl in *; unfold adminAuth; try case_bool_decide; try done.
  - unfold post_complaint. repeat case_match; simplify_eq/=; try done; saved_db;
      apply Hsave; simpl; congruence.
  - apply put_complaint_categories_lookup.
  - by rewrite delete_complaint_categories.
  - unfold post_comment, findOne_owned, findById in *.
    repeat case_match; simplify_eq/=; try done; saved_db;
      apply Hsave; simpl; congruence.
  - unfold share_email, findById in *.
    repeat case_match; simplify_eq/=; try done; saved_db;
      apply Hsave; simpl; congruence.
  - unfold share_social, findOne_owned, findById in *.
    repeat case_match; simplify_eq/=; try done; saved_db;
      apply Hsave; simpl; congruence.
  - unfold patch_status, findById in *.
    repeat case_match; simplify_eq/=; try done; saved_db;
      apply Hsave; simpl; congruence.
  - unfold createCategory. repeat case_match; simplify_eq/=; try done.
    eapply Hval; [|done]. congruence.
  - unfold updateCategory. repeat case_match; simplify_eq/=; try done.
    eapply Hval; [|done]. congruence.
  - unfold deleteCategory. repeat case_match; simplify_eq/=; try done.
    rewrite lookup_delete_ne; congruence.
  - unfold addSubCategory. repeat case_match; simplify_eq/=; try done.
    eapply Hval; [|done]. congruence.
  - unfold updateSubCategory. repeat case_match; simplify_eq/=; try done.
    eapply Hval; [|done]. congruence.
  - unfold deleteSubCategory. repeat case_match; simplify_eq/=; try done.
    rewrite lookup_insert_ne; congruence.
  - unfold toggleFrequentStatus, Category_findById.
    destruct (categories db !! id); simpl; [|done].
    rewrite lookup_insert_ne; congruence.
Qed.

(** ** The routes that save a complaint *)

Lemma post_comment_db now id user text db c :
  findOne_owned id (u_id user) db = Some c ->
  notEmpty (trim text) = true ->
  (post_comment now id user text db).2
  = (complaint_save now id (RefDocument (u_id user)) (with_comment now user text c) db).2.
Proof.
  intros Hc Htext. unfold post_comment, with_comment. rewrite Htext, Hc. simpl.
  save_cases now id (RefDocument (u_id user))
    (set_c_comments (c_comments c ++ [mkComment (trim text) (u_id user) now]) c) db;
    try done.
  by repeat case_match.
Qed.

Lemma post_comment_reply now id user text db c saved :
  findOne_owned id (u_id user) db = Some c ->
  notEmpty (trim text) = true ->
  (complaint_save now id (RefDocument (u_id user)) (with_comment now user text c) db).1
  = Saved saved ->
  (post_comment now id user text db).1
  = mkResponse 200 (JComment (mkComment (trim text) (u_id user) now)).
Proof.
  intros Hc Htext Hsaved.
  assert (complaintSchema_validate (with_comment now user text c) = []) as Hvalid.
  { revert Hsaved.
    by save_cases now id (RefDocument (u_id user)) (with_comment now user text c) db. }
  pose proof (findById_complaint_save now id (RefDocument (u_id user))
                (with_comment now user text c) db Hvalid) as Hfind.
  revert Hsaved Hfind. unfold post_comment, with_comment. rewrite Htext, Hc. simpl.
  save_cases now id (RefDocument (u_id user))
    (set_c_comments (c_comments c ++ [mkComment (trim text) (u_id user) now]) c) db;
    try done.
  simpl. intros _ ->. simpl. by rewrite last_snoc.
Qed.

(** [POST /:id/comments] by the owner with a text that is not blank, on a
    complaint that passes the validation of the schema, appends one comment
    (trimmed text, the owner as author, the clock reading) after the
    comments already stored, and replies with that comment when the
    post-save hook runs to its end.  On a complaint that fails the
    validation the reply is 500 and nothing is written. *)
Theorem post_comment_appends
    (now : Date) (id : ObjectId) (user : User) (text : string) (db : DB) (c : Complaint) :
  findOne_owned id (u_id user) db = Some c ->
  notEmpty (trim text) = true ->
  (complaintSchema_validate c = [] ->
     c_comments <$> findById id (post_comment now id user text db).2
     = Some (c_comments c ++ [mkComment (trim text) (u_id user) now])
     /\ (hook_runs (c_category c) db = true ->
         (post_comment now id user text db).1
         = mkResponse 200 (JComment (mkComment (trim text) (u_id user) now))))
  /\ (complaintSchema_validate c <> [] ->
      post_comment now id user text db
      = (validation_failed (complaintSchema_validate c), db)).
Proof.
  intros Hc Htext. split.
  - intros Hvalid. split.
    + rewrite (post_comment_db now id user text db c) by done.
      by rewrite findById_complaint_save.
    + intros Hrun. eapply post_comment_reply; [done..|].
      by apply complaint_save_completes.
  - intros Hinvalid. unfold post_comment. rewrite Htext, Hc. simpl.
    by rewrite complaint_save_invalid.
Qed.

(** [PATCH /:id/status] by an admin, when the complaint with its new
    status passes the validation of the schema, stores a resolution exactly
    when the body carries one, whatever the requested status: the text
    trimmed, the admin and the clock reading.  Without one the stored
    resolution stays as it was, so a complaint can become resolved with no
    resolution and can leave resolved with its resolution kept. *)
Theorem patch_status_resolution
    (now : Date) (id : ObjectId) (user : User) (b : StatusBody) (mail : Outcome unit)
    (db : DB) (c : Complaint) :
  findById id db = Some c ->
  u_role user = RoleAdmin ->
  optional_notEmpty (sb_resolution b) = true ->
  complaintSchema_validate (with_status now user b c) = [] ->
  c_resolution <$> findById id (patch_status now id user b mail db).2
  = Some match sb_resolution b with
         | Some text => mkResolution (Some (trim text)) (Some now) (Some (u_id user))
         | None => c_resolution c
         end.
Proof.
  intros Hc Hadmin Hbody Hvalid.
  rewrite (patch_status_db now id user b mail db c) by done.
  rewrite findById_complaint_save by done. unfold with_status.
  by destruct (sb_resolution b).
Qed.


(** ** Creating a complaint *)

Lemma upload_files_resolves (urls acc : list string) :
  upload_files (Resolves <$> urls) acc = Resolves (acc ++ urls).
Proof.
  revert acc. induction urls as [|u urls IH]; intros acc; simpl.
  - by rewrite app_nil_r.
  - rewrite IH. by rewrite <- app_assoc.
Qed.

Lemma upload_files_throws (urls acc : list string) (e : string)
    (rest : list (Outcome string)) :
  upload_files ((Resolves <$> urls) ++ Throws e :: rest) acc = Throws e.
Proof.
  revert acc. induction urls as [|u urls IH]; intros acc; simpl; [done|]. apply IH.
Qed.

Lemma isLength_min_notEmpty (n : nat) (s : string) :
  isLength_min (S n) s = true -> notEmpty s = true.
Proof. unfold isLength_min, notEmpty. by destruct s. Qed.

(** The validation chain of the creation route leaves nothing for the
    schema to refuse but a missing [subCategory]. *)
Lemma validate_new_Complaint now oid user b category subCategory priority attachments :
  complaintValidation b = true ->
  complaintSchema_validate
    (new_Complaint now oid user (trim (b_title b)) (trim (b_description b)) category
       subCategory priority attachments)
  = if subCategory is None then ["subCategory"] else [].
Proof.
  unfold complaintValidation. intros [[Ht Hd]%andb_true_iff _]%andb_true_iff.
  unfold complaintSchema_validate. simpl.
  rewrite (isLength_min_notEmpty _ _ Ht), (isLength_min_notEmpty _ _ Hd).
  by destruct subCategory.
Qed.




(** [POST /] stores nothing and leaves every counter alone when the user
    is not verified (403), when the body fails validation (400), when an
    upload throws (500 with the error of the first failed upload), and
    when the body passes validation but carries no subcategory (500 from
    the save, after the uploads). *)
Theorem post_complaint_refusals
    (now : Date) (oid : ObjectId) (user : User) (b : CreateBody)
    (files : list (Outcome string)) (mail : Outcome unit) (db : DB) :
  (u_isVerified user = false ->
     post_complaint now oid user b files mail db
     = (mkResponse 403 (JMessage "Email verification required"), db))
  /\ (u_isVerified user = true -> complaintValidation b = false ->
      post_complaint now oid user b files mail db
      = (mkResponse 400 JValidationErrors, db))
  /\ (forall urls e rest,
        u_isVerified user = true -> complaintValidation b = true ->
        files = (Resolves <$> urls) ++ Throws e :: rest ->
        post_complaint now oid user b files mail db = (server_error e, db))
  /\ (forall urls,
        u_isVerified user = true -> complaintValidation b = true ->
        files = Resolves <$> urls -> b_subCategory b = None ->
        status_code (post_complaint now oid user b files mail db).1 = 500%nat
        /\ (post_complaint now oid user b files mail db).2 = db).
Proof.
  unfold post_complaint. split_and!.
  - by intros ->.
  - by intros -> ->.
  - intros urls e rest -> -> ->. simpl. by rewrite upload_files_throws.
  - intros urls Hver Hvalid -> Hsub. rewrite Hver, Hvalid, Hsub. simpl.
    rewrite upload_files_resolves.
    destruct (b_category b) as [category|] eqn:Hcat.
    + rewrite complaint_save_invalid by (by rewrite validate_new_Complaint).
      done.
    + exfalso. unfold complaintValidation in Hvalid. rewrite Hcat in Hvalid.
      apply andb_true_iff in Hvalid as [_ H%bool_decide_eq_true_1]. by destruct H.
Qed.

(** ** The category controller *)

Lemma icon_pattern_startsWith (icon : string) :
  icon_pattern icon = true -> startsWith_data_image icon = true.
Proof.
  unfold icon_pattern, strip_prefix, startsWith_data_image.
  by destruct (String.prefix "data:image/" icon).
Qed.

(** In [createCategory] the icon check that follows [validateCategory] is
    never the one that refuses a request: a body that [validateCategory]
    accepts carries an icon that the Joi pattern accepts, and such an icon
    starts with "data:image/".  So whenever the error "Invalid image
    format. Must be a base64 encoded image" is handed to [next], it is the
    message of the Joi pattern, thrown two statements earlier. *)
Theorem createCategory_icon_check_is_dead
    (now : Date) (cid : ObjectId) (b : CategoryBody) (db : DB) :
  (validateCategory (cb_name b) (cb_icon b) (cb_description b) = None ->
     exists icon, cb_icon b = Some icon /\ startsWith_data_image icon = true)
  /\ ((createCategory now cid b db).1
        = Next (ApiError 400 "Invalid image format. Must be a base64 encoded image") ->
      validateCategory (cb_name b) (cb_icon b) (cb_description b)
      = Some "Invalid image format. Must be a base64 encoded image"%string).
Proof.
  assert (validateCategory (cb_name b) (cb_icon b) (cb_description b) = None ->
          exists icon, cb_icon b = Some icon /\ startsWith_data_image icon = true)
    as Hdead.
  { unfold validateCategory, first_error, joi_icon.
    destruct (joi_text 2 50 _ _ _ (cb_name b)); [done|].
    destruct (cb_icon b) as [icon|]; [|done].
    case_bool_decide; [done|].
    destruct (icon_pattern icon) eqn:Hpattern; [|done].
    intros _. exists icon. split; [done|]. by apply icon_pattern_startsWith. }
  split; [exact Hdead|].
  unfold createCategory.
  destruct (validateCategory (cb_name b) (cb_icon b) (cb_description b)) as [m|];
    [by intros [= ->]|].
  destruct (Hdead eq_refl) as (icon & -> & ->). simpl. unfold validated_save.
  repeat case_match; simplify_eq/=; done.
Qed.

Lemma counters_pre_save (now : Date) (k : Category) :
  counters (categorySchema_pre_save now k) = counters k.
Proof.
  unfold counters. simpl. do 2 f_equal.
  induction (cat_subCategories k) as [|s l IH]; csimpl; [done|]. by f_equal.
Qed.

(** A category that [createCategory] reports as created (201) is the one
    that [getCategoryById] returns afterwards; it carries the trimmed name
    and description, no subcategory, no user count and a total of 0. *)
Theorem createCategory_then_getCategoryById
    (now : Date) (cid : ObjectId) (b : CategoryBody) (db : DB) (k : Category) :
  (createCategory now cid b db).1 = Send (mkResponse 201 (JCategory k)) ->
  getCategoryById cid (createCategory now cid b db).2
    = Send (mkResponse 200 (JCategory k))
  /\ cat_name k = trim (cb_name b)
  /\ cat_description k = trim (cb_description b)
  /\ cb_icon b = Some (cat_icon k)
  /\ counters k = (0, [], []).
Proof.
  unfold createCategory, validated_save, getCategoryById.
  repeat case_match; intros; simplify_eq/=;
    match goal with
    | H : <[_ := _]> _ !! _ = _ |- _ => rewrite lookup_insert_eq in H
    end; by simplify_eq.
Qed.

(** A subcategory that [addSubCategory] reports as added (201) is appended
    after the stored ones with a counter of 0; the total of the category,
    the counters of the other subcategories and the user counts are as
    before. *)
Theorem addSubCategory_appends
    (now : Date) (id sid : ObjectId) (b : CategoryBody) (db : DB) (k' : Category) :
  (addSubCategory now id sid b db).1 = Send (mkResponse 201 (JCategory k')) ->
  exists k,
    categories db !! id = Some k
    /\ categories (addSubCategory now id sid b db).2 !! id = Some k'
    /\ counters k'
       = (cat_totalComplaints k,
          ((fun s => (sub_id s, sub_totalComplaints s)) <$> cat_subCategories k)
            ++ [(sid, 0)],
          cat_userCounts k)
    /\ sub_name <$> last (cat_subCategories k') = Some (trim (cb_name b)).
Proof.
  unfold addSubCategory, validated_save.
  repeat case_match; intros; simplify_eq/=.
  eexists. split; [done|]. rewrite lookup_insert_eq. split; [done|].
  rewrite counters_pre_save. unfold counters. simpl. rewrite fmap_app. split; [done|].
  rewrite List.map_app. simpl. by rewrite last_snoc.
Qed.

Lemma pairs_assign_subCategory sid name description icon (l : list SubCategory) :
  (fun s => (sub_id s, sub_totalComplaints s))
    <$> assign_subCategory sid name description icon l
  = (fun s => (sub_id s, sub_totalComplaints s)) <$> l.
Proof.
  induction l as [|a l IH]; csimpl; [done|].
  case_bool_decide; csimpl; [done|]. by f_equal.
Qed.

(** [updateCategory] and [updateSubCategory] change no counter of the
    category they name, whatever they reply. *)
Theorem updates_keep_counters
    (now : Date) (id sid : ObjectId) (b : CategoryBody) (db : DB) (k : Category) :
  categories db !! id = Some k ->
  counters <$> categories (updateCategory now id b db).2 !! id = Some (counters k)
  /\ counters <$> categories (updateSubCategory now id sid b db).2 !! id
     = Some (counters k).
Proof.
  intros Hk. split.
  - unfold updateCategory, validated_save. rewrite Hk.
    repeat case_match; simplify_eq/=; rewrite ?Hk; try done.
    rewrite lookup_insert_eq. simpl. by rewrite counters_pre_save.
  - unfold updateSubCategory, validated_save. rewrite Hk.
    repeat case_match; simplify_eq/=; rewrite ?Hk; try done.
    rewrite lookup_insert_eq. simpl. rewrite counters_pre_save.
    unfold counters. simpl. by rewrite pairs_assign_subCategory.
Qed.

Lemma pairs_pull (sid : ObjectId) (l : list SubCategory) :
  (fun s => (sub_id s, sub_totalComplaints s)) <$> subCategories_pull sid l
  = filter (fun p => p.1 <> sid) ((fun s => (sub_id s, sub_totalComplaints s)) <$> l).
Proof.
  unfold subCategories_pull. induction l as [|a l IH]; [done|].
  csimpl. rewrite !filter_cons. simpl. case_decide; csimpl; by f_equal.
Qed.

(** A [deleteSubCategory] that goes through removes the subcategories with
    the id it names and leaves everything else: the other subcategories in
    their order with their counters, the user counts, and the total of the
    category, which is not recomputed. *)
Theorem deleteSubCategory_removes_only_the_target
    (now : Date) (id sid : ObjectId) (db : DB) (k : Category) (s : SubCategory) :
  categories db !! id = Some k ->
  subCategories_id sid (cat_subCategories k) = Some s ->
  sub_totalComplaints s <= 0 ->
  (deleteSubCategory now id sid db).1 = Send (mkResponse 204 JEmpty)
  /\ counters <$> categories (deleteSubCategory now id sid db).2 !! id
     = Some (cat_totalComplaints k,
             filter (fun p => p.1 <> sid)
               ((fun s => (sub_id s, sub_totalComplaints s)) <$> cat_subCategories k),
             cat_userCounts k).
Proof.
  intros Hk Hs Hcount. unfold deleteSubCategory. rewrite Hk, Hs.
  rewrite (proj2 (Z.ltb_ge _ _) Hcount). simpl. split; [done|].
  rewrite lookup_insert_eq. simpl. rewrite counters_pre_save.
  unfold counters. simpl. by rewrite pairs_pull.
Qed.

(** ** The migration script *)

(** [migratePriorityValues] sets the [priorityValue] of every stored
    complaint to the value of its [priority] (so it repairs what an update
    left behind), changes no other path of any complaint, and writes no
    category. *)
Theorem migratePriorityValues_restores_lock_step (db : DB) :
  complaints (migratePriorityValues db)
    = (fun c => set_c_priorityValue (priority_value (c_priority c)) c) <$> complaints db
  /\ categories (migratePriorityValues db) = categories db.
Proof.
  unfold migratePriorityValues, updateMany_priorityValue. simpl. split; [|done].
  rewrite <- !map_fmap_compose. apply map_fmap_ext. intros i c _. simpl.
  destruct c as [? ? ? ? ? ? ? [] ? ? ? ? ? ? ? ? ? ?]; reflexivity.
Qed.
(** ** Statistics *)



(** ** Listing the categories (exports.getCategories) *)

Lemma populated_find_inr (users : gset nat) (uid : ObjectId) (l : list UserCount)
    (found : option UserCount) :
  populated_find users uid l = inr found -> found = first_count uid l.
Proof.
  unfold first_count. induction l as [|uc l IH]; simpl; [by intros [= <-]|].
  destruct (uc_user uc) as [x|] eqn:Hx; [|done].
  repeat case_bool_decide; intros; simplify_eq/=; auto.
Qed.

Lemma populated_find_present (users : gset nat) (uid : ObjectId) (l : list UserCount) :
  (forall uc, uc ∈ l -> exists u, uc_user uc = Some u /\ u ∈ users) ->
  populated_find users uid l = inr (first_count uid l).
Proof.
  unfold first_count. induction l as [|uc l IH]; intros Hl; simpl; [done|].
  destruct (Hl uc) as (x & Hx & Hin); [apply list_elem_of_here|].
  rewrite Hx. rewrite bool_decide_eq_true_2 by done.
  repeat case_bool_decide; simplify_eq; try done. apply IH. intros uc' Huc'.
  by apply Hl, list_elem_of_further.
Qed.

Lemma filter_frequent_elem (users : gset nat) (uid : ObjectId) (l : list Category)
    (frequent : list (Z * Category)) (n : Z) (cat : Category) :
  filter_frequent users uid l = inr frequent ->
  (n, cat) ∈ frequent <-> cat ∈ l /\ n = user_count uid cat /\ 0 < n.
Proof.
  revert frequent. induction l as [|a l IH]; intros frequent; simpl.
  - intros [= <-]. split; [by intros ?%elem_of_nil|by intros [?%elem_of_nil _]].
  - destruct (populated_find users uid (cat_userCounts a)) as [|found] eqn:Hfind; [done|].
    apply populated_find_inr in Hfind.
    destruct (filter_frequent users uid l) as [|rest]; [done|].
    specialize (IH rest eq_refl).
    assert (user_count uid a = from_option uc_count 0 found) as Ha
      by (unfold user_count; by rewrite Hfind).
    destruct found as [uc|]; simpl in Ha.
    + destruct (0 <? uc_count uc) eqn:Hpos; intros [= <-].
      * apply Z.ltb_lt in Hpos. rewrite !elem_of_cons, IH. split.
        -- intros [[= -> ->]|(? & ? & ?)]; [auto with lia|auto].
        -- intros ([->|?] & -> & ?); [left; by rewrite Ha|right; auto].
      * apply Z.ltb_ge in Hpos. rewrite elem_of_cons, IH. split.
        -- intros (? & ? & ?); auto.
        -- intros ([->|?] & -> & ?); [lia|auto].
    + intros [= <-]. rewrite elem_of_cons, IH. split.
      * intros (? & ? & ?); auto.
      * intros ([->|?] & -> & ?); [lia|auto].
Qed.

Lemma insert_by_count_perm (x : Z * Category) (l : list (Z * Category)) :
  insert_by_count x l ≡ₚ x :: l.
Proof.
  induction l as [|y l IH]; simpl; [done|].
  case_match; [|done]. rewrite IH. apply Permutation_swap.
Qed.

Lemma sort_by_count_perm (l : list (Z * Category)) : sort_by_count l ≡ₚ l.
Proof.
  unfold sort_by_count. induction l as [|x l IH]; simpl; [done|].
  by rewrite insert_by_count_perm, IH.
Qed.

Lemma insert_by_count_sorted (x : Z * Category) (l : list (Z * Category)) :
  StronglySorted by_decreasing_count l ->
  StronglySorted by_decreasing_count (insert_by_count x l).
Proof.
  induction 1 as [|y l Hl IH Hy]; simpl.
  - repeat constructor.
  - destruct (x.1 <? y.1) eqn:Hxy.
    + apply Z.ltb_lt in Hxy. constructor; [done|].
      rewrite insert_by_count_perm. constructor; [|done].
      unfold by_decreasing_count. lia.
    + apply Z.ltb_ge in Hxy. constructor; [by constructor|].
      constructor; [done|].
      eapply Forall_impl; [exact Hy|]. unfold by_decreasing_count. intros; lia.
Qed.

Lemma sort_by_count_sorted (l : list (Z * Category)) :
  StronglySorted by_decreasing_count (sort_by_count l).
Proof.
  unfold sort_by_count. induction l as [|x l IH]; simpl; [constructor|].
  by apply insert_by_count_sorted.
Qed.

Lemma strongly_sorted_lookup (l : list (Z * Category)) :
  StronglySorted by_decreasing_count l ->
  forall i j a c, (i < j)%nat -> l !! i = Some a -> l !! j = Some c ->
                  by_decreasing_count a c.
Proof.
  induction 1 as [|x l Hl IH Hx]; intros i j a c Hij Ha Hc; [done|].
  destruct j as [|j]; [lia|]. destruct i as [|i]; simplify_eq/=.
  - rewrite Forall_forall in Hx. by eapply Hx, list_elem_of_lookup_2.
  - eapply (IH i j); [lia|done..].
Qed.

(** The categories that [getCategories] reports as frequently used by the
    logged-in user are at most three stored categories in which the user has
    a positive count, in decreasing order of that count, and no stored
    category left out has a larger count than one reported. *)
Theorem getCategories_frequent
    (users : gset nat) (u : User) (db : DB) (categories frequent : list Category)
    (total : Z) :
  getCategories users (Some u) db = CategoriesJson categories frequent total ->
  (length frequent <= 3)%nat
  /\ (forall cat, cat ∈ frequent ->
        cat ∈ stored_categories db /\ 0 < user_count (u_id u) cat)
  /\ (forall i j a c, (i < j)%nat -> frequent !! i = Some a -> frequent !! j = Some c ->
        user_count (u_id u) c <= user_count (u_id u) a)
  /\ (forall cat f, cat ∈ stored_categories db -> cat ∉ frequent -> f ∈ frequent ->
        user_count (u_id u) cat <= user_count (u_id u) f).
Proof.
  unfold getCategories. fold (stored_categories db).
  destruct (filter_frequent users (u_id u) (stored_categories db)) as [|l] eqn:Hl; [done|].
  intros [= <- <- <-].
  pose proof (sort_by_count_sorted l) as Hsorted.
  pose proof (sort_by_count_perm l) as Hperm.
  assert (forall n cat, (n, cat) ∈ sort_by_count l <->
            cat ∈ stored_categories db /\ n = user_count (u_id u) cat /\ 0 < n) as Hin.
  { intros n cat. rewrite Hperm. by apply (filter_frequent_elem users). }
  set (sorted := sort_by_count l) in *.
  assert (take 3 sorted.*2 = (take 3 sorted).*2) as Htake by (by rewrite fmap_take).
  rewrite Htake.
  assert (forall p, p ∈ sorted -> p.1 = user_count (u_id u) p.2 /\ 0 < p.1) as Hcount.
  { intros [n cat] Hp. apply Hin in Hp. simpl. tauto. }
  assert (forall p, p ∈ take 3 sorted -> p ∈ sorted) as Hsub.
  { intros p Hp. rewrite <- (take_drop 3 sorted). apply elem_of_app. by left. }
  rewrite <- (take_drop 3 sorted) in Hsorted.
  split_and!.
  - rewrite length_fmap, length_take. lia.
  - intros cat Hcat. apply list_elem_of_fmap in Hcat as ([n cat'] & -> & Hp).
    apply Hsub, Hin in Hp. simpl. intuition congruence.
  - intros i j a c Hij Ha Hc.
    rewrite list_lookup_fmap in Ha, Hc.
    destruct (take 3 sorted !! i) as [pa|] eqn:Hpa; [|done].
    destruct (take 3 sorted !! j) as [pc|] eqn:Hpc; [|done].
    simplify_eq/=.
    apply StronglySorted_app_1_l in Hsorted.
    pose proof (strongly_sorted_lookup _ Hsorted i j pa pc Hij Hpa Hpc) as Hle.
    unfold by_decreasing_count in Hle.
    destruct (Hcount pa) as [<- _]; [by eapply Hsub, list_elem_of_lookup_2|].
    destruct (Hcount pc) as [<- _]; [by eapply Hsub, list_elem_of_lookup_2|].
    exact Hle.
  - intros cat f Hcat Hout Hf.
    apply list_elem_of_fmap in Hf as (pf & -> & Hpf).
    destruct (decide (0 < user_count (u_id u) cat)) as [Hpos|Hneg].
    + assert ((user_count (u_id u) cat, cat) ∈ sorted) as Hp by (apply Hin; auto).
      rewrite <- (take_drop 3 sorted) in Hp. apply elem_of_app in Hp as [Hp|Hp].
      * exfalso. apply Hout. apply list_elem_of_fmap.
        by exists (user_count (u_id u) cat, cat).
      * pose proof (StronglySorted_app_1_elem_of _ _ _ _ _ Hsorted Hpf Hp) as Hle.
        unfold by_decreasing_count in Hle. simpl in Hle.
        destruct (Hcount pf) as [<- _]; [by apply Hsub|exact Hle].
    + destruct (Hcount pf) as [<- ?]; [by apply Hsub|lia].
Qed.

Lemma filter_frequent_present (users : gset nat) (uid : ObjectId) (l : list Category) :
  (forall cat uc, cat ∈ l -> uc ∈ cat_userCounts cat ->
                  exists u, uc_user uc = Some u /\ u ∈ users) ->
  exists frequent, filter_frequent users uid l = inr frequent.
Proof.
  induction l as [|a l IH]; intros Hl; simpl; [by eexists|].
  rewrite populated_find_present
    by (intros uc Huc; eapply Hl; [apply list_elem_of_here|done]).
  destruct IH as [rest ->].
  { intros cat uc Hcat. apply Hl. by apply list_elem_of_further. }
  destruct (first_count uid (cat_userCounts a)) as [uc|]; [|by eexists].
  destruct (0 <? uc_count uc); by eexists.
Qed.

Lemma filter_frequent_error (users : gset nat) (uid : ObjectId) (l : list Category)
    (e : string) :
  filter_frequent users uid l = inl e ->
  e = "Cannot read properties of null (reading 'equals')"%string.
Proof.
  assert (forall ucs, populated_find users uid ucs = inl e ->
            e = "Cannot read properties of null (reading 'equals')"%string) as Hfind.
  { induction ucs as [|uc ucs IH]; simpl; [done|].
    destruct (uc_user uc); [|by intros [= <-]].
    repeat case_bool_decide; intros; simplify_eq/=; auto. }
  induction l as [|a l IH]; simpl; [done|].
  destruct (populated_find users uid (cat_userCounts a)) eqn:Ha.
  - intros [= <-]. eauto.
  - destruct (filter_frequent users uid l); [intros [= <-]; auto|].
    repeat case_match; done.
Qed.

Lemma filter_frequent_null (users : gset nat) (uid : ObjectId) (l : list Category)
    (cat : Category) (uc : UserCount) (rest : list UserCount) :
  cat ∈ l -> cat_userCounts cat = uc :: rest ->
  (forall u, uc_user uc = Some u -> u ∉ users) ->
  exists e, filter_frequent users uid l = inl e.
Proof.
  intros Hcat Hucs Hgone. induction l as [|a l IH]; [by apply elem_of_nil in Hcat|].
  simpl. apply elem_of_cons in Hcat as [<-|Hcat].
  - rewrite Hucs. simpl. destruct (uc_user uc) as [x|]; [|by eexists].
    rewrite bool_decide_eq_false_2 by auto. by eexists.
  - destruct (populated_find users uid (cat_userCounts a)); [by eexists|].
    destruct (IH Hcat) as [e ->]. by eexists.
Qed.

(** [getCategories] replies with the stored categories and their summed
    totals whenever every user count refers to a user that is still
    stored.  When the first user count of some stored category refers to a
    user that is gone (or to none), the populated entry is null and the
    listing fails, with a TypeError handed to [next], for every logged-in
    principal. *)
Theorem getCategories_needs_the_counted_users
    (users : gset nat) (user : option User) (db : DB) :
  (users_present users db ->
     exists frequent,
       getCategories users user db
       = CategoriesJson (stored_categories db) frequent
           (foldl (fun sum cat => sum + cat_totalComplaints cat) 0 (stored_categories db)))
  /\ (forall cat uc rest,
        is_Some user -> cat ∈ stored_categories db ->
        cat_userCounts cat = uc :: rest ->
        (forall u, uc_user uc = Some u -> u ∉ users) ->
        getCategories users user db
        = CategoriesNext "Cannot read properties of null (reading 'equals')").
Proof.
  unfold getCategories. fold (stored_categories db). split.
  - intros Hpresent. destruct user as [u|]; [|by eexists].
    destruct (filter_frequent_present users (u_id u) (stored_categories db) Hpresent)
      as [frequent ->]. by eexists.
  - intros cat uc rest [u ->] Hcat Hucs Hgone.
    destruct (filter_frequent_null users (u_id u) _ cat uc rest Hcat Hucs Hgone)
      as [e He].
    rewrite He. by rewrite (filter_frequent_error users (u_id u) _ e He).
Qed.

(** ** More invariants of the reachable databases *)

(** In every database that the requests build, the subcategories of a
    category have distinct ids and counters that are not negative. *)
Theorem reachable_subcategories_distinct_and_counted
    (isEmail : string -> bool) (normalizeEmail : string -> string) (db : DB) :
  reachable isEmail normalizeEmail db ->
  forall id k, categories db !! id = Some k ->
    NoDup (sub_id <$> cat_subCategories k)
    /\ Forall (fun s => 0 <= sub_totalComplaints s) (cat_subCategories k).
Proof.
  intros Hdb%reachable_db_ok id k Hk. destruct (Hdb id k Hk). by split.
Qed.

Lemma countDocuments_positive (q : Query) (db : DB) (id : ObjectId) (c : Complaint) :
  complaints db !! id = Some c -> matches q c = true -> 1 <= countDocuments q db.
Proof.
  intros Hc Hq. unfold countDocuments.
  assert (size (filter (fun kv : nat * Complaint => matches q kv.2 = true)
                  (complaints db)) <> 0%nat); [|lia].
  intros Hzero%map_size_empty_iff.
  assert (filter (fun kv : nat * Complaint => matches q kv.2 = true) (complaints db)
            !! id = Some c) as Hin by (by apply map_lookup_filter_Some).
  by rewrite Hzero in Hin.
Qed.

Lemma counts_assign_userCount (u : ObjectId) (n : Z) (l : list UserCount) :
  1 <= n ->
  Forall (fun uc => 1 <= uc_count uc) l ->
  Forall (fun uc => 1 <= uc_count uc) (assign_userCount u n l).
Proof.
  intros Hn. induction 1 as [|uc l Huc Hl IH]; simpl; [constructor|].
  case_bool_decide; constructor; simpl; auto.
Qed.

Lemma uc_ok_reconcile (this_user : UserRef) (c : Complaint) (k k' : Category) (db : DB) :
  (forall u, this_user = RefId u -> 1 <= complaints_of_user (c_category c) u db) ->
  uc_ok k -> reconcile this_user c k db = inr k' -> uc_ok k'.
Proof.
  intros Hcount Hk. unfold reconcile. cbv zeta. rewrite !userCounts_recount.
  destruct (userCounts_find this_user (cat_userCounts k)) as [e|[uc|]]; [done|..].
  - destruct this_user as [u| |]; intros [= <-]; unfold uc_ok;
      rewrite userCounts_calculate; simpl; rewrite ?userCounts_recount; [|done..].
    apply counts_assign_userCount; [|done]. by apply Hcount.
  - intros [= <-]. unfold uc_ok. rewrite userCounts_calculate. simpl.
    apply Forall_app. split; [done|]. by apply Forall_singleton.
Qed.

Lemma db_uc_ok_complaint_save (now : Date) (id : ObjectId) (this_user : UserRef)
    (c : Complaint) (db : DB) :
  ref_agrees this_user c ->
  db_uc_ok db -> db_uc_ok (complaint_save now id this_user c db).2.
Proof.
  intros Hagree Hdb. save_cases now id this_user c db; simpl; try done.
  match goal with H : complaintSchema_post_save _ _ _ _ = inr _ |- _ =>
    unfold complaintSchema_post_save in H; simpl in H;
    destruct (categories db !! c_category c) as [k|] eqn:Hk; [|by simplify_eq];
    destruct (reconcile _ _ _ _) as [e|k'] eqn:Hrec; simplify_eq end.
  unfold db_uc_ok. simpl. apply map_Forall_insert_2; [|done].
  unfold uc_ok. simpl. eapply uc_ok_reconcile; [|exact (Hdb _ _ Hk)|exact Hrec].
  intros u ->. simpl.
  apply (countDocuments_positive _ _ id (complaintSchema_pre_save now c)).
  - simpl. apply lookup_insert_eq.
  - unfold matches. simpl. rewrite (Hagree u eq_refl).
    by rewrite !bool_decide_eq_true_2.
Qed.

Lemma db_uc_ok_same_userCounts (id : ObjectId) (k k' : Category) (db : DB) :
  db_uc_ok db -> categories db !! id = Some k -> cat_userCounts k' = cat_userCounts k ->
  db_uc_ok (with_categories (<[id := k']> (categories db)) db).
Proof.
  intros Hdb Hk Heq. unfold db_uc_ok. simpl. apply map_Forall_insert_2; [|done].
  unfold uc_ok. rewrite Heq. exact (Hdb _ _ Hk).
Qed.

(** What the saving routes hand to [save()] agrees with the document. *)
Ltac agree :=
  intros ? ?; simplify_eq/=;
  try match goal with
  | H : findOne_owned _ _ _ = Some _ |- _ => apply findOne_owned_Some in H as [_ H]
  end;
  repeat match goal with
  | H : stored_ref ?x = RefId _ |- _ => destruct x; simplify_eq/=
  | H : populated_ref _ ?x = RefId _ |- _ =>
      destruct x; simpl in H; try case_bool_decide; simplify_eq/=
  end;
  try done; by repeat case_match.

Lemma db_uc_ok_handle isEmail normalizeEmail r db :
  db_uc_ok db -> db_uc_ok (handle isEmail normalizeEmail r db).
Proof.
  intros Hdb.
  destruct r; simpl; unfold adminAuth; try case_bool_decide; try done.
  - unfold post_complaint. repeat case_match; simplify_eq/=; try done; saved_db;
      (apply db_uc_ok_complaint_save; [agree|done]).
  - unfold put_complaint. repeat case_match; simplify_eq/=; done.
  - unfold delete_complaint. repeat case_match; simplify_eq/=; done.
  - unfold post_comment. repeat case_match; simplify_eq/=; try done; saved_db;
      (apply db_uc_ok_complaint_save; [agree|done]).
  - unfold share_email. repeat case_match; simplify_eq/=; try done; saved_db;
      (apply db_uc_ok_complaint_save; [agree|done]).
  - unfold share_social. repeat case_match; simplify_eq/=; try done; saved_db;
      (apply db_uc_ok_complaint_save; [agree|done]).
  - unfold patch_status. repeat case_match; simplify_eq/=; try done; saved_db;
      (apply db_uc_ok_complaint_save; [agree|done]).
  - unfold createCategory, validated_save. repeat case_match; simplify_eq/=; try done.
    unfold db_uc_ok. simpl. apply map_Forall_insert_2; [|done].
    unfold uc_ok. simpl. constructor.
  - unfold updateCategory, validated_save. repeat case_match; simplify_eq/=; try done.
    eapply db_uc_ok_same_userCounts; done.
  - unfold deleteCategory. repeat case_match; simplify_eq/=; try done.
    unfold db_uc_ok. simpl. by apply map_Forall_delete.
  - unfold addSubCategory, validated_save. repeat case_match; simplify_eq/=; try done.
    eapply db_uc_ok_same_userCounts; done.
  - unfold updateSubCategory, validated_save. repeat case_match; simplify_eq/=; try done.
    eapply db_uc_ok_same_userCounts; done.
  - unfold deleteSubCategory. repeat case_match; simplify_eq/=; try done.
    eapply db_uc_ok_same_userCounts; done.
  - unfold toggleFrequentStatus, Category_findById.
    destruct (categories db !! id) eqn:Hk; simpl; [|done].
    eapply db_uc_ok_same_userCounts; done.
Qed.

(** In every database that the requests build, every user count that a
    category holds is at least 1: an entry is created with 1, a recount
    counts the saved complaint itself, and no request lowers a user count or
    removes one. *)
Theorem reachable_user_counts_positive
    (isEmail : string -> bool) (normalizeEmail : string -> string) (db : DB) :
  reachable isEmail normalizeEmail db ->
  forall id k, categories db !! id = Some k ->
    Forall (fun uc => 1 <= uc_count uc) (cat_userCounts k).
Proof.
  intros Hreach. assert (db_uc_ok db) as Hdb.
  { induction Hreach; [apply map_Forall_empty|]. by apply db_uc_ok_handle. }
  intros id k Hk. exact (Hdb id k Hk).
Qed.

Lemma name_clash_false (id : ObjectId) (name : string) (db : DB) :
  name_clash id name db = false ->
  forall j kj, categories db !! j = Some kj -> cat_name kj = name -> j = id.
Proof.
  unfold name_clash. intros Hclash%bool_decide_eq_false j kj Hj Hname.
  destruct (decide (j = id)) as [|Hne]; [done|]. exfalso. apply Hclash.
  apply Exists_exists. exists (j, kj). split; [|done].
  by apply elem_of_map_to_list.
Qed.

Lemma name_exists_true (name : string) (db : DB) :
  name_exists name db = true <->
  exists j kj, categories db !! j = Some kj /\ cat_name kj = name.
Proof.
  unfold name_exists. rewrite bool_decide_eq_true, Exists_exists. split.
  - intros ([j kj] & Hin%elem_of_map_to_list & Hname). eauto.
  - intros (j & kj & Hj & Hname). exists (j, kj). split; [|done].
    by apply elem_of_map_to_list.
Qed.

Lemma names_distinct_insert (id : ObjectId) (k : Category) (db : DB) :
  names_distinct db ->
  (forall j kj, categories db !! j = Some kj -> cat_name kj = cat_name k -> j = id) ->
  names_distinct (with_categories (<[id := k]> (categories db)) db).
Proof.
  intros Hdb Hk i j ki kj. simpl.
  destruct (decide (i = id)) as [->|Hi], (decide (j = id)) as [->|Hj]; [done|..].
  - rewrite lookup_insert_eq, lookup_insert_ne by done.
    intros [= <-] Hkj Hname. symmetry. eapply Hk; done.
  - rewrite lookup_insert_eq, lookup_insert_ne by done.
    intros Hki [= <-] Hname. eapply Hk; done.
  - rewrite !lookup_insert_ne by done. apply Hdb.
Qed.

Lemma names_distinct_same_name (id : ObjectId) (k k' : Category) (db : DB) :
  names_distinct db -> categories db !! id = Some k -> cat_name k' = cat_name k ->
  names_distinct (with_categories (<[id := k']> (categories db)) db).
Proof.
  intros Hdb Hk Hname. apply names_distinct_insert; [done|].
  intros j kj Hj Hkj. rewrite Hname in Hkj. by eapply Hdb.
Qed.

Lemma name_reconcile (this_user : UserRef) (c : Complaint) (k k' : Category) (db : DB) :
  reconcile this_user c k db = inr k' -> cat_name k' = cat_name k.
Proof.
  unfold reconcile, recount_subCategory, calculateTotalComplaints. intros H.
  repeat case_match; simplify_eq/=; repeat case_match; done.
Qed.

Lemma names_distinct_complaint_save (now : Date) (id : ObjectId) (this_user : UserRef)
    (c : Complaint) (db : DB) :
  names_distinct db -> names_distinct (complaint_save now id this_user c db).2.
Proof.
  intros Hdb. save_cases now id this_user c db; simpl; try done.
  match goal with H : complaintSchema_post_save _ _ _ _ = inr _ |- _ =>
    unfold complaintSchema_post_save in H; simpl in H;
    destruct (categories db !! c_category c) as [k|] eqn:Hk; [|by simplify_eq];
    destruct (reconcile _ _ _ _) as [e|k'] eqn:Hrec; simplify_eq end.
  apply (names_distinct_same_name _ k); [done..|]. simpl.
  by eapply name_reconcile.
Qed.

Lemma names_distinct_validated_save now id icon k db saved db' :
  names_distinct db -> validated_save now id icon k db = inr (saved, db') ->
  names_distinct db'.
Proof.
  intros Hdb. unfold validated_save. repeat case_match; intros; simplify_eq/=.
  apply names_distinct_insert; [done|]. simpl.
  by apply name_clash_false.
Qed.

Lemma names_distinct_handle isEmail normalizeEmail r db :
  names_distinct db -> names_distinct (handle isEmail normalizeEmail r db).
Proof.
  intros Hdb.
  destruct r; simpl; unfold adminAuth; try case_bool_decide; try done.
  - unfold post_complaint. repeat case_match; simplify_eq/=; try done; saved_db;
      by apply names_distinct_complaint_save.
  - unfold put_complaint. repeat case_match; simplify_eq/=; done.
  - unfold delete_complaint. repeat case_match; simplify_eq/=; done.
  - unfold post_comment. repeat case_match; simplify_eq/=; try done; saved_db;
      by apply names_distinct_complaint_save.
  - unfold share_email. repeat case_match; simplify_eq/=; try done; saved_db;
      by apply names_distinct_complaint_save.
  - unfold share_social. repeat case_match; simplify_eq/=; try done; saved_db;
      by apply names_distinct_complaint_save.
  - unfold patch_status. repeat case_match; simplify_eq/=; try done; saved_db;
      by apply names_distinct_complaint_save.
  - unfold createCategory. repeat case_match; simplify_eq/=; try done.
    by eapply names_distinct_validated_save.
  - unfold updateCategory. repeat case_match; simplify_eq/=; try done.
    by eapply names_distinct_validated_save.
  - unfold deleteCategory. repeat case_match; simplify_eq/=; try done.
    intros i j ki kj. simpl. intros Hi%lookup_delete_Some Hj%lookup_delete_Some.
    destruct Hi, Hj. by eapply Hdb.
  - unfold addSubCategory. repeat case_match; simplify_eq/=; try done.
    by eapply names_distinct_validated_save.
  - unfold updateSubCategory. repeat case_match; simplify_eq/=; try done.
    by eapply names_distinct_validated_save.
  - unfold deleteSubCategory. repeat case_match; simplify_eq/=; try done.
    by eapply names_distinct_same_name.
  - unfold toggleFrequentStatus, Category_findById.
    destruct (categories db !! id) eqn:Hk; simpl; [|done].
    by eapply names_distinct_same_name.
Qed.

(** A body that [validateCategory] accepts carries an icon that starts
    with "data:image/". *)
Lemma validateCategory_icon (b : CategoryBody) :
  validateCategory (cb_name b) (cb_icon b) (cb_description b) = None ->
  exists icon, cb_icon b = Some icon /\ startsWith_data_image icon = true.
Proof.
  unfold validateCategory, first_error, joi_icon.
  destruct (joi_text 2 50 _ _ _ (cb_name b)); [done|].
  destruct (cb_icon b) as [icon|]; [|done].
  case_bool_decide; [done|].
  destruct (icon_pattern icon) eqn:Hpattern; [|done].
  intros _. exists icon. split; [done|]. by apply icon_pattern_startsWith.
Qed.

(** In every database that the requests build, no two categories carry
    the same name; and [createCategory] refuses, with "Category already
    exists" and without a write, a well-formed body whose name is the name
    of a stored category. *)
Theorem reachable_category_names_distinct
    (isEmail : string -> bool) (normalizeEmail : string -> string) (db : DB) :
  reachable isEmail normalizeEmail db ->
  names_distinct db
  /\ (forall now cid b k j,
        validateCategory (cb_name b) (cb_icon b) (cb_description b) = None ->
        categories db !! j = Some k -> cat_name k = cb_name b ->
        createCategory now cid b db
        = (Next (ApiError 400 "Category already exists"), db)).
Proof.
  intros Hreach. split.
  - induction Hreach; [intros i j ki kj Hi; simpl in Hi; by rewrite lookup_empty in Hi|].
    by apply names_distinct_handle.
  - intros now cid b k j Hvalid Hj Hname. unfold createCategory. rewrite Hvalid.
    destruct (validateCategory_icon b Hvalid) as (icon & -> & ->). simpl.
    by rewrite (proj2 (name_exists_true (cb_name b) db)) by eauto.
Qed.

(** ** A counted subcategory stays counted *)

Lemma counted_stamp (now : Date) (sid : ObjectId) (l : list SubCategory) :
  counted sid l -> counted sid (map (set_sub_updatedAt now) l).
Proof.
  intros (s & Hs & Hpos). exists (set_sub_updatedAt now s).
  by rewrite subCategories_id_stamp, Hs.
Qed.

Lemma subCategories_id_assign_ne (x sid : ObjectId) (n : Z) (l : list SubCategory) :
  x <> sid ->
  subCategories_id sid (assign_sub_totalComplaints x n l) = subCategories_id sid l.
Proof.
  intros Hne. unfold subCategories_id. induction l as [|a l IH]; simpl; [done|].
  case_bool_decide as Ha; simpl.
  - by rewrite !bool_decide_eq_false_2 by congruence.
  - case_bool_decide; [done|]. exact IH.
Qed.

Lemma counted_assign_total (x sid : ObjectId) (n : Z) (l : list SubCategory) :
  1 <= n -> counted sid l -> counted sid (assign_sub_totalComplaints x n l).
Proof.
  intros Hn (s & Hs & Hpos). destruct (decide (x = sid)) as [->|Hne].
  - exists (set_sub_totalComplaints n s).
    rewrite subCategories_id_assign, Hs. simpl. split; [done|lia].
  - exists s. by rewrite subCategories_id_assign_ne.
Qed.

Lemma counted_push (sid : ObjectId) (l : list SubCategory) (new : SubCategory) :
  counted sid l -> counted sid (l ++ [new]).
Proof.
  intros (s & Hs & Hpos). exists s. split; [|done].
  unfold subCategories_id in *. induction l as [|a l IH]; simpl in *; [done|].
  case_bool_decide; [done|]. by apply IH.
Qed.

Lemma count_found_assign_subCategory (sid' sid : ObjectId) name description icon
    (l : list SubCategory) :
  sub_totalComplaints <$> subCategories_id sid (assign_subCategory sid' name description icon l)
  = sub_totalComplaints <$> subCategories_id sid l.
Proof.
  unfold subCategories_id. induction l as [|a l IH]; simpl; [done|].
  case_bool_decide as Ha; simpl.
  - by case_bool_decide.
  - case_bool_decide; [done|]. exact IH.
Qed.

Lemma counted_assign_subCategory (sid' sid : ObjectId) name description icon
    (l : list SubCategory) :
  counted sid l -> counted sid (assign_subCategory sid' name description icon l).
Proof.
  intros (s & Hs & Hpos). unfold counted.
  pose proof (count_found_assign_subCategory sid' sid name description icon l) as Heq.
  rewrite Hs in Heq. simpl in Heq.
  destruct (subCategories_id sid (assign_subCategory sid' name description icon l))
    as [s'|]; [|done].
  simplify_eq/=. exists s'. split; [done|lia].
Qed.

Lemma counted_pull (sid' sid : ObjectId) (l : list SubCategory) :
  sid' <> sid -> counted sid l -> counted sid (subCategories_pull sid' l).
Proof.
  intros Hne (s & Hs & Hpos). exists s. split; [|done].
  unfold subCategories_id, subCategories_pull in *.
  induction l as [|a l IH]; simpl in *; [done|]. rewrite filter_cons.
  case_bool_decide as Ha.
  - simplify_eq. rewrite decide_True by congruence. simpl.
    by rewrite bool_decide_eq_true_2.
  - case_decide; simpl; [rewrite bool_decide_eq_false_2 by done|]; by apply IH.
Qed.

Lemma counted_total_positive (sid : ObjectId) (k : Category) :
  cat_ok k -> counted sid (cat_subCategories k) -> 0 < cat_totalComplaints k.
Proof.
  intros [_ Hcounts Htotal] (s & Hs & Hpos). rewrite Htotal. clear Htotal.
  apply subCategories_id_elem in Hs as [Hs _].
  induction Hcounts as [|a l Ha Hl IH]; [by apply elem_of_nil in Hs|].
  rewrite sum_totalComplaints_cons.
  assert (0 <= sum_totalComplaints l) as Hsum.
  { clear -Hl. induction Hl as [|b l Hb Hl IH]; [done|].
    rewrite sum_totalComplaints_cons. lia. }
  apply elem_of_cons in Hs as [<-|Hs]; [lia|]. specialize (IH Hs). lia.
Qed.

Lemma sub_counted_iff (cid sid : ObjectId) (db : DB) :
  sub_counted cid sid db <->
  exists k, categories db !! cid = Some k /\ counted sid (cat_subCategories k).
Proof.
  unfold sub_counted, stored_sub_count, counted. split.
  - intros (n & Hn & Hpos). destruct (categories db !! cid) as [k|]; [|done].
    simpl in Hn. exists k. split; [done|].
    destruct (subCategories_id sid (cat_subCategories k)) as [s|]; [|done].
    simplify_eq/=. eauto.
  - intros (k & -> & s & Hs & Hpos). simpl. rewrite Hs. simpl. eauto.
Qed.

Lemma sub_counted_write (id cid sid : ObjectId) (k k' : Category) (db : DB) :
  categories db !! id = Some k ->
  (counted sid (cat_subCategories k) -> counted sid (cat_subCategories k')) ->
  sub_counted cid sid db ->
  sub_counted cid sid (with_categories (<[id := k']> (categories db)) db).
Proof.
  intros Hk Hkeep (k0 & Hk0 & Hcounted)%sub_counted_iff. apply sub_counted_iff. simpl.
  destruct (decide (id = cid)) as [->|Hne].
  - rewrite lookup_insert_eq. simplify_eq. eauto.
  - rewrite lookup_insert_ne by done. eauto.
Qed.

Lemma subCategories_reconcile_cases (this_user : UserRef) (c : Complaint)
    (k k' : Category) (db : DB) :
  reconcile this_user c k db = inr k' ->
  cat_subCategories k' = cat_subCategories (recount_subCategory c k db).
Proof.
  unfold reconcile. cbv zeta. intros H.
  repeat case_match; simplify_eq/=; by rewrite subCategories_calculate.
Qed.

Lemma sub_counted_complaint_save
    (now : Date) (id : ObjectId) (this_user : UserRef) (c : Complaint) (db : DB)
    (cid sid : ObjectId) :
  sub_counted cid sid db ->
  sub_counted cid sid (complaint_save now id this_user c db).2.
Proof.
  intros Hcounted. save_cases now id this_user c db; simpl; try done.
  match goal with H : complaintSchema_post_save _ _ _ _ = inr _ |- _ =>
    unfold complaintSchema_post_save in H; simpl in H;
    destruct (categories db !! c_category c) as [k|] eqn:Hk; [|by simplify_eq];
    destruct (reconcile _ _ _ _) as [e|k'] eqn:Hrec; simplify_eq end.
  apply (sub_counted_write _ _ _ k); [done| |done]. simpl.
  intros Hsid. apply counted_stamp.
  rewrite (subCategories_reconcile_cases _ _ _ _ _ Hrec).
  unfold recount_subCategory. simpl.
  destruct (c_subCategory c) as [sc|] eqn:Hsc; [|done].
  destruct (subCategories_id _ _); [|done]. simpl.
  apply counted_assign_total; [|done].
  apply (countDocuments_positive _ _ id (complaintSchema_pre_save now c)).
  - simpl. apply lookup_insert_eq.
  - unfold matches. simpl. rewrite Hsc. by rewrite !bool_decide_eq_true_2.
Qed.

Lemma sub_counted_validated_save now id icon k0 k db saved db' cid sid :
  categories db !! id = Some k0 ->
  (counted sid (cat_subCategories k0) -> counted sid (cat_subCategories k)) ->
  validated_save now id icon k db = inr (saved, db') ->
  sub_counted cid sid db -> sub_counted cid sid db'.
Proof.
  intros Hk0 Hkeep. unfold validated_save. repeat case_match; intros; simplify_eq/=.
  apply (sub_counted_write _ _ _ k0); [done| |done]. simpl.
  intros ?. by apply counted_stamp, Hkeep.
Qed.

Lemma sub_counted_handle isEmail normalizeEmail r db cid sid :
  db_ok db -> fresh_ids r db = true ->
  sub_counted cid sid db -> sub_counted cid sid (handle isEmail normalizeEmail r db).
Proof.
  intros Hdb Hfresh Hcounted.
  destruct r; simpl in *; unfold adminAuth; try case_bool_decide; try done.
  - unfold post_complaint. repeat case_match; simplify_eq/=; try done; saved_db;
      by apply sub_counted_complaint_save.
  - unfold put_complaint. repeat case_match; simplify_eq/=; done.
  - unfold delete_complaint. repeat case_match; simplify_eq/=; done.
  - unfold post_comment. repeat case_match; simplify_eq/=; try done; saved_db;
      by apply sub_counted_complaint_save.
  - unfold share_email. repeat case_match; simplify_eq/=; try done; saved_db;
      by apply sub_counted_complaint_save.
  - unfold share_social. repeat case_match; simplify_eq/=; try done; saved_db;
      by apply sub_counted_complaint_save.
  - unfold patch_status. repeat case_match; simplify_eq/=; try done; saved_db;
      by apply sub_counted_complaint_save.
  - unfold createCategory, validated_save. repeat case_match; simplify_eq/=; try done.
    apply sub_counted_iff in Hcounted as (k & Hk & Hsid). apply sub_counted_iff. simpl.
    rewrite lookup_insert_ne by congruence. eauto.
  - unfold updateCategory. repeat case_match; simplify_eq/=; try done.
    eapply sub_counted_validated_save; [done| |done..]. done.
  - unfold deleteCategory. repeat case_match; simplify_eq/=; try done.
    apply sub_counted_iff in Hcounted as (k & Hk & Hsid). apply sub_counted_iff. simpl.
    destruct (decide (id = cid)) as [->|Hne].
    + simplify_eq. pose proof (counted_total_positive sid k (Hdb _ _ Hk) Hsid).
      match goal with H : (0 <? _) = false |- _ => apply Z.ltb_ge in H end. lia.
    + rewrite lookup_delete_ne by done. eauto.
  - unfold addSubCategory. repeat case_match; simplify_eq/=; try done.
    eapply sub_counted_validated_save; [done| |done..]. simpl. apply counted_push.
  - unfold updateSubCategory. repeat case_match; simplify_eq/=; try done.
    eapply sub_counted_validated_save; [done| |done..]. simpl.
    apply counted_assign_subCategory.
  - unfold deleteSubCategory. repeat case_match; simplify_eq/=; try done.
    eapply sub_counted_write; [done| |done]. simpl. intros Hsid.
    apply counted_stamp, counted_pull; [|done].
    intros ->. destruct Hsid as (s' & Hs' & Hpos). simplify_eq.
    match goal with H : (0 <? _) = false |- _ => apply Z.ltb_ge in H end. lia.
  - unfold toggleFrequentStatus, Category_findById.
    destruct (categories db !! id) eqn:Hk; simpl; [|done].
    eapply sub_counted_write; [done| |done]. simpl. apply counted_stamp.
Qed.

(** Once the counter of a subcategory is positive it stays positive, and
    the subcategory and its category stay stored, whatever requests follow:
    a save recounts the saved complaint itself, no other write lowers a
    counter, and both delete controllers refuse.  (Deleting the complaints
    does not help, since a deletion recounts nothing.) *)
Theorem counted_subcategory_stays_counted
    (isEmail : string -> bool) (normalizeEmail : string -> string)
    (db : DB) (rs : list Request) (cid sid : ObjectId) :
  reachable isEmail normalizeEmail db ->
  fresh_along isEmail normalizeEmail rs db = true ->
  sub_counted cid sid db ->
  sub_counted cid sid (run isEmail normalizeEmail rs db).
Proof.
  revert db. induction rs as [|r rs IH]; intros db Hreach Hfresh Hcounted; [done|].
  simpl in *. apply andb_true_iff in Hfresh as [Hr Hrs].
  apply IH; [by constructor|done|].
  apply sub_counted_handle; [by eapply reachable_db_ok|done..].
Qed.

(** ** What a save does to the counters *)

(** After a completed save of a complaint whose category holds its
    subcategory, the subcategory counter is the number of stored complaints
    of the (category, subCategory) pair, whatever it was before (stale
    after deletions or updates).  The user count depends on how the route
    loaded the complaint.  When [this.user] is the stored ObjectId (the
    creation, the social share, the status update) and the category holds
    an entry for the user, the entry is recounted: it is the number of
    stored complaints of the user in the category.  When [this.user] is a
    populated document (the comment, the e-mail share), no entry is ever
    found, none is recounted, and one more entry with the count 1 is
    appended, also when the category already holds one for the user. *)
Theorem save_makes_both_counters_exact
    (now : Date) (id : ObjectId) (this_user : UserRef) (c saved : Complaint) (db : DB)
    (k : Category) (sc : ObjectId) (s : SubCategory) :
  categories db !! c_category c = Some k ->
  c_subCategory c = Some sc ->
  subCategories_id sc (cat_subCategories k) = Some s ->
  (complaint_save now id this_user c db).1 = Saved saved ->
  stored_sub_count (c_category c) sc (complaint_save now id this_user c db).2
    = Some (complaints_of_pair (c_category c) sc (complaint_save now id this_user c db).2)
  /\ (forall u uc,
        this_user = RefId u ->
        userCounts_find (RefId u) (cat_userCounts k) = inr (Some uc) ->
        stored_user_count (c_category c) u (complaint_save now id this_user c db).2
        = Some (complaints_of_user (c_category c) u
                  (complaint_save now id this_user c db).2))
  /\ (forall u,
        this_user = RefDocument u ->
        cat_userCounts <$>
          categories (complaint_save now id this_user c db).2 !! c_category c
        = Some (cat_userCounts k ++ [mkUserCount (Some u) 1])).
Proof.
  intros Hk Hsc Hs Hsaved. split; [by eapply save_recounts_subcategory|].
  destruct (complaint_save_category now id this_user c db k saved Hk Hsaved)
    as (k' & Hrec & Hcats).
  assert (complaintSchema_validate c = []) as Hvalid.
  { revert Hsaved. by save_cases now id this_user c db. }
  split.
  - intros u uc -> Huc.
    unfold stored_user_count, complaints_of_user, countDocuments.
    rewrite Hcats, complaints_complaint_save by done.
    rewrite lookup_insert_eq. simpl.
    exact (reconcile_existing_user_count u _ k k' _ uc Huc Hrec).
  - intros u ->. rewrite Hcats, lookup_insert_eq. simpl. f_equal.
    assert (exists found, userCounts_find (RefDocument u) (cat_userCounts k) = inr found)
      as [found Hfound].
    { revert Hrec. unfold reconcile. cbv zeta. rewrite userCounts_recount.
      destruct (userCounts_find _ _); [done|by eexists]. }
    pose proof (userCounts_find_populated (RefDocument u) _ _ ltac:(done) Hfound) as ->.
    exact (reconcile_first_user_count _ _ k k' _ Hfound Hrec).
Qed.

Lemma assign_sub_totalComplaints_twice (x : ObjectId) (n : Z) (l : list SubCategory) :
  assign_sub_totalComplaints x n (assign_sub_totalComplaints x n l)
  = assign_sub_totalComplaints x n l.
Proof.
  induction l as [|a l IH]; simpl; [done|].
  case_bool_decide as Ha; simpl.
  - by rewrite bool_decide_eq_true_2.
  - rewrite bool_decide_eq_false_2 by done. by f_equal.
Qed.

Lemma assign_userCount_twice (u : ObjectId) (n : Z) (l : list UserCount) :
  assign_userCount u n (assign_userCount u n l) = assign_userCount u n l.
Proof.
  induction l as [|a l IH]; simpl; [done|].
  case_bool_decide as Ha; simpl.
  - by rewrite bool_decide_eq_true_2.
  - rewrite bool_decide_eq_false_2 by done. by f_equal.
Qed.

Lemma assign_sub_totalComplaints_stamp (now : Date) (x : ObjectId) (n : Z)
    (l : list SubCategory) :
  assign_sub_totalComplaints x n (map (set_sub_updatedAt now) l)
  = map (set_sub_updatedAt now) (assign_sub_totalComplaints x n l).
Proof.
  induction l as [|a l IH]; simpl; [done|].
  case_bool_decide; simpl; [done|]. by f_equal.
Qed.

Lemma stamp_twice (now : Date) (l : list SubCategory) :
  map (set_sub_updatedAt now) (map (set_sub_updatedAt now) l)
  = map (set_sub_updatedAt now) l.
Proof. induction l as [|a l IH]; simpl; [done|]. by f_equal. Qed.

Lemma pre_save_twice (now : Date) (k : Category) :
  categorySchema_pre_save now (categorySchema_pre_save now k)
  = categorySchema_pre_save now k.
Proof. unfold categorySchema_pre_save. simpl. by rewrite stamp_twice. Qed.

Lemma userCounts_find_assign (u : ObjectId) (n : Z) (l : list UserCount)
    (uc : UserCount) :
  userCounts_find (RefId u) l = inr (Some uc) ->
  exists uc', userCounts_find (RefId u) (assign_userCount u n l) = inr (Some uc').
Proof.
  induction l as [|a l IH]; simpl; [done|].
  destruct (uc_user a) as [x|] eqn:Hx; [|done]. simpl.
  case_bool_decide as Hxu.
  - intros _. rewrite bool_decide_eq_true_2 by congruence. simpl.
    rewrite ?Hx. simpl. rewrite bool_decide_eq_true_2 by done. by eexists.
  - intros Hl. rewrite bool_decide_eq_false_2 by congruence. simpl.
    rewrite ?Hx. simpl. rewrite bool_decide_eq_false_2 by done. auto.
Qed.

Lemma countDocuments_same (q : Query) (db db' : DB) :
  complaints db' = complaints db -> countDocuments q db' = countDocuments q db.
Proof. unfold countDocuments. by intros ->. Qed.

Lemma set_cat_subCategories_same (k : Category) :
  set_cat_subCategories (cat_subCategories k) k = k.
Proof. by destruct k. Qed.

Lemma set_cat_userCounts_same (k : Category) :
  set_cat_userCounts (cat_userCounts k) k = k.
Proof. by destruct k. Qed.

(** The total that [calculateTotalComplaints] leaves is the one it finds
    after the stamping of the pre-save hook. *)
Lemma calculate_stamped (now : Date) (k : Category) :
  calculateTotalComplaints (categorySchema_pre_save now (calculateTotalComplaints k))
  = categorySchema_pre_save now (calculateTotalComplaints k).
Proof.
  unfold calculateTotalComplaints at 2.
  destruct (cat_subCategories k) as [|a l] eqn:E.
  - unfold calculateTotalComplaints. simpl. by rewrite E.
  - unfold calculateTotalComplaints. simpl. rewrite E. simpl.
    change (set_sub_updatedAt now a :: map (set_sub_updatedAt now) l)
      with (map (set_sub_updatedAt now) (a :: l)).
    by rewrite sum_totalComplaints_stamp.
Qed.

(** The counter of the subcategory, assigned a second time on the saved
    category, is the one that the first assignment left. *)
Lemma recount_stamped (now : Date) (c : Complaint) (k k1 : Category) (db db1 : DB) :
  complaints db1 = complaints db ->
  cat_subCategories k1
  = map (set_sub_updatedAt now) (cat_subCategories (recount_subCategory c k db)) ->
  recount_subCategory c k1 db1 = k1.
Proof.
  intros Hsame Hsubs. unfold recount_subCategory in *.
  destruct (c_subCategory c) as [sc|]; [|done].
  rewrite (countDocuments_same _ db db1 Hsame). rewrite Hsubs.
  destruct (subCategories_id sc (cat_subCategories k)) as [s|] eqn:Hs; simpl.
  - rewrite subCategories_id_stamp, subCategories_id_assign, Hs. simpl.
    rewrite assign_sub_totalComplaints_stamp, assign_sub_totalComplaints_twice.
    simpl in Hsubs. rewrite <- Hsubs. apply set_cat_subCategories_same.
  - by rewrite subCategories_id_stamp, Hs.
Qed.

Lemma reconcile_twice (now : Date) (u : ObjectId) (c : Complaint) (k k' : Category)
    (db db1 : DB) (uc : UserCount) :
  userCounts_find (RefId u) (cat_userCounts k) = inr (Some uc) ->
  reconcile (RefId u) c k db = inr k' ->
  complaints db1 = complaints db ->
  reconcile (RefId u) c (categorySchema_pre_save now k') db1
  = inr (categorySchema_pre_save now k').
Proof.
  intros Hfind Hrec Hsame.
  unfold reconcile in Hrec. cbv zeta in Hrec.
  rewrite !userCounts_recount, Hfind in Hrec. injection Hrec as <-.
  set (K := set_cat_userCounts _ (recount_subCategory c k db)).
  unfold reconcile. cbv zeta.
  rewrite (recount_stamped now c k _ db db1 Hsame)
    by (simpl; by rewrite subCategories_calculate).
  assert (cat_userCounts (categorySchema_pre_save now (calculateTotalComplaints K))
          = assign_userCount u
              (countDocuments (mkQuery (Some (c_category c)) None (Some u)) db)
              (cat_userCounts k)) as Hucs
    by (simpl; by rewrite userCounts_calculate).
  rewrite Hucs.
  destruct (userCounts_find_assign u
              (countDocuments (mkQuery (Some (c_category c)) None (Some u)) db)
              (cat_userCounts k) uc Hfind) as [uc' ->].
  rewrite (countDocuments_same _ db db1 Hsame), assign_userCount_twice, <- Hucs.
  by rewrite set_cat_userCounts_same, calculate_stamped.
Qed.

(** The reconciliation of the post-save hook is idempotent when
    [this.user] is the stored ObjectId and the category of the complaint
    already holds a user count for it (or is not stored): run a second time
    at the same clock reading, it leaves the database that the first run
    left. *)
Theorem post_save_twice (now : Date) (u : ObjectId) (c : Complaint) (db db1 : DB) :
  (forall k, categories db !! c_category c = Some k ->
             exists uc, userCounts_find (RefId u) (cat_userCounts k) = inr (Some uc)) ->
  complaintSchema_post_save now (RefId u) c db = inr db1 ->
  complaintSchema_post_save now (RefId u) c db1 = inr db1.
Proof.
  intros Huc. unfold complaintSchema_post_save at 1.
  destruct (categories db !! c_category c) as [k|] eqn:Hk.
  - destruct (Huc k eq_refl) as [uc Hfind].
    destruct (reconcile (RefId u) c k db) as [e|k'] eqn:Hrec; [done|].
    intros [= <-]. unfold complaintSchema_post_save. simpl.
    rewrite lookup_insert_eq.
    rewrite (reconcile_twice now u c k k' db _ uc Hfind Hrec) by done.
    unfold category_save, with_categories. simpl.
    by rewrite pre_save_twice, insert_insert_eq.
  - intros [= <-]. unfold complaintSchema_post_save. by rewrite Hk.
Qed.


(** ** The further properties at concrete inputs *)

Lemma reachable_db_one_complaint : reachable contains_at keep_address db_one_complaint.
Proof.
  change db_one_complaint with
    (run contains_at keep_address
       (taxonomy_requests ++ [POST_complaint 20 300 alice refund_body [] (Resolves ())])
       empty_db).
  apply reachable_run; [apply reachable_empty|]. vm_compute. reflexivity.
Qed.

(** The admin, who does not own complaint 300, can neither delete nor
    update it. *)
Lemma not_owner_writes_nothing_witness :
  exists c,
    findById 300 db_one_complaint = Some c
    /\ c_user c <> Some (u_id admin)
    /\ delete_complaint 300 admin db_one_complaint = (not_found, db_one_complaint)
    /\ put_complaint 300 admin (body_status "resolved") (Resolves ()) db_one_complaint
       = (not_found, db_one_complaint).
Proof.
  eexists.
  pose proof (not_owner_writes_nothing 40 300 admin (body_status "resolved") (Resolves ())
                "A remark" "twitter" db_one_complaint _
                ltac:(vm_compute; reflexivity) ltac:(vm_compute; congruence))
    as (Hput & Hdelete & _).
  split; [vm_compute; reflexivity|]. split; [vm_compute; congruence|].
  split; [exact Hdelete|exact Hput].
Defined.

(** Complaint 300 is shown to the admin and hidden from Bob. *)
Lemma get_complaint_visibility_witness :
  exists c,
    findById 300 db_one_complaint = Some c
    /\ get_complaint 300 admin db_one_complaint = mkResponse 200 (JComplaint c)
    /\ get_complaint 300 bob db_one_complaint = not_found.
Proof.
  eexists. split; [vm_compute; reflexivity|]. split.
  - apply (proj1 (get_complaint_visibility 300 admin db_one_complaint _
                    ltac:(vm_compute; reflexivity))).
    left. reflexivity.
  - apply (proj2 (get_complaint_visibility 300 bob db_one_complaint _
                    ltac:(vm_compute; reflexivity))).
    + vm_compute. congruence.
    + vm_compute. congruence.
Defined.

(** Alice, who is not an admin, is refused on complaint 300 with 403, and
    on the missing complaint 999 with 404. *)
Lemma patch_status_refusals_witness :
  patch_status 40 999 alice (mkStatusBody Resolved None) (Resolves ()) db_one_complaint
    = (not_found, db_one_complaint)
  /\ patch_status 40 300 alice (mkStatusBody Resolved None) (Resolves ()) db_one_complaint
     = (mkResponse 403 (JMessage "Not authorized to update complaint status"),
        db_one_complaint).
Proof.
  split.
  - apply (proj1 (proj2 (patch_status_refusals 40 999 alice (mkStatusBody Resolved None)
                           (Resolves ()) db_one_complaint)));
      [reflexivity | vm_compute; reflexivity].
  - apply (proj2 (proj2 (patch_status_refusals 40 300 alice (mkStatusBody Resolved None)
                           (Resolves ()) db_one_complaint)));
      [reflexivity | vm_compute; eexists; reflexivity | vm_compute; congruence].
Defined.

(** Alice cannot delete the category Delivery. *)
Lemma category_routes_need_admin_witness :
  category_request (DELETE_category 101 alice) = Some alice
  /\ u_role alice <> RoleAdmin
  /\ handle contains_at keep_address (DELETE_category 101 alice) db_one_complaint
     = db_one_complaint.
Proof.
  split; [reflexivity|]. split; [vm_compute; congruence|].
  apply (category_routes_need_admin contains_at keep_address (DELETE_category 101 alice)
           alice db_one_complaint); [reflexivity | vm_compute; congruence].
Defined.

(** A comment on complaint 300 leaves the stored complaint 301 alone. *)
Lemma other_complaints_untouched_witness :
  addressed_complaint (POST_comment 40 300 alice "Any news?") <> Some 301%nat
  /\ complaints
       (handle contains_at keep_address (POST_comment 40 300 alice "Any news?")
          db_recategorized) !! 301%nat
     = complaints db_recategorized !! 301%nat.
Proof.
  split; [vm_compute; congruence|].
  apply (other_complaints_untouched contains_at keep_address
           (POST_comment 40 300 alice "Any news?") db_recategorized 301).
  vm_compute. congruence.
Defined.

(** A comment on complaint 300, of category Billing, leaves the category
    Delivery alone. *)
Lemma other_categories_untouched_witness :
  addressed_category (POST_comment 40 300 alice "Any news?") db_one_complaint
    <> Some 101%nat
  /\ categories
       (handle contains_at keep_address (POST_comment 40 300 alice "Any news?")
          db_one_complaint) !! 101%nat
     = categories db_one_complaint !! 101%nat.
Proof.
  split; [vm_compute; congruence|].
  apply (other_categories_untouched contains_at keep_address
           (POST_comment 40 300 alice "Any news?") db_one_complaint 101).
  vm_compute. congruence.
Defined.

(** Alice comments on her complaint 300, which passes the validation of
    the schema, in a category whose user counts all carry a user. *)
Lemma post_comment_appends_witness :
  exists c,
    findOne_owned 300 (u_id alice) db_one_complaint = Some c
    /\ notEmpty (trim "  Any news?  ") = true
    /\ complaintSchema_validate c = []
    /\ hook_runs (c_category c) db_one_complaint = true
    /\ (post_comment 40 300 alice "  Any news?  " db_one_complaint).1
       = mkResponse 200 (JComment (mkComment "Any news?" 7 40))
    /\ c_comments <$>
         findById 300 (post_comment 40 300 alice "  Any news?  " db_one_complaint).2
       = Some [mkComment "Any news?" 7 40].
Proof.
  eexists.
  destruct (proj1 (post_comment_appends 40 300 alice "  Any news?  " db_one_complaint _
                     ltac:(vm_compute; reflexivity) ltac:(vm_compute; reflexivity))
              ltac:(reflexivity))
    as [Hstored Hreply].
  split; [vm_compute; reflexivity|]. split; [vm_compute; reflexivity|].
  split; [reflexivity|]. split; [vm_compute; reflexivity|].
  split; [apply Hreply; vm_compute; reflexivity|exact Hstored].
Defined.

(** The admin moves the resolved complaint 300 back to pending without a
    resolution: the stored resolution stays. *)
Lemma patch_status_resolution_witness :
  exists c,
    findById 300 db_resolved = Some c
    /\ u_role admin = RoleAdmin
    /\ optional_notEmpty (sb_resolution (mkStatusBody Pending None)) = true
    /\ complaintSchema_validate (with_status 40 admin (mkStatusBody Pending None) c) = []
    /\ c_resolution <$>
         findById 300
           (patch_status 40 300 admin (mkStatusBody Pending None) (Resolves ())
              db_resolved).2
       = Some (mkResolution (Some "Refunded"%string) (Some 30%nat) (Some 1%nat)).
Proof.
  eexists.
  pose proof (patch_status_resolution 40 300 admin (mkStatusBody Pending None)
                (Resolves ()) db_resolved _
                ltac:(vm_compute; reflexivity) ltac:(reflexivity) ltac:(reflexivity)
                ltac:(reflexivity))
    as Hresolution.
  split; [vm_compute; reflexivity|]. split; [reflexivity|]. split; [reflexivity|].
  split; [reflexivity|]. exact Hresolution.
Defined.



(** What the condition on the post-save hook rules out at a creation.  The
    category Billing holds a user count without a user; Bob files a
    complaint under (Billing, Refund) and the notification would be
    delivered: the complaint is stored, the find of the hook throws on that
    count, and the reply is 500. *)
Lemma create_replies_500_on_a_user_count_without_user :
  let r := post_complaint 60 302 bob refund_body [] (Resolves ()) db_owner_gone in
  hook_runs 100 db_owner_gone = false
  /\ r.1 = server_error "Cannot read properties of null (reading 'equals')"
  /\ c_user <$> findById 302 r.2 = Some (Some 8%nat)
  /\ stored_sub_count 100 200 r.2 = Some 1
  /\ complaints_of_pair 100 200 r.2 = 2.
Proof. vm_compute. split_and!; done. Qed.

(** The second upload of Alice's request fails. *)
Lemma post_complaint_refusals_witness :
  post_complaint 40 302 alice refund_body
    [Resolves "https://files/a.png"; Throws "Upload timed out"; Resolves "https://files/c.png"]
    (Resolves ()) db_one_complaint
  = (server_error "Upload timed out", db_one_complaint).
Proof.
  apply (proj1 (proj2 (proj2 (post_complaint_refusals 40 302 alice refund_body
                                [Resolves "https://files/a.png"; Throws "Upload timed out";
                                 Resolves "https://files/c.png"]
                                (Resolves ()) db_one_complaint)))
           ["https://files/a.png"%string] "Upload timed out"
           [Resolves "https://files/c.png"%string]);
    [reflexivity | vm_compute; reflexivity | reflexivity].
Defined.

(** A body that the schema of the validator accepts carries an icon that
    starts with [data:image/]; a body whose icon is a file name is refused
    with the message of the pattern of the schema. *)
Lemma createCategory_icon_check_is_dead_witness :
  (exists icon,
     cb_icon (mkCategoryBody " Payments " "Cards and transfers" (Some png_icon))
     = Some icon
     /\ startsWith_data_image icon = true)
  /\ (createCategory 40 102
        (mkCategoryBody "Payments" "Cards and transfers" (Some "payments.png"%string))
        db_one_complaint).1
     = Next (ApiError 400 "Invalid image format. Must be a base64 encoded image")
  /\ validateCategory "Payments" (Some "payments.png"%string) "Cards and transfers"
     = Some "Invalid image format. Must be a base64 encoded image"%string.
Proof.
  split.
  - apply (proj1 (createCategory_icon_check_is_dead 40 102
                    (mkCategoryBody " Payments " "Cards and transfers" (Some png_icon))
                    db_one_complaint)).
    vm_compute. reflexivity.
  - split; [vm_compute; reflexivity|].
    apply (proj2 (createCategory_icon_check_is_dead 40 102
                    (mkCategoryBody "Payments" "Cards and transfers"
                       (Some "payments.png"%string))
                    db_one_complaint)).
    vm_compute. reflexivity.
Defined.

(** The admin creates the category Payments. *)
Lemma createCategory_then_getCategoryById_witness :
  exists k,
    (createCategory 40 102 (mkCategoryBody " Payments " "Cards and transfers" (Some png_icon))
       db_one_complaint).1
    = Send (mkResponse 201 (JCategory k))
    /\ getCategoryById 102
         (createCategory 40 102
            (mkCategoryBody " Payments " "Cards and transfers" (Some png_icon))
            db_one_complaint).2
       = Send (mkResponse 200 (JCategory k))
    /\ cat_name k = "Payments"%string.
Proof.
  eexists.
  pose proof (createCategory_then_getCategoryById 40 102
                (mkCategoryBody " Payments " "Cards and transfers" (Some png_icon))
                db_one_complaint _ ltac:(vm_compute; reflexivity))
    as (Hget & Hname & _).
  split; [vm_compute; reflexivity|]. split; [exact Hget|]. exact Hname.
Defined.

(** The admin adds the subcategory Invoice to Billing. *)
Lemma addSubCategory_appends_witness :
  exists k',
    (addSubCategory 40 100 202 (mkCategoryBody "Invoice" "Invoice questions" (Some png_icon))
       db_one_complaint).1
    = Send (mkResponse 201 (JCategory k'))
    /\ counters k' = (1, [(200%nat, 1); (202%nat, 0)], [mkUserCount (Some 7%nat) 1]).
Proof.
  eexists.
  destruct (addSubCategory_appends 40 100 202
              (mkCategoryBody "Invoice" "Invoice questions" (Some png_icon))
              db_one_complaint _ ltac:(vm_compute; reflexivity))
    as (k & Hk & _ & Hcounters & _).
  split; [vm_compute; reflexivity|].
  rewrite Hcounters.
  assert (Some k = categories db_one_complaint !! 100%nat) as Heq by (by rewrite Hk).
  vm_compute in Heq. injection Heq as ->. reflexivity.
Defined.

(** Renaming Billing and its subcategory Refund changes no counter. *)
Lemma updates_keep_counters_witness :
  exists k,
    categories db_one_complaint !! 100%nat = Some k
    /\ counters <$>
         categories
           (updateCategory 40 100
              (mkCategoryBody "Invoices" "Billing and refunds" None) db_one_complaint).2
           !! 100%nat
       = Some (counters k)
    /\ counters <$>
         categories
           (updateSubCategory 40 100 200
              (mkCategoryBody "Refunds" "Refund requests" None) db_one_complaint).2
           !! 100%nat
       = Some (counters k).
Proof.
  eexists.
  pose proof (updates_keep_counters 40 100 200
                (mkCategoryBody "Invoices" "Billing and refunds" None)
                db_one_complaint _ ltac:(vm_compute; reflexivity)) as [Hcat _].
  pose proof (updates_keep_counters 40 100 200
                (mkCategoryBody "Refunds" "Refund requests" None)
                db_one_complaint _ ltac:(vm_compute; reflexivity)) as [_ Hsub].
  split; [vm_compute; reflexivity|]. split; [exact Hcat|exact Hsub].
Defined.

(** The admin deletes the subcategory Late parcel, which counts nothing. *)
Lemma deleteSubCategory_removes_only_the_target_witness :
  exists k s,
    categories db_one_complaint !! 101%nat = Some k
    /\ subCategories_id 201 (cat_subCategories k) = Some s
    /\ sub_totalComplaints s <= 0
    /\ (deleteSubCategory 40 101 201 db_one_complaint).1 = Send (mkResponse 204 JEmpty)
    /\ counters <$> categories (deleteSubCategory 40 101 201 db_one_complaint).2 !! 101%nat
       = Some (0, [], []).
Proof.
  eexists. eexists.
  pose proof (deleteSubCategory_removes_only_the_target 40 101 201 db_one_complaint _ _
                ltac:(vm_compute; reflexivity) ltac:(vm_compute; reflexivity)
                ltac:(vm_compute; congruence)) as [Hreply Hcounters].
  split; [vm_compute; reflexivity|]. split; [vm_compute; reflexivity|].
  split; [vm_compute; congruence|]. split; [exact Hreply|].
  rewrite Hcounters. vm_compute. reflexivity.
Defined.

Lemma stored_categories_lookup (db : DB) (i : ObjectId) (k : Category) :
  categories db !! i = Some k -> k ∈ stored_categories db.
Proof.
  intros Hk. unfold stored_categories. apply list_elem_of_fmap. exists (i, k).
  split; [done|]. by apply elem_of_map_to_list.
Qed.

(** The listing for Alice: Billing is her one frequent category. *)
Lemma getCategories_frequent_witness :
  exists categories frequent total,
    getCategories stored_users (Some alice) db_one_complaint
    = CategoriesJson categories frequent total
    /\ cat_name <$> frequent = ["Billing"%string]
    /\ (length frequent <= 3)%nat
    /\ (forall cat, cat ∈ frequent ->
          cat ∈ stored_categories db_one_complaint /\ 0 < user_count (u_id alice) cat).
Proof.
  do 3 eexists.
  pose proof (getCategories_frequent stored_users alice db_one_complaint _ _ _
                ltac:(vm_compute; reflexivity)) as (Hlength & Hcounted & _).
  split; [vm_compute; reflexivity|]. split; [reflexivity|].
  split; [exact Hlength|exact Hcounted].
Defined.

(** Once Alice's user document is gone, the listing fails for Bob. *)
Lemma getCategories_needs_the_counted_users_witness :
  getCategories {[1%nat; 8%nat]} (Some bob) db_one_complaint
  = CategoriesNext "Cannot read properties of null (reading 'equals')".
Proof.
  assert (exists cat, categories db_one_complaint !! 100%nat = Some cat
                      /\ cat_userCounts cat = [mkUserCount (Some 7%nat) 1])
    as (cat & Hcat & Hcounts).
  { eexists. split; [vm_compute; reflexivity|reflexivity]. }
  apply (proj2 (getCategories_needs_the_counted_users {[1%nat; 8%nat]} (Some bob)
                  db_one_complaint) cat (mkUserCount (Some 7%nat) 1) []).
  - eexists. reflexivity.
  - exact (stored_categories_lookup db_one_complaint 100 cat Hcat).
  - exact Hcounts.
  - intros u [= <-] Hin. apply elem_of_union in Hin as [Hin|Hin];
      apply elem_of_singleton in Hin; discriminate Hin.
Defined.

(** The subcategories of Billing after Alice's first complaint. *)
Lemma reachable_subcategories_distinct_and_counted_witness :
  exists k,
    categories db_one_complaint !! 100%nat = Some k
    /\ NoDup (sub_id <$> cat_subCategories k)
    /\ Forall (fun s => 0 <= sub_totalComplaints s) (cat_subCategories k).
Proof.
  eexists. split; [vm_compute; reflexivity|].
  exact (reachable_subcategories_distinct_and_counted contains_at keep_address
           db_one_complaint reachable_db_one_complaint 100 _ eq_refl).
Defined.

(** The user counts of Billing after Alice's first complaint. *)
Lemma reachable_user_counts_positive_witness :
  exists k,
    categories db_one_complaint !! 100%nat = Some k
    /\ Forall (fun uc => 1 <= uc_count uc) (cat_userCounts k).
Proof.
  eexists. split; [vm_compute; reflexivity|].
  exact (reachable_user_counts_positive contains_at keep_address
           db_one_complaint reachable_db_one_complaint 100 _ eq_refl).
Defined.

(** The names of the stored categories are distinct, and a second category
    Billing is refused. *)
Lemma reachable_category_names_distinct_witness :
  names_distinct db_one_complaint
  /\ createCategory 40 102 (mkCategoryBody "Billing" "Bills of all kinds" (Some png_icon))
       db_one_complaint
     = (Next (ApiError 400 "Category already exists"), db_one_complaint).
Proof.
  destruct (reachable_category_names_distinct contains_at keep_address db_one_complaint
              reachable_db_one_complaint) as [Hnames Hcreate].
  split; [exact Hnames|].
  assert (exists k, categories db_one_complaint !! 100%nat = Some k
                    /\ cat_name k = "Billing"%string) as (k & Hk & Hname).
  { eexists. split; [vm_compute; reflexivity|reflexivity]. }
  apply (Hcreate 40%nat 102%nat (mkCategoryBody "Billing" "Bills of all kinds" (Some png_icon))
           k 100%nat); [vm_compute; reflexivity | exact Hk | exact Hname].
Defined.

(** Alice deletes her only complaint; the admin then tries to delete the
    subcategory Refund and the category Billing: Refund is still counted. *)
Lemma counted_subcategory_stays_counted_witness :
  fresh_along contains_at keep_address
    [DELETE_complaint 300 alice; DELETE_subcategory 40 100 200 admin;
     DELETE_category 100 admin] db_one_complaint = true
  /\ sub_counted 100 200 db_one_complaint
  /\ findById 300
       (run contains_at keep_address
          [DELETE_complaint 300 alice; DELETE_subcategory 40 100 200 admin;
           DELETE_category 100 admin] db_one_complaint) = None
  /\ sub_counted 100 200
       (run contains_at keep_address
          [DELETE_complaint 300 alice; DELETE_subcategory 40 100 200 admin;
           DELETE_category 100 admin] db_one_complaint).
Proof.
  assert (sub_counted 100 200 db_one_complaint) as Hcounted.
  { exists 1. split; [vm_compute; reflexivity|lia]. }
  split; [vm_compute; reflexivity|]. split; [exact Hcounted|].
  split; [vm_compute; reflexivity|].
  apply (counted_subcategory_stays_counted contains_at keep_address db_one_complaint
           [DELETE_complaint 300 alice; DELETE_subcategory 40 100 200 admin;
            DELETE_category 100 admin] 100 200 reachable_db_one_complaint);
    [vm_compute; reflexivity | exact Hcounted].
Defined.

(** The save of a second complaint of Alice under (Billing, Refund), after
    her first one was deleted without a recount: the document carries her
    id, and both counters leave the save exact. *)
Lemma save_makes_both_counters_exact_witness :
  exists k s uc saved,
    categories db_after_delete !! 100%nat = Some k
    /\ subCategories_id 200 (cat_subCategories k) = Some s
    /\ userCounts_find (RefId 7) (cat_userCounts k) = inr (Some uc)
    /\ (complaint_save 40 303 (RefId 7)
          (new_Complaint 40 303 7 "Charged again" "I was charged again in June"
             100 (Some 200%nat) Medium []) db_after_delete).1
       = Saved saved
    /\ stored_sub_count 100 200
         (complaint_save 40 303 (RefId 7)
            (new_Complaint 40 303 7 "Charged again" "I was charged again in June"
               100 (Some 200%nat) Medium []) db_after_delete).2
       = Some 1
    /\ stored_user_count 100 7
         (complaint_save 40 303 (RefId 7)
            (new_Complaint 40 303 7 "Charged again" "I was charged again in June"
               100 (Some 200%nat) Medium []) db_after_delete).2
       = Some 1.
Proof.
  do 4 eexists.
  pose proof (save_makes_both_counters_exact 40 303 (RefId 7)
                (new_Complaint 40 303 7 "Charged again" "I was charged again in June"
                   100 (Some 200%nat) Medium []) _ db_after_delete _ 200 _
                ltac:(vm_compute; reflexivity) ltac:(reflexivity)
                ltac:(vm_compute; reflexivity) ltac:(vm_compute; reflexivity))
    as (Hsub & Huser & _).
  split; [vm_compute; reflexivity|]. split; [vm_compute; reflexivity|].
  split; [vm_compute; reflexivity|]. split; [vm_compute; reflexivity|].
  split.
  - etrans; [exact Hsub|]. vm_compute. reflexivity.
  - etrans; [exact (Huser 7%nat _ eq_refl ltac:(vm_compute; reflexivity))|].
    vm_compute. reflexivity.
Defined.

(** Alice's comment on her complaint 300 is saved from a document loaded
    with [populate('user')]: the find of the hook does not see her user
    count, and the category Billing leaves the save with two entries for
    her, each with count 1. *)
Lemma comment_pushes_a_second_user_count :
  let r := post_comment 40 300 alice "Any news?" db_one_complaint in
  cat_userCounts <$> categories db_one_complaint !! 100%nat
    = Some [mkUserCount (Some 7%nat) 1]
  /\ status_code r.1 = 200%nat
  /\ cat_userCounts <$> categories r.2 !! 100%nat
     = Some [mkUserCount (Some 7%nat) 1; mkUserCount (Some 7%nat) 1].
Proof. vm_compute. split_and!; done. Qed.

(** Reconciling the stored complaint 300 a second time, with the id of
    its user, changes nothing. *)
Lemma post_save_twice_witness :
  exists c db1,
    findById 300 db_one_complaint = Some c
    /\ complaintSchema_post_save 50 (RefId 7) c db_one_complaint = inr db1
    /\ complaintSchema_post_save 50 (RefId 7) c db1 = inr db1.
Proof.
  do 2 eexists. split; [vm_compute; reflexivity|].
  split; [vm_compute; reflexivity|].
  apply (post_save_twice 50 7 _ db_one_complaint).
  - intros k Hk.
    assert (Some k = categories db_one_complaint !! 100%nat) as Heq
      by (rewrite <- Hk; reflexivity).
    vm_compute in Heq. injection Heq as ->. eexists. vm_compute. reflexivity.
  - vm_compute. reflexivity.
Defined.
